(** * Marketing-automation image pipeline: a shallow embedding

    The backend of the repository is an Express application.  This file
    embeds the parts of it that carry the pipeline's contract:

    - [backend/src/services/geminiService.ts]  (provider fallback),
    - [backend/src/services/falImageService.ts],
    - [backend/src/services/openaiService.ts]  (refusal detection,
      request bodies),
    - [backend/src/services/storageService.ts],
    - [backend/src/routes/imageFlow.ts]        (upload middleware,
      validation, orchestration),
    - [backend/src/routes/imageProxy.ts],
    - [backend/src/middlewares/errorHandler.ts],
    - [backend/src/config.ts], [backend/src/constants/aspectRatio.ts],

    and, of the Next.js frontend that calls it,

    - [frontend/app/api/image-proxy/route.ts],
    - [frontend/app/api/image-flow/route.ts],
    - [frontend/app/hooks/useImageFlow.ts],
    - [getTimeAgo] of the history components.

    Conventions.  A JavaScript string is the [string] of the bytes of its
    UTF-8 form (a surrogate that stands alone has none and is not
    represented).  On these [trim] removes the white space and line
    terminators of ECMAScript and [length] counts UTF-16 code units;
    [toLowerCase] and [toUpperCase] change the ASCII letters and carry
    other text unchanged.  Promises are run to completion: an [async]
    function is a computation in the monad [M], which threads the log
    of external calls and may throw.  Remote services (object store,
    model endpoints, HTTP) are oracles of a [World]: their answers are
    arbitrary values of the types given in [Env]. *)

From Stdlib Require Import ZArith NArith Lia Bool List Ascii String.
From stdpp Require Import base option gmap strings pretty.
Import ListNotations.
Open Scope string_scope.
Set Warnings "-register-all".

(** ** JavaScript string methods *)

Module JsString.

Definition code (c : ascii) : N := N_of_ascii c.

Definition is_upper (c : ascii) : bool := (65 <=? code c)%N && (code c <=? 90)%N.
Definition is_lower (c : ascii) : bool := (97 <=? code c)%N && (code c <=? 122)%N.

Definition lower_char (c : ascii) : ascii :=
  if is_upper c then ascii_of_N (code c + 32) else c.
Definition upper_char (c : ascii) : ascii :=
  if is_lower c then ascii_of_N (code c - 32) else c.

Fixpoint map_chars (f : ascii -> ascii) (s : string) : string :=
  match s with
  | EmptyString => EmptyString
  | String c r => String (f c) (map_chars f r)
  end.

(** [s.toLowerCase()], [s.toUpperCase()] *)
Definition toLowerCase : string -> string := map_chars lower_char.
Definition toUpperCase : string -> string := map_chars upper_char.

(** [s.startsWith(p)] *)
Fixpoint startsWith (s p : string) : bool :=
  match p with
  | EmptyString => true
  | String c p' =>
      match s with
      | EmptyString => false
      | String d s' => Ascii.eqb c d && startsWith s' p'
      end
  end.

(** [s.includes(needle)] *)
Fixpoint includes (s needle : string) : bool :=
  startsWith s needle ||
  match s with
  | EmptyString => false
  | String _ r => includes r needle
  end.

(** White space and line terminators, which [trim] removes.  Of one
    byte: TAB, LF, VT, FF, CR and SPACE. *)
Definition is_space (c : ascii) : bool :=
  let n := code c in ((9 <=? n)%N && (n <=? 13)%N) || (n =? 32)%N.

(** Of two bytes: U+00A0. *)
Definition is_space2 (a b : ascii) : bool :=
  (code a =? 194)%N && (code b =? 160)%N.

(** Of three bytes: U+1680; U+2000 to U+200A, U+2028, U+2029 and U+202F;
    U+205F; U+3000; U+FEFF. *)
Definition is_space3 (a b c : ascii) : bool :=
  let x := code a in
  let y := code b in
  let z := code c in
  ((x =? 225)%N && (y =? 154)%N && (z =? 128)%N)
  || ((x =? 226)%N && (y =? 128)%N
      && (((128 <=? z)%N && (z <=? 138)%N) || (z =? 168)%N || (z =? 169)%N || (z =? 175)%N))
  || ((x =? 226)%N && (y =? 129)%N && (z =? 159)%N)
  || ((x =? 227)%N && (y =? 128)%N && (z =? 128)%N)
  || ((x =? 239)%N && (y =? 187)%N && (z =? 191)%N).

Definition is_empty (s : string) : bool :=
  match s with EmptyString => true | String _ _ => false end.

Fixpoint trimStart (s : string) : string :=
  match s with
  | EmptyString => EmptyString
  | String a r =>
      if is_space a then trimStart r
      else
        match r with
        | String b r2 =>
            if is_space2 a b then trimStart r2
            else
              match r2 with
              | String c r3 => if is_space3 a b c then trimStart r3 else s
              | EmptyString => s
              end
        | EmptyString => s
        end
  end.

(** A text of white space only is removed whole; otherwise its first
    byte stays and the rest is treated in the same way.  (No white-space
    character starts with a byte that continues another character.) *)
Fixpoint trimEnd (s : string) : string :=
  match s with
  | EmptyString => EmptyString
  | String c r => if is_empty (trimStart s) then EmptyString else String c (trimEnd r)
  end.

(** [s.trim()] *)
Definition trim (s : string) : string := trimEnd (trimStart s).

(** [s.length], the number of UTF-16 code units: a character of the
    basic plane is one unit and starts with a byte below 128 or from 192
    to 239; a character beyond it is two units and starts with a byte
    from 240 on; the bytes 128 to 191 continue a character. *)
Definition units (c : ascii) : nat :=
  let n := code c in
  if (128 <=? n)%N && (n <=? 191)%N then 0%nat
  else if (240 <=? n)%N then 2%nat else 1%nat.

Fixpoint length (s : string) : nat :=
  match s with
  | EmptyString => 0%nat
  | String c r => (units c + length r)%nat
  end.

(** Truthiness of a string: [!s] is [negb (truthy s)]. *)
Definition truthy (s : string) : bool := negb (is_empty s).

(** [s || d] for strings. *)
Definition or_else (s d : string) : string := if truthy s then s else d.

(** [o ?? d] and the truthiness of an optional string. *)
Definition nullish (o : option string) (d : string) : string :=
  match o with Some s => s | None => d end.
Definition truthy_opt (o : option string) : bool :=
  match o with Some s => truthy s | None => false end.

(** [(n).toString()] for an integer. *)
Definition of_Z (n : Z) : string := pretty n.

End JsString.

(** ** Thrown values, results and the effect monad *)

Module Js.

(** JSON values, as sent by [res.json] and as returned by [JSON.parse].
    A number keeps its lexeme. *)
Inductive JVal :=
| JNull
| JBool (b : bool)
| JNum (lexeme : string)
| JStr (s : string)
| JArr (items : list JVal)
| JObj (members : list (string * JVal)).

(** A field that is a number or a string ([code?: number | string]). *)
Inductive FieldVal :=
| FNum (n : Z)
| FStr (s : string).

(** The fields [isQuotaExhaustedError] reads from a caught object. *)
Record ErrFields := mkErrFields {
  f_code : option FieldVal;
  f_status : option FieldVal;
  f_details : option string;
  f_message : option string
}.

(** What a [catch] clause can receive. *)
Inductive Thrown :=
| ZodError (issues : JVal) (message : string)
| HttpError (status : Z) (message : string)
| ErrorObj (fields : ErrFields)      (* an [Error] instance, possibly with provider fields *)
| PlainObj (fields : ErrFields)      (* an object that is not an [Error] *)
| Primitive.                         (* null, undefined, a string, a number, ... *)

(** [new Error(msg)] *)
Definition Error (msg : string) : Thrown :=
  ErrorObj (mkErrFields None None None (Some msg)).

(** A [TypeError] raised by the runtime, with the message V8 gives it. *)
Definition TypeError (msg : string) : Thrown :=
  ErrorObj (mkErrFields None None None (Some msg)).

(** [e instanceof Error] and [e.message] on such an instance. *)
Definition instanceofError (e : Thrown) : bool :=
  match e with
  | ZodError _ _ | HttpError _ _ | ErrorObj _ => true
  | PlainObj _ | Primitive => false
  end.

Definition error_message (e : Thrown) : string :=
  match e with
  | ZodError _ m | HttpError _ m => m
  | ErrorObj f | PlainObj f => JsString.nullish (f_message f) ""
  | Primitive => ""
  end.

Inductive Result (A : Type) :=
| Ok (a : A)
| Throw (e : Thrown).
Arguments Ok {A} a.
Arguments Throw {A} e.

(** Calls to the collaborators, in the order they are made. *)
Inductive Event :=
| EvVertexGenerateContent (prompt : string) (aspectRatio : option string)
| EvFalGenerateImage (prompt : string) (aspectRatio : option string)
| EvFalPost (prompt : string) (aspectRatio : string)
| EvFalDownload (url : string)
| EvS3Put (key : string)
| EvOpenAIReconstruct
| EvOpenAIApplyInstructions (basePrompt instructions : string)
| EvProxyFetch (url : string).

Record St := mkSt {
  trace : list Event;      (* oldest first *)
  uuids : nat              (* number of [crypto.randomUUID()] calls so far *)
}.

Definition M (A : Type) : Type := St -> Result A * St.

Definition ret {A} (a : A) : M A := fun s => (Ok a, s).
Definition throw {A} (e : Thrown) : M A := fun s => (Throw e, s).
Definition bind {A B} (m : M A) (k : A -> M B) : M B :=
  fun s => match m s with
           | (Ok a, s') => k a s'
           | (Throw e, s') => (Throw e, s')
           end.
(** [try { m } catch (e) { h e }] *)
Definition try_catch {A} (m : M A) (h : Thrown -> M A) : M A :=
  fun s => match m s with
           | (Ok a, s') => (Ok a, s')
           | (Throw e, s') => h e s'
           end.
Definition emit (ev : Event) : M unit :=
  fun s => (Ok tt, mkSt (trace s ++ [ev]) (uuids s)).
Definition fresh_uuid : M nat :=
  fun s => (Ok (uuids s), mkSt (trace s) (S (uuids s))).
(** Awaiting an external call whose answer the world has fixed. *)
Definition await {A} (r : Result A) : M A := fun s => (r, s).

Definition init : St := mkSt [] 0.

End Js.

Declare Scope js_scope.
Delimit Scope js_scope with js.
Notation "x <- m ;; k" := (Js.bind m (fun x => k))
  (at level 100, m at next level, right associativity) : js_scope.
Notation "m ;;; k" := (Js.bind m (fun _ => k))
  (at level 100, right associativity) : js_scope.

(** ** constants/aspectRatio.ts *)

Module AspectRatio.

Definition ASPECT_RATIO_OPTIONS : list string :=
  ["21:9"; "16:9"; "3:2"; "4:3"; "5:4"; "1:1"; "4:5"; "3:4"; "2:3"; "9:16"].

Definition DEFAULT_ASPECT_RATIO : string := "1:1".

Definition is_option (v : string) : bool :=
  existsb (String.eqb v) ASPECT_RATIO_OPTIONS.

Definition ensureValidAspectRatio (value : option string) : string :=
  match value with
  | Some v => if JsString.truthy v && is_option v then v else DEFAULT_ASPECT_RATIO
  | None => DEFAULT_ASPECT_RATIO
  end.

End AspectRatio.

(** ** The platform and the remote services *)

Module Env.
Import Js.

(** A text field of the multipart body as multer leaves it in
    [req.body]: a string, or something else (a repeated field). *)
Inductive FormValue :=
| FormText (s : string)
| FormOther.

(** Built-ins of the runtime and of libraries that the code calls and
    that are not written out here.  Nothing is assumed about them. *)
Record Platform := mkPlatform {
  (** [new URL(input, base).toString()]; throws on an invalid URL *)
  URL_ctor : string -> string -> Result string;
  (** [Buffer.from(data, 'base64')] *)
  base64_decode : string -> string;
  (** truthiness and [String(...)] of the number a JSON lexeme denotes *)
  number_truthy : string -> bool;
  number_toString : string -> string;
  (** [path.isAbsolute(p) ? p : path.join(process.cwd(), p)] *)
  absolute_path : string -> string;
  fs_existsSync : string -> bool;
  (** the k-th value returned by [crypto.randomUUID()] *)
  randomUUID : nat -> string;
  (** issues and message of the [ZodError] that zod raises for a
      rejected [userPrompt] / [aspectRatio] pair *)
  zod_issues : option FormValue -> option FormValue -> JVal;
  zod_message : option FormValue -> option FormValue -> string
}.

(** A part of the first candidate of a Vertex reply. *)
Inductive Part :=
| TextPart (text : string)
| InlineDataPart (data : option string).  (* ['inlineData' in part]; [data] may be missing *)

Record VertexResponse := mkVertexResponse {
  (** [response.response?.candidates]; each candidate's [content?.parts] *)
  candidates : option (list (option (list Part)))
}.

Inductive FalPostReply :=
| FalNotOk (status : Z) (responseBody : string)
| FalOk (firstImageUrl : Result (option string)).  (* [(await json()).images?.[0]?.url] *)

Record Download := mkDownload {
  dl_status : Z;
  dl_statusText : string;
  dl_contentType : option string;
  dl_arrayBuffer : Result string
}.

(** [response.ok] *)
Definition http_ok (status : Z) : bool := ((200 <=? status) && (status <=? 299))%Z.

(** The body of a 2xx reply of the chat endpoint, as far as
    [chatCompletions] reads it: an object whose [choices] and [usage]
    may be missing. *)
Record Completion := mkCompletion {
  (** [None]: the body has no [choices]; [Some content]: it has, and
      [content] is [choices[0]?.message?.content] *)
  choices : option (option string);
  (** the body has a [usage] object *)
  usage : bool
}.

Inductive ChatReply :=
| ChatFails (e : Thrown)                       (* [fetch] or [response.json()] rejects *)
| ChatNotOk (status : Z) (apiMessage : option string) (statusText : string)
| ChatBody (responseData : Completion).        (* a 2xx reply *)

(** A 2xx reply of the declared type [ChatCompletionResponse]. *)
Definition ChatOk (content : option string) : ChatReply :=
  ChatBody (mkCompletion (Some content) true).

Record PutObject := mkPutObject {
  put_bucket : string;
  put_key : string;
  put_body : string;
  put_contentType : string
}.

(** The answers of the remote services during one request. *)
Record World := mkWorld {
  s3_send : PutObject -> Result unit;
  openai_reconstruct : string -> string -> ChatReply;
  openai_apply : string -> string -> option (list (string * string)) -> ChatReply;
  vertex_generateContent : string -> option string -> Result VertexResponse;
  fal_post : string -> string -> Result FalPostReply;
  http_get : string -> Result Download
}.

End Env.

(** ** config.ts *)

Module Config.
Import Js Env.

Record OpenAIConfig := mkOpenAIConfig {
  openai_apiKey : option string;
  systemPromptImageUnderstand : string;
  systemPromptPromptEditor : string
}.

Record StorageConfig := mkStorageConfig {
  accessKeyId : string;
  secretAccessKey : string;
  bucket : string;
  endpoint : string;
  folder : string;
  publicBaseUrl : string
}.

Record GoogleConfig := mkGoogleConfig {
  projectId : string;
  location : string;
  credentialsPath : option string
}.

Record FalConfig := mkFalConfig {
  fal_apiKey : option string;
  fal_endpoint : string;
  fal_modelId : string;
  fal_aspectRatio : string
}.

Record ImageConfig := mkImageConfig {
  outputFormat : string;
  maxReferenceImages : string    (* argument of [Number(...)] *)
}.

Record AppConfig := mkAppConfig {
  port : string;                 (* argument of [Number(...)] *)
  openai : OpenAIConfig;
  storage : StorageConfig;
  google : GoogleConfig;
  fal : FalConfig;
  image : ImageConfig
}.

Definition FAL_DEFAULT_ENDPOINT := "https://fal.run/fal-ai/gemini-25-flash-image".
Definition FAL_DEFAULT_MODEL_ID := "fal-ai/gemini-25-flash-image".

(** The two built-in system prompts, multi-paragraph literals of
    config.ts, are passed in. *)
Record Defaults := mkDefaults {
  DEFAULT_SYSTEM_PROMPT_IMAGE_UNDERSTAND : string;
  DEFAULT_SYSTEM_PROMPT_PROMPT_EDITOR : string
}.

(** Sequencing of the initialisers of the [config] object literal. *)
Definition rbind {A B} (r : Result A) (k : A -> Result B) : Result B :=
  match r with Ok a => k a | Throw e => Throw e end.

Definition resolveCredentialPath (P : Platform) (filePath : option string)
  : Result (option string) :=
  if negb (JsString.truthy_opt filePath) then Ok None
  else
    let absolutePath := absolute_path P (JsString.nullish filePath "") in
    if negb (fs_existsSync P absolutePath)
    then Throw (Error ("Google credential file not found at " ++ absolutePath
                       ++ ". Update GOOGLE_APPLICATION_CREDENTIALS."))
    else Ok (Some absolutePath).

Definition required (env : gmap string string) (name : string)
    (fallback : option string) : Result string :=
  let value := match env !! name with Some v => Some v | None => fallback end in
  if negb (JsString.truthy_opt value)
  then Throw (Error ("Missing required environment variable " ++ name))
  else Ok (JsString.nullish value "").

Definition getenv_or (env : gmap string string) (name d : string) : string :=
  JsString.nullish (env !! name) d.

(** Evaluation of [export const config = { ... }], top to bottom. *)
Definition loadConfig (P : Platform) (D : Defaults) (env : gmap string string)
  : Result AppConfig :=
  let port := getenv_or env "PORT" "4000" in
  let openai :=
    mkOpenAIConfig (env !! "OPENAI_API_KEY")
      (getenv_or env "SYSTEM_PROMPT_IMAGE_UNDERSTAND"
         (DEFAULT_SYSTEM_PROMPT_IMAGE_UNDERSTAND D))
      (getenv_or env "SYSTEM_PROMPT_PROMPT_EDITOR"
         (DEFAULT_SYSTEM_PROMPT_PROMPT_EDITOR D)) in
  rbind (required env "S3_ACCESS_KEY" None) (fun accessKeyId =>
  rbind (required env "S3_SECRET_KEY" None) (fun secretAccessKey =>
  rbind (required env "S3_BUCKET_NAME" None) (fun bucket =>
  rbind (required env "S3_ENDPOINT_URL" None) (fun endpoint =>
  let folder := getenv_or env "S3_FOLDER" "internaluse" in
  rbind (required env "S3_PUBLIC_LINK" None) (fun publicBaseUrl =>
  rbind (required env "GOOGLE_VERTEX_PROJECT_ID" (Some "nano-banana-472210"))
    (fun projectId =>
  rbind (required env "GOOGLE_VERTEX_LOCATION" (Some "us-central1")) (fun location =>
  rbind (resolveCredentialPath P (env !! "GOOGLE_APPLICATION_CREDENTIALS"))
    (fun credentialsPath =>
  Ok (mkAppConfig port openai
        (mkStorageConfig accessKeyId secretAccessKey bucket endpoint folder
           publicBaseUrl)
        (mkGoogleConfig projectId location credentialsPath)
        (mkFalConfig (env !! "FAL_API_KEY")
           (getenv_or env "FAL_GEMINI_ENDPOINT" FAL_DEFAULT_ENDPOINT)
           (getenv_or env "FAL_GEMINI_MODEL_ID" FAL_DEFAULT_MODEL_ID)
           (AspectRatio.ensureValidAspectRatio (env !! "FAL_GEMINI_ASPECT_RATIO")))
        (mkImageConfig (getenv_or env "IMAGE_OUTPUT_FORMAT" "png")
           (getenv_or env "MAX_REFERENCE_IMAGES" "2"))))))))))).

(** index.ts imports [config] before it builds the application and
    calls [app.listen]: a throw while the configuration is evaluated
    ends the process, otherwise the server accepts requests. *)
Inductive Process :=
| Crashed (e : Thrown)
| Listening (cfg : AppConfig).

Definition startup (P : Platform) (D : Defaults) (env : gmap string string) : Process :=
  match loadConfig P D env with
  | Throw e => Crashed e
  | Ok cfg => Listening cfg
  end.

End Config.

(** ** middlewares/errorHandler.ts *)

Module Http.
Import Js.

Inductive Body :=
| JsonBody (j : JVal)
| ImageBody (headers : list (string * string)) (bytes : string).

Record Response := mkResponse {
  status : Z;
  body : Body
}.

(** [res.status(st).json(obj)] *)
Definition json (st : Z) (members : list (string * JVal)) : Response :=
  mkResponse st (JsonBody (JObj members)).

(** [err.details] is never supplied by this code base, so the
    serialised body of an [HttpError] carries [message] only. *)
Definition errorHandler (err : Thrown) : Response :=
  match err with
  | ZodError issues _ =>
      json 400 [("message", JStr "Invalid payload"); ("issues", issues)]
  | HttpError st message =>
      json st [("message", JStr message)]
  | _ =>
      json 500 [("message", JStr "Unexpected error occurred")]
  end.

(** Modelled from the spec: middlewares/asyncHandler.ts is not among the
    sources.  A handler that returns has sent its response; a handler
    that throws hands the error to [errorHandler] ("failures bubble up
    as fatal errors for the current request"). *)
Definition asyncHandler (handler : M Response) (s : St) : Response * St :=
  match handler s with
  | (Ok r, s') => (r, s')
  | (Throw e, s') => (errorHandler e, s')
  end.

(** Reading a property of a JSON body. *)
Fixpoint assoc (k : string) (members : list (string * JVal)) : option JVal :=
  match members with
  | [] => None
  | (k', v) :: r => if String.eqb k k' then Some v else assoc k r
  end.

Definition field (k : string) (r : Response) : option JVal :=
  match body r with
  | JsonBody (JObj members) => assoc k members
  | _ => None
  end.

End Http.

(** ** [JSON.parse] and the regular expression of chatCompletionsJSON *)

Module Json.
Import Js.

Inductive Token :=
| TLBrace | TRBrace | TLBracket | TRBracket | TColon | TComma
| TString (s : string)
| TWord (w : string).              (* a number or one of true, false, null *)

Definition snoc (s : string) (c : ascii) : string := s ++ String c EmptyString.

Definition is_digit (c : ascii) : bool :=
  (48 <=? JsString.code c)%N && (JsString.code c <=? 57)%N.

Definition hex_value (c : ascii) : option N :=
  let n := JsString.code c in
  if is_digit c then Some (n - 48)%N
  else if ((97 <=? n) && (n <=? 102))%N then Some (n - 87)%N
  else if ((65 <=? n) && (n <=? 70))%N then Some (n - 55)%N
  else None.

(** A code unit written as \uXXXX: ASCII as itself, the others in the
    bytes of their UTF-8 form. *)
Definition unit_bytes (u : N) : string :=
  if (u <? 128)%N then String (ascii_of_N u) EmptyString
  else if (u <? 2048)%N then
    String (ascii_of_N (192 + u / 64)) (String (ascii_of_N (128 + u mod 64)) EmptyString)
  else
    String (ascii_of_N (224 + u / 4096))
      (String (ascii_of_N (128 + (u / 64) mod 64))
         (String (ascii_of_N (128 + u mod 64)) EmptyString)).

(** JSON white space: TAB, LF, CR, SPACE. *)
Definition is_ws (c : ascii) : bool :=
  let n := JsString.code c in
  (n =? 9)%N || (n =? 10)%N || (n =? 13)%N || (n =? 32)%N.

Definition punct (c : ascii) : option Token :=
  let n := JsString.code c in
  if (n =? 123)%N then Some TLBrace
  else if (n =? 125)%N then Some TRBrace
  else if (n =? 91)%N then Some TLBracket
  else if (n =? 93)%N then Some TRBracket
  else if (n =? 58)%N then Some TColon
  else if (n =? 44)%N then Some TComma
  else None.

Inductive LexMode :=
| LIdle
| LWord (acc : string)
| LString (acc : string)
| LEscape (acc : string)
| LUnicode (acc : string) (value : N) (missing : nat).

Definition escape_char (c : ascii) : option ascii :=
  let n := JsString.code c in
  if (n =? 34)%N || (n =? 92)%N || (n =? 47)%N then Some c
  else if (n =? 98)%N then Some (ascii_of_N 8)
  else if (n =? 102)%N then Some (ascii_of_N 12)
  else if (n =? 110)%N then Some (ascii_of_N 10)
  else if (n =? 114)%N then Some (ascii_of_N 13)
  else if (n =? 116)%N then Some (ascii_of_N 9)
  else None.

(** The tokens of a text, most recent first; [None] on a lexical error. *)
Fixpoint lex (mode : LexMode) (acc : list Token) (s : string) : option (list Token) :=
  match s with
  | EmptyString =>
      match mode with
      | LIdle => Some acc
      | LWord w => Some (TWord w :: acc)
      | _ => None
      end
  | String c r =>
      match mode with
      | LIdle | LWord _ =>
          let acc' := match mode with LWord w => TWord w :: acc | _ => acc end in
          if is_ws c then lex LIdle acc' r
          else match punct c with
               | Some t => lex LIdle (t :: acc') r
               | None =>
                   if (JsString.code c =? 34)%N then lex (LString EmptyString) acc' r
                   else match mode with
                        | LWord w => lex (LWord (snoc w c)) acc r
                        | _ => lex (LWord (String c EmptyString)) acc r
                        end
               end
      | LString a =>
          if (JsString.code c =? 34)%N then lex LIdle (TString a :: acc) r
          else if (JsString.code c =? 92)%N then lex (LEscape a) acc r
          else if (JsString.code c <? 32)%N then None
          else lex (LString (snoc a c)) acc r
      | LEscape a =>
          if (JsString.code c =? 117)%N then lex (LUnicode a 0 4) acc r
          else match escape_char c with
               | Some e => lex (LString (snoc a e)) acc r
               | None => None
               end
      | LUnicode a v n =>
          match hex_value c, n with
          | Some h, 1 => lex (LString (a ++ unit_bytes (16 * v + h))) acc r
          | Some h, S n' => lex (LUnicode a (16 * v + h)%N n') acc r
          | _, _ => None
          end
      end
  end.

(** The JSON number grammar: an optional minus sign; then 0, or a
    digit 1-9 and further digits; then optionally a dot and at least
    one digit; then optionally e or E, an optional sign and at least
    one digit. *)
Inductive NumState :=
| NStart | NMinus | NZero | NInt | NDot | NFrac | NE | NESign | NExp.

Definition num_step (st : NumState) (c : ascii) : option NumState :=
  let n := JsString.code c in
  let digit := is_digit c in
  let e := (n =? 101)%N || (n =? 69)%N in
  match st with
  | NStart =>
      if (n =? 45)%N then Some NMinus
      else if (n =? 48)%N then Some NZero else if digit then Some NInt else None
  | NMinus => if (n =? 48)%N then Some NZero else if digit then Some NInt else None
  | NZero => if (n =? 46)%N then Some NDot else if e then Some NE else None
  | NInt =>
      if digit then Some NInt
      else if (n =? 46)%N then Some NDot else if e then Some NE else None
  | NDot => if digit then Some NFrac else None
  | NFrac => if digit then Some NFrac else if e then Some NE else None
  | NE =>
      if (n =? 43)%N || (n =? 45)%N then Some NESign
      else if digit then Some NExp else None
  | NESign => if digit then Some NExp else None
  | NExp => if digit then Some NExp else None
  end.

Fixpoint num_run (st : NumState) (s : string) : option NumState :=
  match s with
  | EmptyString => Some st
  | String c r => match num_step st c with Some st' => num_run st' r | None => None end
  end.

Definition valid_number (w : string) : bool :=
  match num_run NStart w with
  | Some NZero | Some NInt | Some NFrac | Some NExp => true
  | _ => false
  end.

Definition word_value (w : string) : option JVal :=
  if String.eqb w "true" then Some (JBool true)
  else if String.eqb w "false" then Some (JBool false)
  else if String.eqb w "null" then Some JNull
  else if valid_number w then Some (JNum w)
  else None.

(** Containers that are still open. *)
Inductive Frame :=
| FArr (rev_items : list JVal)
| FObj (rev_members : list (string * JVal)) (key : option string).

Inductive Mode :=
| MValue            (* a value must follow *)
| MArrStart         (* just after '[' *)
| MObjStart         (* just after '{' *)
| MObjKey           (* after ',' inside an object *)
| MColon            (* after a key *)
| MHave (v : JVal). (* a value is complete *)

Definition step (stack : list Frame) (mode : Mode) (t : Token)
  : option (list Frame * Mode) :=
  match mode with
  | MValue | MArrStart =>
      match t with
      | TString s => Some (stack, MHave (JStr s))
      | TWord w => match word_value w with Some v => Some (stack, MHave v) | None => None end
      | TLBracket => Some (FArr [] :: stack, MArrStart)
      | TLBrace => Some (FObj [] None :: stack, MObjStart)
      | TRBracket =>
          match mode, stack with
          | MArrStart, FArr [] :: rest => Some (rest, MHave (JArr []))
          | _, _ => None
          end
      | _ => None
      end
  | MObjStart | MObjKey =>
      match t, stack with
      | TString k, FObj ms None :: rest => Some (FObj ms (Some k) :: rest, MColon)
      | TRBrace, FObj [] None :: rest =>
          match mode with MObjStart => Some (rest, MHave (JObj [])) | _ => None end
      | _, _ => None
      end
  | MColon => match t with TColon => Some (stack, MValue) | _ => None end
  | MHave v =>
      match stack, t with
      | FArr items :: rest, TComma => Some (FArr (v :: items) :: rest, MValue)
      | FArr items :: rest, TRBracket => Some (rest, MHave (JArr (rev (v :: items))))
      | FObj ms (Some k) :: rest, TComma => Some (FObj ((k, v) :: ms) None :: rest, MObjKey)
      | FObj ms (Some k) :: rest, TRBrace => Some (rest, MHave (JObj (rev ((k, v) :: ms))))
      | _, _ => None
      end
  end.

Fixpoint run (stack : list Frame) (mode : Mode) (ts : list Token) : option JVal :=
  match ts with
  | [] => match stack, mode with [], MHave v => Some v | _, _ => None end
  | t :: r =>
      match step stack mode t with
      | Some (stack', mode') => run stack' mode' r
      | None => None
      end
  end.

(** [JSON.parse(text)]; [None] stands for the SyntaxError it throws. *)
Definition parse (text : string) : option JVal :=
  match lex LIdle [] text with
  | Some rev_tokens => run [] MValue (rev rev_tokens)
  | None => None
  end.

(** [obj.k] on a parsed value: the last member named [k] of an object. *)
Fixpoint last_member (k : string) (members : list (string * JVal)) : option JVal :=
  match members with
  | [] => None
  | (k', v) :: r =>
      match last_member k r with
      | Some v' => Some v'
      | None => if String.eqb k k' then Some v else None
      end
  end.

Definition prop (k : string) (v : JVal) : option JVal :=
  match v with JObj members => last_member k members | _ => None end.

(** [content.match(/\{[\s\S]*\}/)]: from the first opening brace to the
    last closing brace after it. *)
Fixpoint from_first_brace (s : string) : option string :=
  match s with
  | EmptyString => None
  | String c r => if (JsString.code c =? 123)%N then Some r else from_first_brace r
  end.

Fixpoint upto_last_brace (s : string) : option string :=
  match s with
  | EmptyString => None
  | String c r =>
      match upto_last_brace r with
      | Some t => Some (String c t)
      | None => if (JsString.code c =? 125)%N then Some (String c EmptyString) else None
      end
  end.

Definition match_json_block (content : string) : option string :=
  match from_first_brace content with
  | Some r =>
      match upto_last_brace r with
      | Some t => Some (String "{"%char t)
      | None => None
      end
  | None => None
  end.

(** Truthiness, [v || d] and [String(v)] of a JSON value. *)
Definition truthy (P : Env.Platform) (v : JVal) : bool :=
  match v with
  | JNull => false
  | JBool b => b
  | JNum l => Env.number_truthy P l
  | JStr s => JsString.truthy s
  | JArr _ | JObj _ => true
  end.

Definition or_else (P : Env.Platform) (v : JVal) (d : string) : JVal :=
  if truthy P v then v else JStr d.

Fixpoint join (sep : string) (l : list string) : string :=
  match l with
  | [] => EmptyString
  | [x] => x
  | x :: r => x ++ sep ++ join sep r
  end.

Fixpoint toString (P : Env.Platform) (v : JVal) : string :=
  match v with
  | JNull => "null"
  | JBool true => "true"
  | JBool false => "false"
  | JNum l => Env.number_toString P l
  | JStr s => s
  | JArr items =>
      join "," (map (fun x => match x with JNull => EmptyString | _ => toString P x end) items)
  | JObj _ => "[object Object]"
  end.

End Json.

(** ** services/openaiService.ts *)

Module OpenAI.
Import Js Env Config.
Local Open Scope js_scope.

(** [PromptGenerationResponse].  The fields are declared [string] and
    [boolean]; the lenient branch of [chatCompletionsJSON] returns
    whatever the model's JSON held, hence JSON values. *)
Record PromptGenerationResponse := mkPrompt {
  prompt : JVal;
  isPromptGenerated : JVal
}.

(** [new OpenAIService(apiKey)]: the service is its API key. *)
Definition createOpenAIService (cfg : AppConfig) (apiKey : option string)
  : Result string :=
  let key :=
    if JsString.truthy_opt apiKey then JsString.nullish apiKey ""
    else if JsString.truthy_opt (openai_apiKey (openai cfg))
         then JsString.nullish (openai_apiKey (openai cfg)) ""
         else "" in
  if negb (JsString.truthy key)
  then Throw (Error "OpenAI API key is required. Set OPENAI_API_KEY environment variable.")
  else Ok key.

(** [makeRequest]: the POST to /chat/completions; it returns the body
    of a 2xx reply. *)
Definition makeRequest (ev : Event) (reply : ChatReply) : M Completion :=
  emit ev ;;;
  try_catch
    match reply with
    | ChatFails e => throw e
    | ChatNotOk status apiMessage statusText =>
        throw (Error ("OpenAI API error (" ++ JsString.of_Z status ++ "): "
                      ++ JsString.or_else (JsString.nullish apiMessage "") statusText))
    | ChatBody responseData => ret responseData
    end
    (fun error =>
       if instanceofError error then throw error
       else throw (Error "OpenAI API request failed")).

(** [chatCompletions]: [response.choices[0]] is read first, then the
    content is tested, then [response.usage.total_tokens] is read for
    the log; neither read is guarded. *)
Definition chatCompletions (ev : Event) (reply : ChatReply) : M string :=
  response <- makeRequest ev reply ;;
  match choices response with
  | None => throw (TypeError "Cannot read properties of undefined (reading '0')")
  | Some content =>
      if negb (JsString.truthy_opt content)
      then throw (Error "OpenAI did not return any content")
      else if negb (usage response)
      then throw (TypeError "Cannot read properties of undefined (reading 'total_tokens')")
      else ret (JsString.nullish content "")
  end.

(** The refusal test of [reconstructPromptFromImage]. *)
Definition isRefusal_reconstruct (content : string) : bool :=
  JsString.includes (JsString.toLowerCase content) "i'm sorry" ||
  JsString.includes (JsString.toLowerCase content) "i can't assist" ||
  JsString.includes (JsString.toLowerCase content) "can't help" ||
  JsString.includes (JsString.toLowerCase content) "cannot" ||
  JsString.includes (JsString.toLowerCase content) "unable to".

(** The refusal test in the [catch] clause of [chatCompletionsJSON]. *)
Definition isRefusal_json (content : string) : bool :=
  JsString.includes (JsString.toLowerCase content) "i'm sorry" ||
  JsString.includes (JsString.toLowerCase content) "i can't assist" ||
  JsString.includes (JsString.toLowerCase content) "cannot" ||
  JsString.includes (JsString.toLowerCase content) "unable to".

(** The part of [chatCompletionsJSON] that follows the model call:
    the [try] block and its [catch] clause.  Only [JSON.parse] can
    throw inside the [try]. *)
Definition chatCompletionsJSON_parse (P : Platform) (content : string)
  : PromptGenerationResponse :=
  match Json.match_json_block content with
  | None =>
      (* no JSON found: treated as plain text *)
      mkPrompt (JStr content) (JBool false)
  | Some block =>
      match Json.parse block with
      | Some parsed =>
          match Json.prop "prompt" parsed, Json.prop "isPromptGenerated" parsed with
          | Some (JStr p), Some (JBool g) =>
              mkPrompt (JStr (JsString.trim p)) (JBool g)
          | p, g =>
              (* invalid structure: parsed.prompt || content,
                 parsed.isPromptGenerated ?? false *)
              mkPrompt
                match p with
                | Some v => Json.or_else P v content
                | None => JStr content
                end
                match g with
                | Some JNull | None => JBool false
                | Some v => v
                end
          end
      | None =>
          (* catch: JSON.parse threw *)
          mkPrompt (JStr content) (JBool (negb (isRefusal_json content)))
      end
  end.

Definition chatCompletionsJSON (P : Platform) (ev : Event) (reply : ChatReply)
  : M PromptGenerationResponse :=
  content <- chatCompletions ev reply ;;
  ret (chatCompletionsJSON_parse P content).

Definition reconstructPromptFromImage (w : World) (imageBuffer mimeType : string)
  : M PromptGenerationResponse :=
  content <- chatCompletions EvOpenAIReconstruct
               (openai_reconstruct w imageBuffer mimeType) ;;
  ret (mkPrompt (JStr content) (JBool (negb (isRefusal_reconstruct content)))).

Definition applyUserInstructions (P : Platform) (w : World)
    (basePrompt userInstructions : string)
    (referenceImageBuffers : option (list (string * string)))
  : M PromptGenerationResponse :=
  chatCompletionsJSON P (EvOpenAIApplyInstructions basePrompt userInstructions)
    (openai_apply w basePrompt userInstructions referenceImageBuffers).

End OpenAI.

(** ** services/falImageService.ts *)

Module Fal.
Import Js Env Config.
Local Open Scope js_scope.

(** [FalImageService.generateImage(prompt, options)] *)
Definition generateImage (cfg : AppConfig) (w : World) (prompt : string)
    (aspectRatio : option string) : M string :=
  emit (EvFalGenerateImage prompt aspectRatio) ;;;
  if negb (JsString.truthy_opt (fal_apiKey (fal cfg)))
  then throw (Error "FAL_API_KEY must be configured to use fal.ai as a fallback provider.")
  else
    let aspect_ratio := JsString.nullish aspectRatio (fal_aspectRatio (fal cfg)) in
    emit (EvFalPost prompt aspect_ratio) ;;;
    falResponse <- await (fal_post w prompt aspect_ratio) ;;
    match falResponse with
    | FalNotOk status responseBody =>
        throw (Error ("fal.ai request failed (" ++ JsString.of_Z status ++ "): "
                      ++ responseBody))
    | FalOk payload =>
        imageUrl <- await payload ;;
        if negb (JsString.truthy_opt imageUrl)
        then throw (Error "fal.ai response did not include an image URL.")
        else
          let url := JsString.nullish imageUrl "" in
          emit (EvFalDownload url) ;;;
          imageResponse <- await (http_get w url) ;;
          if negb (http_ok (dl_status imageResponse))
          then throw (Error ("fal.ai image download failed with status "
                             ++ JsString.of_Z (dl_status imageResponse) ++ "."))
          else await (dl_arrayBuffer imageResponse)
    end.

End Fal.

(** ** services/geminiService.ts *)

Module Gemini.
Import Js Env Config.
Local Open Scope js_scope.

Definition RESOURCE_EXHAUSTED_CODE : Z := 8.
Definition RESOURCE_EXHAUSTED_STATUS : string := "RESOURCE_EXHAUSTED".

(** The caught value seen through the cast to
    [{ code?, status?, details?, message? }]; nothing for a value that
    is falsy or not an object. *)
Definition as_candidate (error : Thrown) : option ErrFields :=
  match error with
  | Primitive => None
  | ErrorObj f | PlainObj f => Some f
  | HttpError st m => Some (mkErrFields None (Some (FNum st)) None (Some m))
  | ZodError _ m => Some (mkErrFields None None None (Some m))
  end.

(** [v === RESOURCE_EXHAUSTED_CODE] and [v === RESOURCE_EXHAUSTED_STATUS] *)
Definition is_num (v : option FieldVal) (n : Z) : bool :=
  match v with Some (FNum m) => Z.eqb m n | _ => false end.
Definition is_str (v : option FieldVal) (s : string) : bool :=
  match v with Some (FStr t) => String.eqb t s | _ => false end.

Definition detailText (candidate : ErrFields) : string :=
  JsString.toUpperCase
    (JsString.nullish (f_details candidate) "" ++ " "
     ++ JsString.nullish (f_message candidate) "").

Definition isQuotaExhaustedError (error : Thrown) : bool :=
  match as_candidate error with
  | None => false
  | Some candidate =>
      if is_num (f_code candidate) RESOURCE_EXHAUSTED_CODE
         || is_str (f_code candidate) RESOURCE_EXHAUSTED_STATUS
         || is_str (f_status candidate) RESOURCE_EXHAUSTED_STATUS
      then true
      else JsString.includes (detailText candidate) RESOURCE_EXHAUSTED_STATUS
           || JsString.includes (detailText candidate) "QUOTA"
  end.

Definition buildVertexGenerationConfig (aspectRatio : option string) : option string :=
  if negb (JsString.truthy_opt aspectRatio) then None else aspectRatio.

Definition has_inlineData (part : Part) : bool :=
  match part with InlineDataPart _ => true | TextPart _ => false end.

Definition generateWithVertex (P : Platform) (w : World) (prompt : string)
    (aspectRatio : option string) : M string :=
  let generationConfig := buildVertexGenerationConfig aspectRatio in
  emit (EvVertexGenerateContent prompt generationConfig) ;;;
  response <- await (vertex_generateContent w prompt generationConfig) ;;
  let inlineData :=
    match candidates response with
    | Some (Some parts :: _) => List.find has_inlineData parts
    | _ => None
    end in
  match inlineData with
  | Some (InlineDataPart (Some data)) =>
      if negb (JsString.truthy data)
      then throw (Error "Gemini did not return inline image data")
      else ret (base64_decode P data)
  | _ => throw (Error "Gemini did not return inline image data")
  end.

(** [GeminiService.generateImage(prompt, options)] *)
Definition generateImage (P : Platform) (cfg : AppConfig) (w : World)
    (prompt : string) (aspectRatio : option string) : M string :=
  let resolved :=
    Some (JsString.nullish aspectRatio (fal_aspectRatio (fal cfg))) in
  try_catch (generateWithVertex P w prompt resolved)
    (fun error =>
       if isQuotaExhaustedError error
       then Fal.generateImage cfg w prompt resolved
       else throw error).

End Gemini.

(** ** services/storageService.ts *)

Module Storage.
Import Js Env Config.
Local Open Scope js_scope.

Record UploadOptions := mkUploadOptions {
  up_buffer : string;
  up_mimeType : string;
  up_prefix : string;                (* 'inputs' | 'outputs' *)
  up_extension : option string
}.

Record Upload := mkUpload {
  key : string;
  url : string
}.

Fixpoint until_slash (s : string) : string :=
  match s with
  | EmptyString => EmptyString
  | String c r => if (JsString.code c =? 47)%N then EmptyString else String c (until_slash r)
  end.

(** [mimeType.split('/')[1]] *)
Fixpoint split_second (s : string) : option string :=
  match s with
  | EmptyString => None
  | String c r => if (JsString.code c =? 47)%N then Some (until_slash r) else split_second r
  end.

Definition uploadBuffer (P : Platform) (cfg : AppConfig) (w : World)
    (options : UploadOptions) : M Upload :=
  n <- fresh_uuid ;;
  let id := randomUUID P n in
  let extension :=
    match up_extension options with
    | Some e => e
    | None =>
        match split_second (up_mimeType options) with
        | Some e => e
        | None => "bin"
        end
    end in
  let key :=
    folder (storage cfg) ++ "/" ++ up_prefix options ++ "/" ++ id ++ "." ++ extension in
  emit (EvS3Put key) ;;;
  await (s3_send w (mkPutObject (bucket (storage cfg)) key (up_buffer options)
                      (up_mimeType options))) ;;;
  url <- await (URL_ctor P key (publicBaseUrl (storage cfg))) ;;
  ret (mkUpload key url).

(** [Promise.all] over uploads that have all been started: every one
    runs; the first failure in list order is the one reported. *)
Fixpoint promise_all {A} (ms : list (M A)) : M (list A) :=
  match ms with
  | [] => ret []
  | m :: r =>
      fun s =>
        match m s with
        | (Ok a, s1) =>
            match promise_all r s1 with
            | (Ok l, s2) => (Ok (a :: l), s2)
            | (Throw e, s2) => (Throw e, s2)
            end
        | (Throw e, s1) => (Throw e, snd (promise_all r s1))
        end
  end.

End Storage.

(** ** routes/imageFlow.ts *)

Module ImageFlow.
Import Js Env Config Http.
Local Open Scope js_scope.

Definition MAX_PAYLOAD_SIZE : N := 50 * 1024 * 1024.

Definition SUPPORTED_MIME_TYPES : list string :=
  ["image/png"; "image/jpeg"; "image/jpg"; "image/webp"; "image/gif"].

(** [Express.Multer.File] *)
Record File := mkFile {
  mimetype : string;
  size : N;
  buffer : string
}.

Record Request := mkRequest {
  req_baseImage : option File;          (* [req.files?.['baseImage']?.[0]] *)
  req_referenceImages : list File;      (* [req.files?.['referenceImages'] ?? []] *)
  req_userPrompt : option FormValue;    (* [req.body.userPrompt] *)
  req_aspectRatio : option FormValue    (* [req.body.aspectRatio] *)
}.

Definition supported (mime : string) : bool :=
  existsb (String.eqb mime) SUPPORTED_MIME_TYPES.

Definition pad2 (n : N) : string :=
  if (n <? 10)%N then "0" ++ pretty n else pretty n.

(** [(size / 1024 / 1024).toFixed(2)].  The quotient by 2^20 is exact in
    binary64 for every byte count below 2^53, and [toFixed(2)] prints
    the nearest multiple of 1/100, the larger one on a tie. *)
Definition megabytes (size : N) : string :=
  let hundredths := ((200 * size + 1048576) / 2097152)%N in
  pretty (hundredths / 100)%N ++ "." ++ pad2 (hundredths mod 100)%N.

Definition validateImage (file : File) (context : string) : Result unit :=
  if negb (supported (mimetype file))
  then Throw (HttpError 400
         (context ++ ": Unsupported image format. Supported: PNG, JPEG, WEBP, GIF. Received: "
          ++ mimetype file))
  else if (MAX_PAYLOAD_SIZE <? size file)%N
  then Throw (HttpError 400
         (context ++ ": Image size (" ++ megabytes (size file) ++ " MB) exceeds 50 MB limit."))
  else Ok tt.

(** [referenceImages.reduce((sum, img) => sum + img.size, 0)] *)
Definition sum_sizes (referenceImages : list File) : N :=
  fold_left (fun sum img => (sum + size img)%N) referenceImages 0%N.

Definition validateTotalPayloadSize (baseImage : File) (referenceImages : list File)
  : Result unit :=
  let totalSize := (size baseImage + sum_sizes referenceImages)%N in
  if (MAX_PAYLOAD_SIZE <? totalSize)%N
  then Throw (HttpError 400
         ("Total image payload size (" ++ megabytes totalSize
          ++ " MB) exceeds 50 MB limit per request."))
  else Ok tt.

(** [referenceImages.forEach((img, index) => validateImage(img, ...))] *)
Fixpoint validateReferences (referenceImages : list File) (index : nat) : Result unit :=
  match referenceImages with
  | [] => Ok tt
  | img :: r =>
      match validateImage img ("Reference image " ++ pretty (index + 1)%nat) with
      | Ok _ => validateReferences r (S index)
      | Throw e => Throw e
      end
  end.

(** The three checks of the handler, in its order. *)
Definition validate (baseImage : File) (referenceImages : list File) : Result unit :=
  match validateImage baseImage "Base image" with
  | Throw e => Throw e
  | Ok _ =>
      match validateReferences referenceImages 0 with
      | Throw e => Throw e
      | Ok _ => validateTotalPayloadSize baseImage referenceImages
      end
  end.

(** types/imageFlow.ts: [imageFlowSchema.parse]. *)
Record Payload := mkPayload {
  userPrompt : option string;
  aspectRatio : option string
}.

Definition imageFlowSchema_parse (P : Platform)
    (userPrompt aspectRatio : option FormValue) : Result Payload :=
  let reject := Throw (ZodError (zod_issues P userPrompt aspectRatio)
                                (zod_message P userPrompt aspectRatio)) in
  match userPrompt with
  | Some FormOther => reject
  | _ =>
      let up := match userPrompt with Some (FormText s) => Some s | _ => None end in
      match aspectRatio with
      | None => Ok (mkPayload up None)
      | Some (FormText a) =>
          if AspectRatio.is_option a then Ok (mkPayload up (Some a)) else reject
      | Some FormOther => reject
      end
  end.

(** The body shared by the six early 502 responses. *)
Definition short_circuit (baseImage : string) (referenceImages : list string)
    (prompt1 prompt2 : JVal) (error : string) : Response :=
  json 502
    [("baseImage", JStr baseImage);
     ("referenceImages", JArr (map JStr referenceImages));
     ("prompt1", prompt1);
     ("prompt2", prompt2);
     ("outputImage", JNull);
     ("error", JStr error);
     ("isPromptGenerated", JBool false)].

(** [expr.trim()] on a value that need not be a string: a TypeError
    when it is not. *)
Definition trim_method (expr : string) (v : JVal) : Result string :=
  match v with
  | JStr s => Ok (JsString.trim s)
  | JNull => Throw (Error "Cannot read properties of null (reading 'trim')")
  | _ => Throw (Error (expr ++ ".trim is not a function"))
  end.

(** [!s || s.length < 3] *)
Definition too_short (s : string) : bool :=
  negb (JsString.truthy s) || (JsString.length s <? 3)%nat.

(** STEP 1: either the response that ends the request, or [prompt1]. *)
Definition step1 (P : Platform) (w : World) (baseImage : File)
    (baseUrl : string) (refUrls : list string) : M (Response + string) :=
  try_catch
    (promptResponse1 <-
       OpenAI.reconstructPromptFromImage w (buffer baseImage) (mimetype baseImage) ;;
     if negb (Json.truthy P (OpenAI.isPromptGenerated promptResponse1))
     then
       ret (inl (short_circuit baseUrl refUrls
                   (Json.or_else P (OpenAI.prompt promptResponse1)
                      "Prompt reconstruction failed")
                   JNull
                   ("OpenAI could not reconstruct the prompt: "
                    ++ Json.toString P
                         (Json.or_else P (OpenAI.prompt promptResponse1)
                            "Request was refused. Please try with a different image."))))
     else
       trimmedPrompt1 <-
           await (trim_method "promptResponse1.prompt" (OpenAI.prompt promptResponse1)) ;;
       if too_short trimmedPrompt1
       then
         ret (inl (short_circuit baseUrl refUrls
                     (JStr (JsString.or_else trimmedPrompt1 "Invalid prompt"))
                     JNull
                     "OpenAI did not return a valid reconstructed prompt. Please try again with a different image."))
       else ret (inr trimmedPrompt1))
    (fun error =>
       ret (inl (short_circuit baseUrl refUrls JNull JNull
                   (if instanceofError error
                    then "OpenAI prompt reconstruction failed: " ++ error_message error
                    else "OpenAI prompt reconstruction failed")))).

Definition trimmed_instructions (payload : Payload) : string :=
  match userPrompt payload with
  | Some s => JsString.or_else (JsString.trim s) ""
  | None => ""
  end.

(** [userPrompt.length > 0]: the text is not empty. *)
Definition hasUserInstructions (payload : Payload) : bool :=
  (0 <? String.length (trimmed_instructions payload))%nat.

(** STEP 2: either the response that ends the request, or [prompt2]
    with [step2Executed]. *)
Definition step2 (P : Platform) (w : World) (payload : Payload)
    (referenceImages : list File) (baseUrl : string) (refUrls : list string)
    (prompt1 : string) : M (Response + string * bool) :=
  if negb (hasUserInstructions payload)
  then ret (inr (prompt1, false))
  else
    try_catch
      (let referenceImageBuffers :=
         match referenceImages with
         | [] => None
         | _ => Some (map (fun img => (buffer img, mimetype img)) referenceImages)
         end in
       promptResponse <-
         OpenAI.applyUserInstructions P w prompt1 (trimmed_instructions payload)
           referenceImageBuffers ;;
       if negb (Json.truthy P (OpenAI.isPromptGenerated promptResponse))
       then
         ret (inl (short_circuit baseUrl refUrls (JStr prompt1)
                     (Json.or_else P (OpenAI.prompt promptResponse)
                        "Prompt generation failed")
                     ("OpenAI could not generate the prompt: "
                      ++ Json.toString P
                           (Json.or_else P (OpenAI.prompt promptResponse)
                              "Request was refused. Please try different instructions."))))
       else
         trimmedPrompt2 <-
             await (trim_method "promptResponse.prompt" (OpenAI.prompt promptResponse)) ;;
         if too_short trimmedPrompt2
         then
           ret (inl (short_circuit baseUrl refUrls (JStr prompt1)
                       (JStr (JsString.or_else trimmedPrompt2 "Invalid prompt"))
                       "OpenAI did not return a valid updated prompt. Please try again."))
         else ret (inr (trimmedPrompt2, true)))
      (fun error =>
         ret (inl (short_circuit baseUrl refUrls (JStr prompt1) JNull
                     (if instanceofError error
                      then "OpenAI prompt editing failed: " ++ error_message error
                      else "OpenAI prompt editing failed")))).

Definition upload_input (P : Platform) (cfg : AppConfig) (w : World) (image : File)
  : M Storage.Upload :=
  Storage.uploadBuffer P cfg w
    (Storage.mkUploadOptions (buffer image) (mimetype image) "inputs" None).

(** The body of the final 200 response. *)
Definition success (baseImageUpload : Storage.Upload)
    (referenceUploads : list Storage.Upload) (prompt1 prompt2 : string)
    (outputUpload : Storage.Upload) (step2Executed : bool) : Response :=
  json 200
    [("baseImage", JStr (Storage.url baseImageUpload));
     ("baseImageKey", JStr (Storage.key baseImageUpload));
     ("referenceImages", JArr (map (fun u => JStr (Storage.url u)) referenceUploads));
     ("referenceImageKeys", JArr (map (fun u => JStr (Storage.key u)) referenceUploads));
     ("prompt1", JStr prompt1);
     ("prompt2", JStr prompt2);
     ("outputImage", JStr (Storage.url outputUpload));
     ("outputImageKey", JStr (Storage.key outputUpload));
     ("isPromptGenerated", JBool true);
     ("step2Executed", JBool step2Executed)].

(** STEP 3 and the final response. *)
Definition step3 (P : Platform) (cfg : AppConfig) (w : World) (payload : Payload)
    (baseImageUpload : Storage.Upload) (referenceUploads : list Storage.Upload)
    (prompt1 prompt2 : string) (step2Executed : bool) : M Response :=
  generatedImageBuffer <- Gemini.generateImage P cfg w prompt2 (aspectRatio payload) ;;
  outputUpload <-
    Storage.uploadBuffer P cfg w
      (Storage.mkUploadOptions generatedImageBuffer
         ("image/" ++ outputFormat (image cfg)) "outputs"
         (Some (outputFormat (image cfg)))) ;;
  ret (success baseImageUpload referenceUploads prompt1 prompt2 outputUpload
         step2Executed).

(** What follows a successful STEP 1. *)
Definition after_step1 (P : Platform) (cfg : AppConfig) (w : World) (payload : Payload)
    (referenceImages : list File)
    (baseImageUpload : Storage.Upload) (referenceUploads : list Storage.Upload)
    (prompt1 : string) : M Response :=
  r2 <- step2 P w payload referenceImages (Storage.url baseImageUpload)
          (map Storage.url referenceUploads) prompt1 ;;
  match r2 with
  | inl response => ret response
  | inr (prompt2, step2Executed) =>
      step3 P cfg w payload baseImageUpload referenceUploads prompt1 prompt2
        step2Executed
  end.

(** Everything from STEP 1 on: the part of the handler that follows
    [createOpenAIService()]. *)
Definition stages (P : Platform) (cfg : AppConfig) (w : World) (payload : Payload)
    (baseImage : File) (referenceImages : list File)
    (baseImageUpload : Storage.Upload) (referenceUploads : list Storage.Upload)
  : M Response :=
  r1 <- step1 P w baseImage (Storage.url baseImageUpload)
          (map Storage.url referenceUploads) ;;
  match r1 with
  | inl response => ret response
  | inr prompt1 =>
      after_step1 P cfg w payload referenceImages baseImageUpload referenceUploads prompt1
  end.

(** What the handler has in hand when it reaches
    [createOpenAIService()]. *)
Record Prepared := mkPrepared {
  pr_payload : Payload;
  pr_baseImage : File;
  pr_baseImageUpload : Storage.Upload;
  pr_referenceUploads : list Storage.Upload
}.

(** The handler up to that point: validation, schema, uploads. *)
Definition prepare (P : Platform) (cfg : AppConfig) (w : World) (req : Request)
  : M Prepared :=
  match req_baseImage req with
  | None => throw (HttpError 400 "baseImage file is required")
  | Some baseImage =>
      let referenceImages := req_referenceImages req in
      await (validate baseImage referenceImages) ;;;
      payload <- await (imageFlowSchema_parse P (req_userPrompt req) (req_aspectRatio req)) ;;
      baseImageUpload <- upload_input P cfg w baseImage ;;
      referenceUploads <-
        Storage.promise_all (map (upload_input P cfg w) referenceImages) ;;
      ret (mkPrepared payload baseImage baseImageUpload referenceUploads)
  end.

(** The function passed to [asyncHandler] in [router.post('/')]. *)
Definition handler (P : Platform) (cfg : AppConfig) (w : World) (req : Request)
  : M Response :=
  pr <- prepare P cfg w req ;;
  _ <- await (OpenAI.createOpenAIService cfg None) ;;
  stages P cfg w (pr_payload pr) (pr_baseImage pr) (req_referenceImages req)
    (pr_baseImageUpload pr) (pr_referenceUploads pr).

(** The handler under [asyncHandler]: the answer to a request that the
    [upload] middleware has let through. *)
Definition post (P : Platform) (cfg : AppConfig) (w : World) (req : Request)
  : Response * St :=
  asyncHandler (handler P cfg w req) init.

(** *** The [upload] middleware

    [router.post] runs [upload.fields(...)] before the handler.  The
    options are the code's: memory storage, [limits.fileSize] and
    [limits.files], the [fileFilter], and the two fields with their
    [maxCount].  What multer does with them is written out: it takes the
    file parts in the order they arrive and stops at the first that it
    refuses, handing its error to the error handler. *)

(** A file part of the multipart body that carries a file name. *)
Record FilePart := mkFilePart {
  fieldname : string;
  part_file : File
}.

(** The request as it arrives.  The text fields are taken to be within
    multer's default limits. *)
Record Incoming := mkIncoming {
  in_files : list FilePart;
  in_userPrompt : option FormValue;
  in_aspectRatio : option FormValue
}.

(** [new MulterError(code)] *)
Definition MulterError (code message : string) : Thrown :=
  ErrorObj (mkErrFields (Some (FStr code)) None None (Some message)).

(** The [fileFilter] option. *)
Definition fileFilter (file : File) : Result bool :=
  if supported (mimetype file) then Ok true
  else Throw (Error ("Unsupported file type: " ++ mimetype file
                     ++ ". Supported formats: PNG, JPEG, WEBP, and non-animated GIF.")).

(** The files multer has stored, by field. *)
Record Files := mkFiles {
  files_baseImage : list File;
  files_referenceImages : list File
}.

(** [upload.fields([{ name: 'baseImage', maxCount: 1 },
    { name: 'referenceImages', maxCount: maxReferenceImages }])] with
    [limits.files = 1 + maxReferenceImages] and
    [limits.fileSize = MAX_PAYLOAD_SIZE].  [seen] counts the file parts
    so far; [baseLeft] and [referencesLeft] are the files the two fields
    may still take.  For each part: the count of files, the field, the
    filter, and the size while the part is read. *)
Fixpoint upload_fields (maxReferenceImages seen baseLeft referencesLeft : nat)
    (parts : list FilePart) : Result Files :=
  match parts with
  | [] => Ok (mkFiles [] [])
  | p :: rest =>
      let file := part_file p in
      let checked (k : Result Files) (store : Files -> Files) : Result Files :=
        match fileFilter file with
        | Throw e => Throw e
        | Ok false => k
        | Ok true =>
            if (MAX_PAYLOAD_SIZE <? size file)%N
            then Throw (MulterError "LIMIT_FILE_SIZE" "File too large")
            else match k with
                 | Ok files => Ok (store files)
                 | Throw e => Throw e
                 end
        end in
      if (seen =? 1 + maxReferenceImages)%nat
      then Throw (MulterError "LIMIT_FILE_COUNT" "Too many files")
      else if String.eqb (fieldname p) "baseImage"
      then
        match baseLeft with
        | O => Throw (MulterError "LIMIT_UNEXPECTED_FILE" "Unexpected field")
        | S remaining =>
            checked (upload_fields maxReferenceImages (S seen) remaining referencesLeft rest)
              (fun files =>
                 mkFiles (file :: files_baseImage files) (files_referenceImages files))
        end
      else if String.eqb (fieldname p) "referenceImages"
      then
        match referencesLeft with
        | O => Throw (MulterError "LIMIT_UNEXPECTED_FILE" "Unexpected field")
        | S remaining =>
            checked (upload_fields maxReferenceImages (S seen) baseLeft remaining rest)
              (fun files =>
                 mkFiles (files_baseImage files) (file :: files_referenceImages files))
        end
      else Throw (MulterError "LIMIT_UNEXPECTED_FILE" "Unexpected field")
  end.

Definition upload (maxReferenceImages : nat) (incoming : Incoming) : Result Request :=
  match upload_fields maxReferenceImages 0 1 maxReferenceImages (in_files incoming) with
  | Throw e => Throw e
  | Ok files =>
      Ok (mkRequest (head (files_baseImage files)) (files_referenceImages files)
            (in_userPrompt incoming) (in_aspectRatio incoming))
  end.

(** [POST /api/image-flow] as the client sees it: the middleware, then
    the handler.  [maxReferenceImages] is the number that
    [config.image.maxReferenceImages] holds, taken to be a natural
    number (2 unless MAX_REFERENCE_IMAGES says otherwise). *)
Definition route (P : Platform) (cfg : AppConfig) (w : World)
    (maxReferenceImages : nat) (incoming : Incoming) : Response * St :=
  match upload maxReferenceImages incoming with
  | Throw e => (errorHandler e, init)
  | Ok req => post P cfg w req
  end.

End ImageFlow.

(** ** routes/imageProxy.ts *)

Module ImageProxy.
Import Js Env Config Http.
Local Open Scope js_scope.

Record Query := mkQuery {
  q_url : option string;       (* [req.query.url] *)
  q_key : option string        (* [req.query.key] *)
}.

(** utils/logger.ts: a [Logger] has the methods [info] and [error] and
    no other, so the call [logger.warn(...)] is a call of [undefined]. *)
Definition logger_warn : Result unit :=
  Throw (TypeError "logger.warn is not a function").

(** The choice of [finalUrl]. *)
Definition resolve (P : Platform) (cfg : AppConfig) (q : Query) : Result string :=
  if JsString.truthy_opt (q_key q)
  then URL_ctor P (JsString.nullish (q_key q) "") (publicBaseUrl (storage cfg))
  else if JsString.truthy_opt (q_url q)
  then
    let imageUrl := JsString.nullish (q_url q) "" in
    let storageBaseUrl := publicBaseUrl (storage cfg) in
    if JsString.truthy storageBaseUrl && negb (JsString.startsWith imageUrl storageBaseUrl)
    then
      match logger_warn with
      | Throw e => Throw e
      | Ok _ => Throw (HttpError 403 "Only images from configured storage are allowed")
      end
    else Ok imageUrl
  else Throw (HttpError 400 "Missing required query parameter: url or key").

Definition fetch_image (w : World) (finalUrl : string) : M Response :=
  try_catch
    (emit (EvProxyFetch finalUrl) ;;;
     response <- await (http_get w finalUrl) ;;
     if negb (http_ok (dl_status response))
     then throw (HttpError (dl_status response)
                   ("Failed to fetch image: " ++ dl_statusText response))
     else
       let contentType :=
         JsString.or_else (JsString.nullish (dl_contentType response) "") "image/jpeg" in
       imageBuffer <- await (dl_arrayBuffer response) ;;
       ret (mkResponse 200
              (ImageBody
                 [("Content-Type", contentType);
                  ("Content-Length", pretty (String.length imageBuffer));
                  ("Cache-Control", "public, max-age=31536000, immutable");
                  ("Access-Control-Allow-Origin", "*")]
                 imageBuffer)))
    (fun error =>
       match error with
       | HttpError _ _ => throw error
       | _ =>
           throw (HttpError 500
                    ("Failed to fetch image: "
                     ++ (if instanceofError error then error_message error
                         else "Unknown error")))
       end).

(** The function passed to [asyncHandler] in [router.get('/')]. *)
Definition handler (P : Platform) (cfg : AppConfig) (w : World) (q : Query)
  : M Response :=
  finalUrl <- await (resolve P cfg q) ;;
  fetch_image w finalUrl.

(** [GET /api/image-proxy] as the client sees it. *)
Definition get (P : Platform) (cfg : AppConfig) (w : World) (q : Query)
  : Response * St :=
  asyncHandler (handler P cfg w q) init.

End ImageProxy.

(** ** Sample inputs

    A concrete platform, configuration and world on which the handlers
    can be run.  [URL_model] is the WHATWG resolution of [input] against
    [base] for http(s) URLs written with plain path characters: an
    absolute [input] is kept (with "/" for an empty path), an [input]
    that starts with "/" replaces the path of [base], any other [input]
    replaces the last segment of the path of [base]. *)

Module Sample.
Import Js Env Config.

Fixpoint skip (n : nat) (s : string) : string :=
  match n, s with
  | S n', String _ r => skip n' r
  | _, _ => s
  end.

Definition scheme_length (s : string) : option nat :=
  if JsString.startsWith s "https://" then Some 8%nat
  else if JsString.startsWith s "http://" then Some 7%nat
  else None.

Fixpoint upto_last_slash (s : string) : string :=
  match s with
  | EmptyString => EmptyString
  | String c r =>
      match upto_last_slash r with
      | EmptyString => if (JsString.code c =? 47)%N then String c EmptyString else EmptyString
      | t => String c t
      end
  end.

Definition take (n : nat) (s : string) : string := String.substring 0 n s.

Definition with_path (url : string) (n : nat) : string :=
  if JsString.includes (skip n url) "/" then url else url ++ "/".

Definition origin (url : string) (n : nat) : string :=
  take n url ++ Storage.until_slash (skip n url).

Definition URL_model (input base : string) : Result string :=
  match scheme_length input with
  | Some n => Ok (with_path input n)
  | None =>
      match scheme_length base with
      | Some n =>
          if JsString.startsWith input "/" then Ok (origin base n ++ input)
          else Ok (origin base n
                   ++ upto_last_slash (skip (String.length (origin base n)) (with_path base n))
                   ++ input)
      | None =>
          Throw (ErrorObj (mkErrFields (Some (FStr "ERR_INVALID_URL")) None None
                             (Some "Invalid URL")))
      end
  end.

Definition platform : Platform :=
  mkPlatform URL_model (fun data => data) (fun _ => true) (fun lexeme => lexeme)
    (fun p => p) (fun _ => true) (fun n => "uuid-" ++ pretty n)
    (fun _ _ => JArr []) (fun _ _ => "Invalid payload").

Definition defaults : Defaults := mkDefaults "image understanding" "prompt editor".

(** An environment with the object store configured and no model keys. *)
Definition env : gmap string string :=
  <["S3_ACCESS_KEY" := "access"]>
  (<["S3_SECRET_KEY" := "secret"]>
  (<["S3_BUCKET_NAME" := "assets"]>
  (<["S3_ENDPOINT_URL" := "https://s3.example.com"]>
  (<["S3_PUBLIC_LINK" := "https://cdn.example.com/"]> ∅)))).

Definition cfg_no_keys : AppConfig :=
  mkAppConfig "4000"
    (mkOpenAIConfig None "image understanding" "prompt editor")
    (mkStorageConfig "access" "secret" "assets" "https://s3.example.com" "internaluse"
       "https://cdn.example.com/")
    (mkGoogleConfig "nano-banana-472210" "us-central1" None)
    (mkFalConfig None FAL_DEFAULT_ENDPOINT FAL_DEFAULT_MODEL_ID "1:1")
    (mkImageConfig "png" "2").

Definition cfg : AppConfig :=
  mkAppConfig "4000"
    (mkOpenAIConfig (Some "sk-test") "image understanding" "prompt editor")
    (storage cfg_no_keys) (google cfg_no_keys)
    (mkFalConfig (Some "fal-test") FAL_DEFAULT_ENDPOINT FAL_DEFAULT_MODEL_ID "1:1")
    (image cfg_no_keys).

Definition image_reply : Download := mkDownload 200 "OK" (Some "image/png") (Ok "PNG").

Definition vertex_image : VertexResponse :=
  mkVertexResponse (Some [Some [InlineDataPart (Some "aW1n")]]).

Definition dq : string := String (ascii_of_N 34) EmptyString.

(** The JSON text of [{ prompt: p, isPromptGenerated: true }]. *)
Definition json_reply (p : string) : string :=
  "{" ++ dq ++ "prompt" ++ dq ++ ": " ++ dq ++ p ++ dq ++ ", "
  ++ dq ++ "isPromptGenerated" ++ dq ++ ": true}".

(** Every service answers; Stage 1 describes the image, Stage 2 edits
    the description. *)
Definition world : World :=
  mkWorld (fun _ => Ok tt)
    (fun _ _ => ChatOk (Some "A red bicycle leaning on a brick wall"))
    (fun _ _ _ => ChatOk (Some (json_reply "A blue bicycle leaning on a brick wall")))
    (fun _ _ => Ok vertex_image)
    (fun _ _ => Ok (FalOk (Ok (Some "https://fal.example/out.png"))))
    (fun _ => Ok image_reply).

(** The same world with another answer of the primary image model. *)
Definition world_vertex (r : Result VertexResponse) : World :=
  mkWorld (s3_send world) (openai_reconstruct world) (openai_apply world)
    (fun _ _ => r) (fal_post world) (http_get world).

(** The same world with other answers of the vision model. *)
Definition world_openai (stage1 stage2 : ChatReply) : World :=
  mkWorld (s3_send world) (fun _ _ => stage1) (fun _ _ _ => stage2)
    (vertex_generateContent world) (fal_post world) (http_get world).

(** The same world with an object store that refuses the outputs. *)
Definition world_outputs_refused : World :=
  mkWorld
    (fun put => if JsString.includes (put_key put) "/outputs/"
                then Throw (Error "store unavailable") else Ok tt)
    (openai_reconstruct world) (openai_apply world)
    (vertex_generateContent world) (fal_post world) (http_get world).

Definition png (size : N) : ImageFlow.File := ImageFlow.mkFile "image/png" size "bytes".

Definition request (instructions : option string) : ImageFlow.Request :=
  ImageFlow.mkRequest (Some (png 1000)) []
    (match instructions with Some s => Some (FormText s) | None => None end)
    (Some (FormText "1:1")).

End Sample.

(** ** The specification's wording

    Predicates written from the sentences of the specification, to be
    compared with the functions above. *)

Module Spec.
Import Js Env.

(** "numeric code equals 8; a textual status field equals
    RESOURCE_EXHAUSTED; or the concatenation of details + message
    (uppercased) contains RESOURCE_EXHAUSTED or QUOTA" *)
Definition quota_text (c : ErrFields) : string :=
  JsString.toUpperCase
    (JsString.nullish (f_details c) "" ++ JsString.nullish (f_message c) "").

Definition quota_condition (e : Thrown) : bool :=
  match Gemini.as_candidate e with
  | None => false
  | Some c =>
      Gemini.is_num (f_code c) 8
      || Gemini.is_str (f_status c) "RESOURCE_EXHAUSTED"
      || JsString.includes (quota_text c) "RESOURCE_EXHAUSTED"
      || JsString.includes (quota_text c) "QUOTA"
  end.

(** The condition with the two amendments: a code that is the string
    RESOURCE_EXHAUSTED counts, and details and message are joined by
    one space. *)
Definition quota_condition_amended (e : Thrown) : Prop :=
  exists c, Gemini.as_candidate e = Some c /\
    (f_code c = Some (FNum 8)
     \/ f_code c = Some (FStr "RESOURCE_EXHAUSTED")
     \/ f_status c = Some (FStr "RESOURCE_EXHAUSTED")
     \/ JsString.includes
          (JsString.toUpperCase
             (JsString.nullish (f_details c) "" ++ " "
              ++ JsString.nullish (f_message c) ""))
          "RESOURCE_EXHAUSTED" = true
     \/ JsString.includes
          (JsString.toUpperCase
             (JsString.nullish (f_details c) "" ++ " "
              ++ JsString.nullish (f_message c) ""))
          "QUOTA" = true).

(** The fallback provider was invoked. *)
Definition is_fallback_call (ev : Event) : bool :=
  match ev with EvFalGenerateImage _ _ => true | _ => false end.
Definition fallback_invoked (events : list Event) : bool :=
  existsb is_fallback_call events.

(** Stages of the pipeline, as they show in the log of calls. *)
Definition is_reconstruct (ev : Event) : bool :=
  match ev with EvOpenAIReconstruct => true | _ => false end.
Definition is_apply (ev : Event) : bool :=
  match ev with EvOpenAIApplyInstructions _ _ => true | _ => false end.
Definition is_vertex (ev : Event) : bool :=
  match ev with EvVertexGenerateContent _ _ => true | _ => false end.
Definition is_s3 (ev : Event) : bool :=
  match ev with EvS3Put _ => true | _ => false end.
Definition is_fal (ev : Event) : bool :=
  match ev with
  | EvFalGenerateImage _ _ | EvFalPost _ _ | EvFalDownload _ => true
  | _ => false
  end.

Definition reached_stage1 (events : list Event) : bool := existsb is_reconstruct events.
Definition stage2_ran (events : list Event) : bool := existsb is_apply events.
Definition synthesis_started (events : list Event) : bool := existsb is_vertex events.

(** A field of a JSON body that is absent or null. *)
Definition null_field (k : string) (r : Http.Response) : Prop :=
  Http.field k r = None \/ Http.field k r = Some JNull.

(** A bare error object: a message, and none of the pipeline's fields. *)
Definition message_only (r : Http.Response) : Prop :=
  (exists m, Http.field "message" r = Some (JStr m))
  /\ Http.field "error" r = None
  /\ Http.field "baseImage" r = None
  /\ Http.field "referenceImages" r = None
  /\ Http.field "prompt1" r = None
  /\ Http.field "prompt2" r = None
  /\ Http.field "outputImage" r = None
  /\ Http.field "outputImageKey" r = None
  /\ Http.field "isPromptGenerated" r = None
  /\ Http.field "step2Executed" r = None.

(** "user instructions (post-trim) are non-empty" *)
Definition has_instructions (payload : ImageFlow.Payload) : Prop :=
  match ImageFlow.userPrompt payload with
  | Some s => JsString.trim s <> EmptyString
  | None => False
  end.

(** The same on the request: the form field [userPrompt] is a text
    that is not empty after trimming. *)
Definition instructions_given (req : ImageFlow.Request) : Prop :=
  match ImageFlow.req_userPrompt req with
  | Some (FormText s) => JsString.trim s <> EmptyString
  | _ => False
  end.

(** A file that passes the per-file checks. *)
Definition acceptable (file : ImageFlow.File) : Prop :=
  ImageFlow.supported (ImageFlow.mimetype file) = true
  /\ (ImageFlow.size file <= ImageFlow.MAX_PAYLOAD_SIZE)%N.

(** "reporting the offending size": a size in MB with two decimals.
    [text] writes the whole number of hundredths of a MB that is nearest
    to the size, the larger one when two are equally near. *)
Definition digit (n : N) : ascii := ascii_of_N (48 + n).



Definition payload_too_large (total : N) : Thrown :=
  HttpError 400
    ("Total image payload size (" ++ ImageFlow.megabytes total
     ++ " MB) exceeds 50 MB limit per request.").

(** A configuration with another vision-model key. *)
Definition with_openai_key (k : option string) (cfg : Config.AppConfig) : Config.AppConfig :=
  Config.mkAppConfig (Config.port cfg)
    (Config.mkOpenAIConfig k
       (Config.systemPromptImageUnderstand (Config.openai cfg))
       (Config.systemPromptPromptEditor (Config.openai cfg)))
    (Config.storage cfg) (Config.google cfg) (Config.fal cfg) (Config.image cfg).

Definition with_fal_key (k : option string) (cfg : Config.AppConfig) : Config.AppConfig :=
  Config.mkAppConfig (Config.port cfg) (Config.openai cfg) (Config.storage cfg)
    (Config.google cfg)
    (Config.mkFalConfig k (Config.fal_endpoint (Config.fal cfg))
       (Config.fal_modelId (Config.fal cfg)) (Config.fal_aspectRatio (Config.fal cfg)))
    (Config.image cfg).

(** The response sent for the outcome of a handler. *)
Definition response_of (r : Result Http.Response) : Http.Response :=
  match r with Ok response => response | Throw e => Http.errorHandler e end.

(** How a request that reached Stage 1 can end, given the calls made
    from Stage 1 on. *)
Inductive Ending (P : Platform) (cfg : Config.AppConfig) (w : World)
    (baseImageUpload : Storage.Upload) (referenceUploads : list Storage.Upload)
    (events : list Event) : Result Http.Response -> Prop :=
| ShortCircuit prompt1 prompt2 error :
    synthesis_started events = false ->
    Ending P cfg w baseImageUpload referenceUploads events
      (Ok (ImageFlow.short_circuit (Storage.url baseImageUpload)
             (map Storage.url referenceUploads) prompt1 prompt2 error))
| Stage3Failure e :
    synthesis_started events = true ->
    Ending P cfg w baseImageUpload referenceUploads events (Throw e)
| Success prompt1 prompt2 ar outputUpload step2Executed s0 s1 image :
    synthesis_started events = true ->
    Gemini.generateImage P cfg w prompt2 ar s0 = (Ok image, s1) ->
    step2Executed = stage2_ran events ->
    (step2Executed = false -> prompt2 = prompt1) ->
    Ending P cfg w baseImageUpload referenceUploads events
      (Ok (ImageFlow.success baseImageUpload referenceUploads prompt1 prompt2
             outputUpload step2Executed)).

(** The five refusal markers of section 4.3.1. *)
Definition refusal_markers : list string :=
  ["i'm sorry"; "i can't assist"; "can't help"; "cannot"; "unable to"].

Definition is_refusal (reply : string) : bool :=
  existsb (JsString.includes (JsString.toLowerCase reply)) refusal_markers.

End Spec.

(** ** services/openaiService.ts: the request bodies *)

Module Chat.
Import Js Env Config.

Definition OPENAI_MODELS_CHAT : string := "gpt-4o".
Definition OPENAI_MODELS_VISION : string := "gpt-4o".
Definition OPENAI_MODELS_LIGHTWEIGHT : string := "gpt-4o-mini".

Inductive Role := system | user | assistant.

Inductive PartType := text_type | image_url_type.      (* 'text' | 'image_url' *)

Record ContentPart := mkPart {
  type : PartType;
  text : option string;
  image_url : option string                            (* [image_url?.url] *)
}.

(** [content: string | Array<...>] *)
Inductive Content :=
| Text (s : string)
| Parts (parts : list ContentPart).

Record ChatMessage := mkMessage {
  role : Role;
  content : Content
}.

Record Options := mkOptions {
  opt_model : option string;
  opt_temperature : option string;       (* a number, as its lexeme *)
  opt_maxTokens : option string;
  opt_jsonMode : bool
}.

Record ChatCompletionRequest := mkRequest {
  model : string;
  messages : list ChatMessage;
  temperature : string;
  max_tokens : option string;
  response_format : option string        (* the [type] of [{ type: 'json_object' }] *)
}.

Definition nl : string := String (ascii_of_N 10) EmptyString.
Definition dq : string := String (ascii_of_N 34) EmptyString.

(** The request that [chatCompletions] posts. *)
Definition chatCompletions_request (messages : list ChatMessage) (options : Options)
  : ChatCompletionRequest :=
  mkRequest
    (JsString.or_else (JsString.nullish (opt_model options) "") OPENAI_MODELS_CHAT)
    messages
    (JsString.nullish (opt_temperature options) "0.7")
    (opt_maxTokens options)
    (if opt_jsonMode options then Some "json_object" else None).

Definition jsonInstruction : string :=
  nl ++ nl
  ++ "IMPORTANT: You must respond with a valid JSON object in this exact format:" ++ nl
  ++ "{" ++ nl
  ++ "  " ++ dq ++ "prompt" ++ dq ++ ": " ++ dq ++ "the generated prompt text here" ++ dq
  ++ "," ++ nl
  ++ "  " ++ dq ++ "isPromptGenerated" ++ dq ++ ": true" ++ nl
  ++ "}" ++ nl ++ nl
  ++ "If you cannot generate the prompt (e.g., content policy violation, unclear request), set isPromptGenerated to false and provide a brief explanation in the prompt field.".

(** [contentArray] after the instruction has been added to it. *)
Definition instructed_parts (contentArray : list ContentPart) : list ContentPart :=
  match last contentArray with
  | Some (mkPart text_type t u) =>
      <[ (length contentArray - 1)%nat :=
           mkPart text_type
             (Some (JsString.or_else (JsString.nullish t "") "" ++ jsonInstruction)) u ]>
        contentArray
  | _ => contentArray ++ [mkPart text_type (Some jsonInstruction) None]
  end.

(** [modifiedMessages] of [chatCompletionsJSON]. *)
Definition modifiedMessages (messages : list ChatMessage) : list ChatMessage :=
  match last messages with
  | Some (mkMessage user c) =>
      <[ (length messages - 1)%nat :=
           mkMessage user
             match c with
             | Text s => Text (s ++ jsonInstruction)
             | Parts contentArray => Parts (instructed_parts contentArray)
             end ]>
        messages
  | _ => messages
  end.

(** The request that [chatCompletionsJSON] posts. *)
Definition chatCompletionsJSON_request (messages : list ChatMessage) (options : Options)
  : ChatCompletionRequest :=
  chatCompletions_request (modifiedMessages messages)
    (mkOptions (opt_model options) (opt_temperature options) (opt_maxTokens options) true).

(** [`data:${mimeType};base64,${base64}`]; [toBase64] is
    [buffer.toString('base64')]. *)
Definition dataUri (toBase64 : string -> string) (buffer mimeType : string) : string :=
  "data:" ++ mimeType ++ ";base64," ++ toBase64 buffer.

(** The request that [analyzeImage] posts. *)
Definition analyzeImage_request (toBase64 : string -> string)
    (imageBuffer mimeType prompt : string) (systemPrompt : option string)
  : ChatCompletionRequest :=
  chatCompletions_request
    ((if JsString.truthy_opt systemPrompt
      then [mkMessage system (Text (JsString.nullish systemPrompt ""))]
      else [])
     ++ [mkMessage user
           (Parts [mkPart text_type (Some prompt) None;
                   mkPart image_url_type None
                     (Some (dataUri toBase64 imageBuffer mimeType))])])
    (mkOptions (Some OPENAI_MODELS_VISION) None None false).

(** The request that [reconstructPromptFromImage] posts. *)
Definition reconstructPromptFromImage_request (toBase64 : string -> string)
    (cfg : AppConfig) (imageBuffer mimeType : string) : ChatCompletionRequest :=
  analyzeImage_request toBase64 imageBuffer mimeType
    "Analyze this image and return a detailed prompt that could recreate it."
    (Some (systemPromptImageUnderstand (openai cfg))).

(** The parts pushed by [referenceImageBuffers.forEach((ref, index) => ...)]. *)
Fixpoint reference_parts (toBase64 : string -> string)
    (referenceImageBuffers : list (string * string)) (index : nat) : list ContentPart :=
  match referenceImageBuffers with
  | [] => []
  | (buffer, mimeType) :: r =>
      mkPart image_url_type None (Some (dataUri toBase64 buffer mimeType))
      :: mkPart text_type (Some ("Reference image #" ++ pretty (index + 1)%nat)) None
      :: reference_parts toBase64 r (S index)
  end.

Definition task_text (basePrompt userInstructions : string) : string :=
  "Task: Edit an image generation prompt for a text-to-image AI model." ++ nl
  ++ nl
  ++ "Base prompt:" ++ nl
  ++ basePrompt ++ nl
  ++ nl
  ++ "User modification instructions:" ++ nl
  ++ userInstructions ++ nl
  ++ nl
  ++ "Update the base prompt by incorporating the user's modifications. Preserve all unchanged elements.".

(** The request that [applyUserInstructions] posts. *)
Definition applyUserInstructions_request (toBase64 : string -> string) (cfg : AppConfig)
    (basePrompt userInstructions : string)
    (referenceImageBuffers : option (list (string * string))) : ChatCompletionRequest :=
  let content :=
    mkPart text_type (Some (task_text basePrompt userInstructions)) None
    :: match referenceImageBuffers with
       | Some refs => reference_parts toBase64 refs 0
       | None => []
       end in
  chatCompletionsJSON_request
    [mkMessage system (Text (systemPromptPromptEditor (openai cfg)));
     mkMessage user (Parts content)]
    (mkOptions (Some OPENAI_MODELS_CHAT) None None false).

End Chat.

(** ** Replies of the text model

    The reply that the JSON directive of [chatCompletionsJSON] asks
    for, and the texts a JSON string literal can hold unescaped. *)

Module Reply.

(** A reply in the format that the JSON directive of
    [chatCompletionsJSON] prescribes. *)
Definition in_format (prompt : string) (isPromptGenerated : bool) : string :=
  "{" ++ Chat.nl
  ++ "  " ++ Chat.dq ++ "prompt" ++ Chat.dq ++ ": " ++ Chat.dq ++ prompt ++ Chat.dq
  ++ "," ++ Chat.nl
  ++ "  " ++ Chat.dq ++ "isPromptGenerated" ++ Chat.dq ++ ": "
  ++ (if isPromptGenerated then "true" else "false") ++ Chat.nl
  ++ "}".

(** Text that a JSON string literal holds as it is: no quotation mark,
    no backslash, no control character. *)
Definition literal_char (c : ascii) : bool :=
  (32 <=? JsString.code c)%N
  && negb (JsString.code c =? 34)%N && negb (JsString.code c =? 92)%N.

Fixpoint literal (s : string) : bool :=
  match s with
  | EmptyString => true
  | String c r => literal_char c && literal r
  end.

End Reply.

(** ** frontend/app: the route handlers and hooks of the Next.js application *)

Module Frontend.
Import Js.

(** [process.env.BACKEND_URL ?? process.env.NEXT_PUBLIC_BACKEND_URL ??
    'http://localhost:4000'] *)
Definition backendUrl (env : gmap string string) : string :=
  match env !! "BACKEND_URL" with
  | Some v => v
  | None => JsString.nullish (env !! "NEXT_PUBLIC_BACKEND_URL") "http://localhost:4000"
  end.

(** [encodeURIComponent]: letters, digits and the nine marks (hyphen,
    underscore, full stop, exclamation mark, tilde, asterisk, apostrophe
    and the two parentheses) are kept; every other byte is written as a
    percent sign and two upper-case hexadecimal digits. *)
Definition is_alnum (c : ascii) : bool :=
  JsString.is_upper c || JsString.is_lower c || Json.is_digit c.

Definition is_mark (c : ascii) : bool :=
  existsb (N.eqb (JsString.code c)) [45; 95; 46; 33; 126; 42; 39; 40; 41]%N.

Definition unreserved (c : ascii) : bool := is_alnum c || is_mark c.

Definition hex_upper (n : N) : ascii :=
  ascii_of_N (if (n <? 10)%N then 48 + n else 55 + n).

Definition percent (c : ascii) : string :=
  String "%" (String (hex_upper (JsString.code c / 16))
                (String (hex_upper (JsString.code c mod 16)) EmptyString)).

Fixpoint encodeURIComponent (s : string) : string :=
  match s with
  | EmptyString => EmptyString
  | String c r =>
      (if unreserved c then String c EmptyString else percent c) ++ encodeURIComponent r
  end.

(** [JSON.stringify] of a string: the quotation mark, the backslash and
    the control characters are escaped. *)
Definition hex_lower (n : N) : ascii :=
  ascii_of_N (if (n <? 10)%N then 48 + n else 87 + n).

Definition quote_char (c : ascii) : string :=
  let n := JsString.code c in
  if (n =? 34)%N then "\" ++ String c EmptyString
  else if (n =? 92)%N then "\\"
  else if (n =? 8)%N then "\b"
  else if (n =? 9)%N then "\t"
  else if (n =? 10)%N then "\n"
  else if (n =? 12)%N then "\f"
  else if (n =? 13)%N then "\r"
  else if (n <? 32)%N
       then "\u00" ++ String (hex_lower (n / 16)) (String (hex_lower (n mod 16)) EmptyString)
  else String c EmptyString.

Fixpoint quote_body (s : string) : string :=
  match s with
  | EmptyString => EmptyString
  | String c r => quote_char c ++ quote_body r
  end.

Definition JSON_stringify_string (s : string) : string := Chat.dq ++ quote_body s ++ Chat.dq.

(** [JSON.stringify({ error: errorMessage })] *)
Definition error_body (errorMessage : string) : string :=
  "{" ++ Chat.dq ++ "error" ++ Chat.dq ++ ":" ++ JSON_stringify_string errorMessage ++ "}".

(** What a [catch] clause of the frontend receives. *)
Inductive Caught :=
| CaughtError (name : string) (has_code : bool) (message : string)   (* an [Error] *)
| CaughtOther.

Inductive Awaited (A : Type) :=
| Resolved (a : A)
| Rejected (error : Caught).
Arguments Resolved {A} a.
Arguments Rejected {A} error.

(** [new NextResponse(body, { status, headers })] *)
Record NextResponse := mkNextResponse {
  nr_body : string;
  nr_status : Z;
  nr_headers : list (string * string)
}.

(** The backend's answer to [fetch]. *)
Record BackendResponse := mkBackendResponse {
  br_status : Z;
  br_contentType : option string;          (* [response.headers.get('content-type')] *)
  br_text : Awaited string;
  br_arrayBuffer : Awaited string
}.

Definition json_headers : list (string * string) :=
  [("content-type", "application/json")].

(** The constructor of [Response] refuses a status outside 200..599,
    and a body together with one of the null-body statuses. *)
Definition null_body_status (status : Z) : bool :=
  ((status =? 101) || (status =? 103) || (status =? 204) || (status =? 205)
   || (status =? 304))%Z.

Definition valid_init (status : Z) : bool :=
  ((200 <=? status) && (status <=? 599))%Z && negb (null_body_status status).

(** [new NextResponse(body, { status, headers })] with a body;
    [refusal status] is the error the constructor throws. *)
Definition new_NextResponse (refusal : Z -> Caught) (body : string) (status : Z)
    (headers : list (string * string)) : Awaited NextResponse :=
  if valid_init status then Resolved (mkNextResponse body status headers)
  else Rejected (refusal status).

(** api/image-proxy/route.ts, [GET]: the response and the URLs fetched. *)
Definition GET (refusal : Z -> Caught) (env : gmap string string)
    (fetch : string -> Awaited BackendResponse)
    (imageUrl imageKey : option string) : NextResponse * list string :=
  if negb (JsString.truthy_opt imageUrl) && negb (JsString.truthy_opt imageKey)
  then (mkNextResponse (error_body "Missing required query parameter: url or key") 400
          json_headers, [])
  else
    let queryParam :=
      if JsString.truthy_opt imageKey
      then "key=" ++ encodeURIComponent (JsString.nullish imageKey "")
      else "url=" ++ encodeURIComponent (JsString.nullish imageUrl "") in
    let target := backendUrl env ++ "/api/image-proxy?" ++ queryParam in
    let caught error :=
      mkNextResponse
        (error_body
           match error with
           | CaughtError _ _ message => "Network error: " ++ message
           | CaughtOther => "Unknown error occurred while fetching image"
           end)
        500 json_headers in
    (match fetch target with
     | Rejected error => caught error
     | Resolved response =>
         if negb (Env.http_ok (br_status response))
         then
           match br_text response with
           | Resolved errorText =>
               match new_NextResponse refusal errorText (br_status response) json_headers
               with
               | Resolved sent => sent
               | Rejected error => caught error
               end
           | Rejected error => caught error
           end
         else
           match br_arrayBuffer response with
           | Resolved imageBuffer =>
               mkNextResponse imageBuffer 200
                 [("content-type",
                   JsString.or_else (JsString.nullish (br_contentType response) "")
                     "image/jpeg");
                  ("cache-control", "public, max-age=31536000, immutable");
                  ("access-control-allow-origin", "*")]
           | Rejected error => caught error
           end
     end, [target]).

(** api/image-flow/route.ts, [POST]: [request.formData()] is awaited
    outside the [try]; [fetch] is what the call to the backend, with its
    five-minute abort signal, resolves to. *)
Definition POST (refusal : Z -> Caught) (formData : Awaited unit)
    (fetch : Awaited BackendResponse) : Awaited NextResponse :=
  match formData with
  | Rejected error => Rejected error
  | Resolved _ =>
      let caught error :=
        let isAbortError :=
          match error with
          | CaughtError name _ _ => String.eqb name "AbortError"
          | CaughtOther => false
          end in
        let isConnectionReset :=
          match error with
          | CaughtError _ has_code message =>
              has_code || JsString.includes message "ECONNRESET"
              || JsString.includes message "fetch failed"
          | CaughtOther => false
          end in
        mkNextResponse
          (error_body
             (if isAbortError
              then "Request timeout - the image generation is taking too long. Please try again."
              else if isConnectionReset
              then "Connection to backend failed. Please ensure the backend server is running on port 4000 and try again."
              else match error with
                   | CaughtError _ _ message => "Network error: " ++ message
                   | CaughtOther => "Unknown error occurred while processing the request"
                   end))
          500 json_headers in
      Resolved
        match fetch with
        | Rejected error => caught error
        | Resolved response =>
            match br_text response with
            | Resolved payload =>
                match new_NextResponse refusal payload (br_status response)
                        [("content-type",
                          JsString.nullish (br_contentType response) "application/json")]
                with
                | Resolved sent => sent
                | Rejected error => caught error
                end
            | Rejected error => caught error
            end
        end
  end.

(** hooks/useImageFlow.ts *)
Record FlowState := mkFlowState {
  isLoading : bool;
  progressLabel : option string;
  error : option string;
  result : option JVal
}.

Record FlowResponse := mkFlowResponse {
  fl_status : Z;
  fl_text : Awaited string;
  fl_json : Awaited JVal
}.

(** [runFlow]: the state when it returns, and the arguments with which
    [onSuccess] has been called. *)
Definition runFlow (fetch : Awaited FlowResponse) (onSuccess : option (JVal -> Awaited unit))
  : FlowState * list JVal :=
  let caught label (res : option JVal) (calls : list JVal) err :=
    (mkFlowState false label
       (Some match err with
             | CaughtError _ _ message => message
             | CaughtOther => "Unexpected error while generating image"
             end)
       res, calls) in
  let orchestrating := Some "Orchestrating prompt pipeline" in
  match fetch with
  | Rejected err => caught orchestrating None [] err
  | Resolved response =>
      if negb (Env.http_ok (fl_status response))
      then
        match fl_text response with
        | Resolved message =>
            caught orchestrating None []
              (CaughtError "Error" false (JsString.or_else message "Image flow failed"))
        | Rejected err => caught orchestrating None [] err
        end
      else
        match fl_json response with
        | Rejected err => caught orchestrating None [] err
        | Resolved data =>
            match onSuccess with
            | None => (mkFlowState false (Some "Complete") None (Some data), [])
            | Some callback =>
                match callback data with
                | Resolved _ => (mkFlowState false (Some "Complete") None (Some data), [data])
                | Rejected err => caught (Some "Complete") (Some data) [data] err
                end
            end
        end
  end.

(** [getTimeAgo], with [Date.now()] and [toLocaleDateString] passed in. *)
Definition getTimeAgo (toLocaleDateString : Z -> string) (now timestamp : Z) : string :=
  let seconds := ((now - timestamp) / 1000)%Z in
  if (seconds <? 60)%Z then "Just now"
  else if (seconds <? 3600)%Z then pretty (seconds / 60)%Z ++ "m ago"
  else if (seconds <? 86400)%Z then pretty (seconds / 3600)%Z ++ "h ago"
  else if (seconds <? 604800)%Z then pretty (seconds / 86400)%Z ++ "d ago"
  else toLocaleDateString timestamp.

End Frontend.

(** * Properties *)

(** ** Strings *)

Lemma startsWith_empty s : JsString.startsWith s EmptyString = true.
Proof. destruct s; reflexivity. Qed.

(** ** Provider fallback (geminiService.ts) *)

Section Fallback.
Import Js Env Config.

Lemma is_num_true v n : Gemini.is_num v n = true <-> v = Some (FNum n).
Proof.
  destruct v as [[m|t]|]; simpl; split; intros H; try discriminate.
  - apply Z.eqb_eq in H. now subst.
  - inversion H; subst. apply Z.eqb_refl.
Qed.

Lemma is_str_true v t : Gemini.is_str v t = true <-> v = Some (FStr t).
Proof.
  destruct v as [[m|u]|]; simpl; split; intros H; try discriminate.
  - apply String.eqb_eq in H. now subst.
  - inversion H; subst. apply String.eqb_refl.
Qed.

(** [isQuotaExhaustedError] is the amended condition. *)
Lemma isQuotaExhaustedError_spec e :
  Gemini.isQuotaExhaustedError e = true <-> Spec.quota_condition_amended e.
Proof.
  unfold Gemini.isQuotaExhaustedError, Spec.quota_condition_amended, Gemini.detailText,
    Gemini.RESOURCE_EXHAUSTED_CODE, Gemini.RESOURCE_EXHAUSTED_STATUS.
  destruct (Gemini.as_candidate e) as [c|].
  - split.
    + intros H. exists c. split; [reflexivity|].
      destruct (Gemini.is_num (f_code c) 8) eqn:E1.
      { left. now apply is_num_true. }
      destruct (Gemini.is_str (f_code c) "RESOURCE_EXHAUSTED") eqn:E2.
      { right; left. now apply is_str_true. }
      destruct (Gemini.is_str (f_status c) "RESOURCE_EXHAUSTED") eqn:E3.
      { right; right; left. now apply is_str_true. }
      simpl in H. apply orb_true_iff in H. tauto.
    + intros (c' & Hc & H). inversion Hc; subst c'; clear Hc.
      destruct H as [H|[H|[H|H]]].
      * apply is_num_true in H. now rewrite H.
      * apply is_str_true in H. rewrite H. now rewrite orb_true_r.
      * apply is_str_true in H. rewrite H. now rewrite !orb_true_r.
      * destruct (_ || _ || _); [reflexivity|].
        apply orb_true_iff. tauto.
  - split; [discriminate|]. intros (c & Hc & _). discriminate.
Qed.

Lemma generateWithVertex_trace P w prompt ar s :
  trace (snd (Gemini.generateWithVertex P w prompt ar s))
  = (trace s ++ [EvVertexGenerateContent prompt (Gemini.buildVertexGenerationConfig ar)])%list.
Proof.
  unfold Gemini.generateWithVertex, bind, emit, await, throw, ret. simpl.
  destruct (vertex_generateContent w prompt _) as [r|e]; [|reflexivity].
  destruct (match candidates r with Some (Some parts :: _) => _ | _ => None end)
    as [[t|[d|]]|]; try reflexivity.
  destruct (negb (JsString.truthy d)); reflexivity.
Qed.

Lemma fal_generateImage_trace cfg w prompt ar s :
  exists rest,
    trace (snd (Fal.generateImage cfg w prompt ar s))
    = (trace s ++ EvFalGenerateImage prompt ar :: rest)%list
    /\ forallb Spec.is_fal rest = true.
Proof.
  unfold Fal.generateImage, bind, emit, await, throw, ret. simpl.
  destruct (negb (JsString.truthy_opt (fal_apiKey (fal cfg)))).
  { exists []. split; reflexivity. }
  simpl. rewrite <- app_assoc. simpl.
  destruct (fal_post w prompt _) as [[st b|[u|e]]|e];
    try (eexists; split; reflexivity).
  destruct (negb (JsString.truthy_opt u)); [eexists; split; reflexivity|].
  simpl. rewrite <- app_assoc. simpl.
  destruct (http_get w _) as [d|e]; [|eexists; split; reflexivity].
  destruct (negb (http_ok (dl_status d))); [eexists; split; reflexivity|].
  destruct (dl_arrayBuffer d); eexists; split; reflexivity.
Qed.

Lemma generateImage_trace P cfg w prompt ar s :
  exists later,
    trace (snd (Gemini.generateImage P cfg w prompt ar s))
    = (trace s
       ++ EvVertexGenerateContent prompt
            (Gemini.buildVertexGenerationConfig
               (Some (JsString.nullish ar (fal_aspectRatio (fal cfg)))))
          :: later)%list
    /\ forallb Spec.is_fal later = true.
Proof.
  unfold Gemini.generateImage, try_catch.
  pose proof (generateWithVertex_trace P w prompt
                (Some (JsString.nullish ar (fal_aspectRatio (fal cfg)))) s) as Htr.
  destruct (Gemini.generateWithVertex P w prompt _ s) as [[image|e] s1]; simpl in Htr.
  - exists []. split; [exact Htr|reflexivity].
  - destruct (Gemini.isQuotaExhaustedError e).
    + destruct (fal_generateImage_trace cfg w prompt
                  (Some (JsString.nullish ar (fal_aspectRatio (fal cfg)))) s1)
        as (rest & Hrest & Hfal).
      eexists. rewrite Hrest, Htr, <- app_assoc. split; [reflexivity|exact Hfal].
    + exists []. split; [exact Htr|reflexivity].
Qed.

Lemma existsb_none (f g : Event -> bool) events :
  (forall ev, g ev = true -> f ev = false) ->
  forallb g events = true -> existsb f events = false.
Proof.
  intros Hfg. induction events as [|ev events IH]; simpl; [reflexivity|].
  intros H. apply andb_true_iff in H. destruct H as [H1 H2].
  now rewrite (Hfg _ H1), IH.
Qed.

End Fallback.

(** C1 (as amended): every call of [generateImage] tries the Vertex
    provider first; the fallback provider is invoked if and only if the
    primary threw an object whose code is the number 8 or the string
    RESOURCE_EXHAUSTED, whose status is RESOURCE_EXHAUSTED, or whose
    details and message, joined by a space and uppercased, contain
    RESOURCE_EXHAUSTED or QUOTA; any other primary error is rethrown
    unchanged, and a primary success is returned as it is. *)
Theorem generateImage_fallback_policy
    (P : Env.Platform) (cfg : Config.AppConfig) (w : Env.World)
    (prompt : string) (aspectRatio : option string) (s : Js.St) :
  let resolved :=
    Some (JsString.nullish aspectRatio (Config.fal_aspectRatio (Config.fal cfg))) in
  let primary := Gemini.generateWithVertex P w prompt resolved s in
  let run := Gemini.generateImage P cfg w prompt aspectRatio s in
  exists later,
    Js.trace (snd run)
    = (Js.trace s
       ++ Js.EvVertexGenerateContent prompt (Gemini.buildVertexGenerationConfig resolved)
          :: later)%list
    /\ (Spec.fallback_invoked later = true
        <-> exists e, fst primary = Js.Throw e /\ Spec.quota_condition_amended e)
    /\ (forall e, fst primary = Js.Throw e -> ~ Spec.quota_condition_amended e ->
        fst run = Js.Throw e /\ later = [])
    /\ (forall image, fst primary = Js.Ok image -> fst run = Js.Ok image /\ later = []).
Proof.
  intros resolved primary run.
  pose proof (generateWithVertex_trace P w prompt resolved s) as Htr.
  fold primary in Htr.
  unfold run, Gemini.generateImage, Js.try_catch. fold resolved. fold primary.
  destruct primary as [[image|e] s1] eqn:Hp; simpl in Htr |- *.
  - exists []. rewrite Htr. split; [reflexivity|]. split; [|split].
    + split; [discriminate|]. intros (e & He & _). discriminate.
    + intros e He. discriminate.
    + intros image' H. inversion H. auto.
  - destruct (Gemini.isQuotaExhaustedError e) eqn:Hq.
    + destruct (fal_generateImage_trace cfg w prompt resolved s1) as (rest & Hrest & _).
      exists (Js.EvFalGenerateImage prompt resolved :: rest).
      rewrite Hrest, Htr, <- app_assoc. split; [reflexivity|]. split; [|split].
      * split; [|reflexivity]. intros _. exists e. split; [reflexivity|].
        now apply isQuotaExhaustedError_spec.
      * intros e' He' Hn. inversion He'; subst e'.
        apply isQuotaExhaustedError_spec in Hq. contradiction.
      * intros image H. discriminate.
    + exists []. simpl. rewrite Htr. split; [reflexivity|]. split; [|split].
      * split; [discriminate|]. intros (e' & He' & Hc). inversion He'; subst e'.
        apply isQuotaExhaustedError_spec in Hc. congruence.
      * intros e' He' _. inversion He'. auto.
      * intros image H. discriminate.
Qed.

(** C1, counterexample: a provider error whose [code] is the string
    RESOURCE_EXHAUSTED meets none of the claim's three conditions, and
    the fallback is invoked for it. *)
Lemma generateImage_string_code_counterexample :
  let e := Js.ErrorObj
             (Js.mkErrFields (Some (Js.FStr "RESOURCE_EXHAUSTED")) None None
                (Some "Too many requests")) in
  let w := Sample.world_vertex (Js.Throw e) in
  fst (Gemini.generateWithVertex Sample.platform w "a cat" (Some "1:1") Js.init)
  = Js.Throw e
  /\ Spec.quota_condition e = false
  /\ Spec.fallback_invoked
       (Js.trace (snd (Gemini.generateImage Sample.platform Sample.cfg w "a cat" None
                         Js.init))) = true
  /\ fst (Gemini.generateImage Sample.platform Sample.cfg w "a cat" None Js.init)
     = Js.Ok "PNG".
Proof. vm_compute. repeat split. Qed.

(** The text that is searched is [details], a space, [message]: a match
    of the plain concatenation that straddles the two is no match. *)
Lemma generateImage_details_message_space :
  let e := Js.ErrorObj (Js.mkErrFields None None (Some "QUO") (Some "TA")) in
  let w := Sample.world_vertex (Js.Throw e) in
  Spec.quota_condition e = true
  /\ Gemini.isQuotaExhaustedError e = false
  /\ Gemini.generateImage Sample.platform Sample.cfg w "a cat" None Js.init
     = (Js.Throw e, Js.mkSt [Js.EvVertexGenerateContent "a cat" (Some "1:1")] 0).
Proof. vm_compute. repeat split. Qed.

(** ** The vision / text model client (openaiService.ts) *)

Section VisionClient.
Import Js Env Config.

(** A completion that returns has returned the non-empty content of the
    first choice, after exactly one request. *)
Lemma chatCompletions_ok ev reply s content s' :
  OpenAI.chatCompletions ev reply s = (Ok content, s') ->
  reply = ChatOk (Some content) /\ content <> EmptyString
  /\ s' = mkSt (trace s ++ [ev]) (uuids s).
Proof.
  unfold OpenAI.chatCompletions, OpenAI.makeRequest, bind, try_catch, emit, throw, ret.
  destruct reply as [e|st m t|[[[c|]|] u]]; simpl.
  - destruct (instanceofError e); discriminate.
  - discriminate.
  - destruct c; simpl; [discriminate|]. destruct u; simpl; [|discriminate].
    intros H. inversion H; subst.
    split; [reflexivity|]. split; [discriminate|reflexivity].
  - discriminate.
  - discriminate.
Qed.

Lemma chatCompletions_state ev reply s :
  snd (OpenAI.chatCompletions ev reply s) = mkSt (trace s ++ [ev]) (uuids s).
Proof.
  unfold OpenAI.chatCompletions, OpenAI.makeRequest, bind, try_catch, emit, throw, ret.
  destruct reply as [e|st m t|[[[c|]|] u]]; simpl; try reflexivity.
  - destruct (instanceofError e); reflexivity.
  - destruct c; [reflexivity|]. destruct u; reflexivity.
Qed.

(** Stage 1 uses exactly the five markers of the specification. *)
Lemma isRefusal_reconstruct_spec content :
  OpenAI.isRefusal_reconstruct content = Spec.is_refusal content.
Proof.
  unfold OpenAI.isRefusal_reconstruct, Spec.is_refusal, Spec.refusal_markers.
  simpl. rewrite orb_false_r, !orb_assoc. reflexivity.
Qed.

(** The [catch] clause of Stage 2 uses four of them. *)
Lemma isRefusal_json_spec content :
  Spec.is_refusal content
  = OpenAI.isRefusal_json content
    || JsString.includes (JsString.toLowerCase content) "can't help".
Proof.
  unfold OpenAI.isRefusal_json, Spec.is_refusal, Spec.refusal_markers. simpl.
  repeat match goal with |- context [JsString.includes ?a ?b] =>
    let x := fresh "b" in generalize (JsString.includes a b); intro x end.
  destruct b, b0, b1, b2, b3; reflexivity.
Qed.

(** The reply the JSON directive asks for is taken as it is, its
    prompt trimmed. *)
Lemma chatCompletionsJSON_parse_strict P :
  OpenAI.chatCompletionsJSON_parse P (Sample.json_reply "  a blue bicycle ")
  = OpenAI.mkPrompt (JStr "a blue bicycle") (JBool true).
Proof. reflexivity. Qed.

(** What Stage 2 returns when [JSON.parse] throws. *)
Lemma chatCompletionsJSON_parse_catch P content block :
  Json.match_json_block content = Some block ->
  Json.parse block = None ->
  OpenAI.chatCompletionsJSON_parse P content
  = OpenAI.mkPrompt (JStr content) (JBool (negb (OpenAI.isRefusal_json content))).
Proof.
  intros Hm Hp. unfold OpenAI.chatCompletionsJSON_parse. now rewrite Hm, Hp.
Qed.

(** What Stage 2 returns when the reply holds no brace-delimited block. *)
Lemma chatCompletionsJSON_parse_plain P content :
  Json.match_json_block content = None ->
  OpenAI.chatCompletionsJSON_parse P content
  = OpenAI.mkPrompt (JStr content) (JBool false).
Proof.
  intros Hm. unfold OpenAI.chatCompletionsJSON_parse. now rewrite Hm.
Qed.

Lemma reconstructPromptFromImage_ok w imageBuffer mimeType s o s' :
  OpenAI.reconstructPromptFromImage w imageBuffer mimeType s = (Ok o, s') ->
  exists content,
    content <> EmptyString
    /\ o = OpenAI.mkPrompt (JStr content) (JBool (negb (Spec.is_refusal content)))
    /\ s' = mkSt (trace s ++ [EvOpenAIReconstruct]) (uuids s).
Proof.
  unfold OpenAI.reconstructPromptFromImage, bind, ret. intros H.
  destruct (OpenAI.chatCompletions _ _ s) as [[content|e] s1] eqn:Hc; [|discriminate].
  apply chatCompletions_ok in Hc. destruct Hc as (_ & Hne & Hs).
  inversion H; subst. exists content. rewrite isRefusal_reconstruct_spec. auto.
Qed.

End VisionClient.

(** C3: the code at a reply whose brace-delimited block is not JSON and
    whose only refusal marker is "can't help".  The specification's
    heuristic, and Stage 1, classify the reply as a refusal; the [catch]
    clause of [chatCompletionsJSON] returns [isPromptGenerated: true]. *)
Theorem stage2_parse_failure_misses_cant_help (P : Env.Platform) :
  let reply := "Sorry, can't help with {that}." in
  Json.match_json_block reply = Some "{that}"
  /\ Json.parse "{that}" = None
  /\ Spec.is_refusal reply = true
  /\ OpenAI.isRefusal_reconstruct reply = true
  /\ OpenAI.chatCompletionsJSON_parse P reply
     = OpenAI.mkPrompt (Js.JStr reply) (Js.JBool true).
Proof. intros reply. repeat split. Qed.

(** With that reply in Stage 2 the request is not stopped: the reply
    becomes [prompt2] and is sent to image synthesis. *)
Lemma stage2_cant_help_reaches_synthesis :
  let reply := "Sorry, can't help with {that}." in
  let w := Sample.world_openai
             (Env.ChatOk (Some "A red bicycle leaning on a brick wall"))
             (Env.ChatOk (Some reply)) in
  let run := ImageFlow.post Sample.platform Sample.cfg w (Sample.request (Some "make it blue")) in
  Http.status (fst run) = 200%Z
  /\ Http.field "prompt2" (fst run) = Some (Js.JStr reply)
  /\ Http.field "isPromptGenerated" (fst run) = Some (Js.JBool true)
  /\ Spec.synthesis_started (Js.trace (snd run)) = true.
Proof. vm_compute. repeat split. Qed.

(** ** The orchestrator (routes/imageFlow.ts) *)

Section Orchestrator.
Import Js Env Config Http.

Lemma short_circuit_fields baseUrl refUrls prompt1 prompt2 error :
  let r := ImageFlow.short_circuit baseUrl refUrls prompt1 prompt2 error in
  status r = 502%Z
  /\ field "baseImage" r = Some (JStr baseUrl)
  /\ field "referenceImages" r = Some (JArr (map JStr refUrls))
  /\ field "prompt1" r = Some prompt1
  /\ field "prompt2" r = Some prompt2
  /\ field "outputImage" r = Some JNull
  /\ field "outputImageKey" r = None
  /\ field "error" r = Some (JStr error)
  /\ field "isPromptGenerated" r = Some (JBool false)
  /\ field "message" r = None.
Proof. repeat split. Qed.

Lemma too_short_lt s : (JsString.length s < 3)%nat -> ImageFlow.too_short s = true.
Proof.
  intros H. unfold ImageFlow.too_short.
  apply orb_true_iff. right. apply Nat.ltb_lt. exact H.
Qed.

Lemma too_short_ge s : (3 <= JsString.length s)%nat -> ImageFlow.too_short s = false.
Proof.
  intros H. unfold ImageFlow.too_short.
  destruct s as [|c s]; [simpl in H; lia|].
  simpl negb. simpl orb. apply Nat.ltb_ge. exact H.
Qed.

Lemma step1_cases P w baseImage baseUrl refUrls s :
  exists r1,
    ImageFlow.step1 P w baseImage baseUrl refUrls s
    = (Ok r1, mkSt (trace s ++ [EvOpenAIReconstruct]) (uuids s))
    /\ match r1 with
       | inl response =>
           exists prompt1 error,
             response = ImageFlow.short_circuit baseUrl refUrls prompt1 JNull error
       | inr _ => True
       end.
Proof.
  unfold ImageFlow.step1, OpenAI.reconstructPromptFromImage, bind, try_catch, ret, await.
  pose proof (chatCompletions_state EvOpenAIReconstruct
                (openai_reconstruct w (ImageFlow.buffer baseImage)
                   (ImageFlow.mimetype baseImage)) s) as Hs.
  destruct (OpenAI.chatCompletions _ _ s) as [[content|e] s1]; simpl in Hs; subst s1.
  - cbn [OpenAI.isPromptGenerated OpenAI.prompt Json.truthy ImageFlow.trim_method].
    destruct (negb (negb _)).
    + eexists. split; [reflexivity|]. simpl. eauto.
    + destruct (ImageFlow.too_short _).
      * eexists. split; [reflexivity|]. simpl. eauto.
      * eexists. split; [reflexivity|]. exact I.
  - eexists. split; [reflexivity|]. simpl. eauto.
Qed.

Lemma step2_cases P w payload referenceImages baseUrl refUrls prompt1 s :
  exists r2,
    ImageFlow.step2 P w payload referenceImages baseUrl refUrls prompt1 s
    = (Ok r2,
       mkSt (trace s
             ++ (if ImageFlow.hasUserInstructions payload
                 then [EvOpenAIApplyInstructions prompt1
                         (ImageFlow.trimmed_instructions payload)]
                 else []))
            (uuids s))
    /\ match r2 with
       | inl response =>
           ImageFlow.hasUserInstructions payload = true
           /\ exists prompt2 error,
                response = ImageFlow.short_circuit baseUrl refUrls (JStr prompt1)
                             prompt2 error
       | inr (prompt2, step2Executed) =>
           step2Executed = ImageFlow.hasUserInstructions payload
           /\ (step2Executed = false -> prompt2 = prompt1)
       end.
Proof.
  unfold ImageFlow.step2.
  destruct (ImageFlow.hasUserInstructions payload) eqn:Hhas; cbv beta iota delta [negb].
  2:{ exists (inr (prompt1, false)). unfold ret. rewrite app_nil_r.
      destruct s; simpl. auto. }
  unfold OpenAI.applyUserInstructions, OpenAI.chatCompletionsJSON, bind, try_catch, ret,
    await.
  match goal with |- context [OpenAI.chatCompletions ?ev ?reply s] =>
    pose proof (chatCompletions_state ev reply s) as Hs;
    destruct (OpenAI.chatCompletions ev reply s) as [[content|e] s1]
  end; simpl in Hs; subst s1.
  - generalize (OpenAI.chatCompletionsJSON_parse P content). intros o.
    destruct (Json.truthy P (OpenAI.isPromptGenerated o)).
    2:{ eexists. split; [reflexivity|]. simpl. eauto. }
    destruct (ImageFlow.trim_method _ (OpenAI.prompt o)) as [t|e].
    + destruct (ImageFlow.too_short t).
      * eexists. split; [reflexivity|]. simpl. eauto.
      * eexists. split; [reflexivity|]. simpl. split; [reflexivity|discriminate].
    + eexists. split; [reflexivity|]. simpl. eauto.
  - eexists. split; [reflexivity|]. simpl. eauto.
Qed.

Lemma uploadBuffer_state P cfg w options s :
  exists key,
    snd (Storage.uploadBuffer P cfg w options s)
    = mkSt (trace s ++ [EvS3Put key]) (S (uuids s))
    /\ forall u, fst (Storage.uploadBuffer P cfg w options s) = Ok u ->
                 Storage.key u = key.
Proof.
  unfold Storage.uploadBuffer, bind, fresh_uuid, emit, await, ret. simpl.
  eexists. split.
  - destruct (s3_send w _); [|reflexivity].
    destruct (URL_ctor P _ _); reflexivity.
  - intros u. destruct (s3_send w _); [|discriminate].
    destruct (URL_ctor P _ _); [|discriminate].
    simpl. intros H. inversion H. reflexivity.
Qed.

Lemma promise_all_uploads P cfg w images s :
  exists keys,
    trace (snd (Storage.promise_all (map (ImageFlow.upload_input P cfg w) images) s))
    = (trace s ++ map EvS3Put keys)%list
    /\ forall l,
         fst (Storage.promise_all (map (ImageFlow.upload_input P cfg w) images) s) = Ok l ->
         map Storage.key l = keys.
Proof.
  revert s. induction images as [|img images IH]; intros s.
  - exists []. simpl. rewrite app_nil_r. split; [reflexivity|].
    intros l H. inversion H. reflexivity.
  - simpl.
    destruct (uploadBuffer_state P cfg w
                (Storage.mkUploadOptions (ImageFlow.buffer img) (ImageFlow.mimetype img)
                   "inputs" None) s) as (key & Hs & Hkey).
    change (Storage.uploadBuffer P cfg w _ s)
      with (ImageFlow.upload_input P cfg w img s) in Hs, Hkey.
    destruct (ImageFlow.upload_input P cfg w img s) as [[u|e] s1]; simpl in Hs; subst s1.
    + destruct (IH (mkSt (trace s ++ [EvS3Put key]) (S (uuids s)))) as (keys & Hk & Hl).
      exists (key :: keys).
      destruct (Storage.promise_all _ _) as [[l|e] s2]; simpl in Hk |- *;
        rewrite Hk; simpl; rewrite <- app_assoc; (split; [reflexivity|]).
      * intros l' H. inversion H. simpl.
        rewrite (Hkey u eq_refl), (Hl l eq_refl). reflexivity.
      * discriminate.
    + destruct (IH (mkSt (trace s ++ [EvS3Put key]) (S (uuids s)))) as (keys & Hk & _).
      exists (key :: keys). simpl. rewrite Hk. simpl. rewrite <- app_assoc.
      split; [reflexivity|discriminate].
Qed.

Lemma existsb_s3 (f : Event -> bool) keys :
  (forall k, f (EvS3Put k) = false) -> existsb f (map EvS3Put keys) = false.
Proof.
  intros Hf. induction keys as [|k keys IH]; simpl; [reflexivity|].
  now rewrite Hf, IH.
Qed.

Lemma step3_cases P cfg w payload bu rus prompt1 prompt2 ex s :
  exists later,
    trace (snd (ImageFlow.step3 P cfg w payload bu rus prompt1 prompt2 ex s))
    = (trace s
       ++ EvVertexGenerateContent prompt2
            (Gemini.buildVertexGenerationConfig
               (Some (JsString.nullish (ImageFlow.aspectRatio payload)
                        (fal_aspectRatio (fal cfg)))))
          :: later)%list
    /\ forallb (fun ev => Spec.is_fal ev || Spec.is_s3 ev) later = true
    /\ ((exists e, fst (ImageFlow.step3 P cfg w payload bu rus prompt1 prompt2 ex s)
                   = Throw e)
        \/ (exists image s0 out,
              Gemini.generateImage P cfg w prompt2 (ImageFlow.aspectRatio payload) s
              = (Ok image, s0)
              /\ fst (ImageFlow.step3 P cfg w payload bu rus prompt1 prompt2 ex s)
                 = Ok (ImageFlow.success bu rus prompt1 prompt2 out ex))).
Proof.
  unfold ImageFlow.step3, bind, ret.
  destruct (generateImage_trace P cfg w prompt2 (ImageFlow.aspectRatio payload) s)
    as (later & Htr & Hfal).
  assert (Hall : forallb (fun ev => Spec.is_fal ev || Spec.is_s3 ev) later = true).
  { clear Htr. induction later as [|ev later IH]; simpl in *; [reflexivity|].
    apply andb_true_iff in Hfal. destruct Hfal as [-> H]. simpl. auto. }
  destruct (Gemini.generateImage P cfg w prompt2 _ s) as [[image|e] s1] eqn:Hg;
    simpl in Htr.
  2:{ exists later. simpl. split; [exact Htr|]. split; [exact Hall|]. left. eauto. }
  match goal with |- context [Storage.uploadBuffer P cfg w ?o s1] =>
    destruct (uploadBuffer_state P cfg w o s1) as (key & Hs & _);
    destruct (Storage.uploadBuffer P cfg w o s1) as [[out|e] s2]
  end; simpl in Hs; subst s2; simpl.
  - exists (later ++ [EvS3Put key])%list. rewrite Htr, <- app_assoc. simpl.
    split; [reflexivity|]. split.
    + rewrite forallb_app, Hall. reflexivity.
    + right. exists image, s1, out. auto.
  - exists (later ++ [EvS3Put key])%list. rewrite Htr, <- app_assoc. simpl.
    split; [reflexivity|]. split.
    + rewrite forallb_app, Hall. reflexivity.
    + left. eauto.
Qed.

(** Every run of the stages ends in one of the three ways of [Ending]. *)
Lemma stages_cases P cfg w payload baseImage referenceImages bu rus s :
  exists events,
    trace (snd (ImageFlow.stages P cfg w payload baseImage referenceImages bu rus s))
    = (trace s ++ EvOpenAIReconstruct :: events)%list
    /\ Spec.Ending P cfg w bu rus events
         (fst (ImageFlow.stages P cfg w payload baseImage referenceImages bu rus s)).
Proof.
  unfold ImageFlow.stages, bind.
  destruct (step1_cases P w baseImage (Storage.url bu) (map Storage.url rus) s)
    as (r1 & H1 & Hr1).
  rewrite H1. destruct r1 as [response|prompt1].
  { destruct Hr1 as (p1 & err & ->). exists []. simpl. split; [reflexivity|].
    now constructor. }
  unfold ImageFlow.after_step1, bind.
  set (s1 := mkSt (trace s ++ [EvOpenAIReconstruct]) (uuids s)).
  destruct (step2_cases P w payload referenceImages (Storage.url bu)
              (map Storage.url rus) prompt1 s1) as (r2 & H2 & Hr2).
  rewrite H2.
  set (ev2 := if ImageFlow.hasUserInstructions payload
              then [EvOpenAIApplyInstructions prompt1
                      (ImageFlow.trimmed_instructions payload)]
              else []) in *.
  assert (Hev2 : Spec.synthesis_started ev2 = false
                 /\ Spec.stage2_ran ev2 = ImageFlow.hasUserInstructions payload).
  { unfold ev2. destruct (ImageFlow.hasUserInstructions payload); split; reflexivity. }
  destruct Hev2 as (Hev2b & Hev2c).
  destruct r2 as [response|[prompt2 ex]].
  { destruct Hr2 as (_ & p2 & err & ->). exists ev2. unfold ret. simpl.
    rewrite <- app_assoc. split; [reflexivity|]. now constructor. }
  destruct Hr2 as (Hex & Hskip).
  set (s2 := mkSt (trace s1 ++ ev2) (uuids s1)).
  destruct (step3_cases P cfg w payload bu rus prompt1 prompt2 ex s2)
    as (later & Htr & Hall & Hend).
  set (vertex := EvVertexGenerateContent prompt2
                   (Gemini.buildVertexGenerationConfig
                      (Some (JsString.nullish (ImageFlow.aspectRatio payload)
                               (fal_aspectRatio (fal cfg)))))) in *.
  exists (ev2 ++ vertex :: later)%list.
  rewrite Htr. simpl. rewrite <- !app_assoc. simpl.
  split; [reflexivity|].
  assert (Hstarted : Spec.synthesis_started (ev2 ++ vertex :: later) = true).
  { unfold Spec.synthesis_started. rewrite existsb_app. simpl.
    now rewrite orb_true_r. }
  assert (Hran : Spec.stage2_ran (ev2 ++ vertex :: later) = ex).
  { unfold Spec.stage2_ran in *. rewrite existsb_app, Hev2c. simpl.
    rewrite (existsb_none Spec.is_apply (fun ev => Spec.is_fal ev || Spec.is_s3 ev) later);
      [|now intros []|exact Hall].
    rewrite orb_false_r. congruence. }
  destruct Hend as [(e & He)|(image & s0 & out & Hg & Hok)].
  - rewrite He. now constructor.
  - rewrite Hok. econstructor; eauto.
Qed.

(** Every run of the handler either throws before Stage 1, with nothing
    but uploads in the log, or reaches Stage 1 with its inputs uploaded
    and ends in one of the ways of [Ending]. *)
Lemma prepare_cases P cfg w req r s1 :
  ImageFlow.prepare P cfg w req init = (r, s1) ->
  match r with
  | Throw e => exists keys, trace s1 = map EvS3Put keys
  | Ok pr =>
      trace s1
      = map EvS3Put (Storage.key (ImageFlow.pr_baseImageUpload pr)
                     :: map Storage.key (ImageFlow.pr_referenceUploads pr))
  end.
Proof.
  unfold ImageFlow.prepare. intros H.
  destruct (ImageFlow.req_baseImage req) as [baseImage|].
  2:{ inversion H. exists []. reflexivity. }
  unfold bind at 1 in H. unfold await at 1 in H.
  destruct (ImageFlow.validate baseImage _) as [[]|e].
  2:{ inversion H. exists []. reflexivity. }
  unfold bind at 1 in H. unfold await at 1 in H.
  destruct (ImageFlow.imageFlowSchema_parse P _ _) as [payload|e].
  2:{ inversion H. exists []. reflexivity. }
  unfold bind at 1 in H.
  destruct (uploadBuffer_state P cfg w
              (Storage.mkUploadOptions (ImageFlow.buffer baseImage)
                 (ImageFlow.mimetype baseImage) "inputs" None) init)
    as (key & Hs & Hkey).
  change (Storage.uploadBuffer P cfg w _ init)
    with (ImageFlow.upload_input P cfg w baseImage init) in Hs, Hkey.
  destruct (ImageFlow.upload_input P cfg w baseImage init) as [[bu|e] s0];
    simpl in Hs; subst s0.
  2:{ inversion H. exists [key]. reflexivity. }
  specialize (Hkey bu eq_refl). subst key.
  unfold bind at 1 in H.
  set (s0 := mkSt [EvS3Put (Storage.key bu)] 1) in *.
  destruct (promise_all_uploads P cfg w (ImageFlow.req_referenceImages req) s0)
    as (keys & Hk & Hl).
  destruct (Storage.promise_all _ s0) as [[rus|e] s2]; simpl in Hk.
  2:{ inversion H; subst. exists (Storage.key bu :: keys). exact Hk. }
  specialize (Hl rus eq_refl). subst keys.
  inversion H; subst. exact Hk.
Qed.

Lemma handler_cases P cfg w req r st :
  ImageFlow.handler P cfg w req init = (r, st) ->
  (exists e keys, r = Throw e /\ trace st = map EvS3Put keys)
  \/ (exists bu rus events,
        trace st
        = (map EvS3Put (Storage.key bu :: map Storage.key rus)
           ++ EvOpenAIReconstruct :: events)%list
        /\ Spec.Ending P cfg w bu rus events r).
Proof.
  unfold ImageFlow.handler. intros H. unfold bind at 1 in H.
  destruct (ImageFlow.prepare P cfg w req init) as [[pr|e] s1] eqn:Hp;
    apply prepare_cases in Hp.
  2:{ inversion H; subst. destruct Hp as [keys Hk]. left. eauto. }
  unfold bind at 1 in H. unfold await at 1 in H.
  destruct (OpenAI.createOpenAIService cfg None) as [apiKey|e].
  2:{ inversion H; subst. left. eauto. }
  right.
  destruct (stages_cases P cfg w (ImageFlow.pr_payload pr) (ImageFlow.pr_baseImage pr)
              (ImageFlow.req_referenceImages req) (ImageFlow.pr_baseImageUpload pr)
              (ImageFlow.pr_referenceUploads pr) s1) as (events & Htr & Hend).
  rewrite H in Htr, Hend. simpl in Htr, Hend.
  exists (ImageFlow.pr_baseImageUpload pr), (ImageFlow.pr_referenceUploads pr), events.
  rewrite Htr, Hp. split; [reflexivity|exact Hend].
Qed.

Lemma post_cases P cfg w req :
  (exists e keys,
     fst (ImageFlow.post P cfg w req) = errorHandler e
     /\ trace (snd (ImageFlow.post P cfg w req)) = map EvS3Put keys)
  \/ (exists bu rus events r,
        trace (snd (ImageFlow.post P cfg w req))
        = (map EvS3Put (Storage.key bu :: map Storage.key rus)
           ++ EvOpenAIReconstruct :: events)%list
        /\ Spec.Ending P cfg w bu rus events r
        /\ fst (ImageFlow.post P cfg w req) = Spec.response_of r).
Proof.
  unfold ImageFlow.post, asyncHandler.
  destruct (ImageFlow.handler P cfg w req init) as [r st] eqn:H.
  destruct (handler_cases _ _ _ _ _ _ H) as [(e & keys & -> & Htr)|(bu & rus & events & Htr & Hend)].
  - left. exists e, keys. auto.
  - right. exists bu, rus, events, r. destruct r; auto.
Qed.

Lemma errorHandler_message_only e : Spec.message_only (errorHandler e).
Proof.
  destruct e; unfold Spec.message_only; simpl; repeat split; eauto.
Qed.

Lemma existsb_after_uploads (f : Event -> bool) keys events :
  (forall k, f (EvS3Put k) = false) ->
  existsb f (map EvS3Put keys ++ events) = existsb f events.
Proof.
  intros Hf. rewrite existsb_app, (existsb_s3 f keys Hf). reflexivity.
Qed.

Lemma hasUserInstructions_spec payload :
  ImageFlow.hasUserInstructions payload = true <-> Spec.has_instructions payload.
Proof.
  unfold ImageFlow.hasUserInstructions, ImageFlow.trimmed_instructions,
    Spec.has_instructions.
  destruct (ImageFlow.userPrompt payload) as [u|]; simpl; [|split; [discriminate|tauto]].
  destruct (JsString.trim u) as [|c t]; simpl.
  - split; [discriminate|congruence].
  - split; [discriminate|reflexivity].
Qed.

Lemma after_step1_events P cfg w payload referenceImages bu rus prompt1 s :
  exists events,
    trace (snd (ImageFlow.after_step1 P cfg w payload referenceImages bu rus prompt1 s))
    = (trace s ++ events)%list
    /\ Spec.stage2_ran events = ImageFlow.hasUserInstructions payload.
Proof.
  unfold ImageFlow.after_step1, bind.
  destruct (step2_cases P w payload referenceImages (Storage.url bu)
              (map Storage.url rus) prompt1 s) as (r2 & H2 & Hr2).
  rewrite H2.
  set (ev2 := if ImageFlow.hasUserInstructions payload
              then [EvOpenAIApplyInstructions prompt1
                      (ImageFlow.trimmed_instructions payload)]
              else []) in *.
  assert (Hev2 : Spec.stage2_ran ev2 = ImageFlow.hasUserInstructions payload).
  { unfold ev2. destruct (ImageFlow.hasUserInstructions payload); reflexivity. }
  destruct r2 as [response|[prompt2 ex]].
  { exists ev2. split; [reflexivity|exact Hev2]. }
  destruct (step3_cases P cfg w payload bu rus prompt1 prompt2 ex
              (mkSt (trace s ++ ev2) (uuids s))) as (later & Htr & Hall & _).
  eexists. rewrite Htr. simpl. rewrite <- app_assoc. split; [reflexivity|].
  unfold Spec.stage2_ran in *. rewrite existsb_app, Hev2. simpl.
  rewrite (existsb_none Spec.is_apply (fun ev => Spec.is_fal ev || Spec.is_s3 ev) later);
    [|now intros []|exact Hall].
  apply orb_false_r.
Qed.

Lemma after_step1_skip P cfg w payload referenceImages bu rus prompt1 s :
  ImageFlow.hasUserInstructions payload = false ->
  ImageFlow.after_step1 P cfg w payload referenceImages bu rus prompt1 s
  = ImageFlow.step3 P cfg w payload bu rus prompt1 prompt1 false s.
Proof.
  intros H. unfold ImageFlow.after_step1, ImageFlow.step2, bind, ret. rewrite H.
  reflexivity.
Qed.

Lemma prepare_Ok P cfg w req pr s s1 :
  ImageFlow.prepare P cfg w req s = (Ok pr, s1) ->
  ImageFlow.req_baseImage req = Some (ImageFlow.pr_baseImage pr)
  /\ ImageFlow.imageFlowSchema_parse P (ImageFlow.req_userPrompt req)
       (ImageFlow.req_aspectRatio req) = Ok (ImageFlow.pr_payload pr).
Proof.
  unfold ImageFlow.prepare. destruct (ImageFlow.req_baseImage req) as [baseImage|];
    [|discriminate].
  unfold bind, await, ret.
  destruct (ImageFlow.validate baseImage _) as [[]|e]; [|discriminate].
  destruct (ImageFlow.imageFlowSchema_parse P _ _) as [payload|e]; [|discriminate].
  destruct (ImageFlow.upload_input P cfg w baseImage s) as [[bu|e] s0]; [|discriminate].
  destruct (Storage.promise_all _ s0) as [[rus|e] s2]; [|discriminate].
  intros H. inversion H. auto.
Qed.

Lemma imageFlowSchema_parse_userPrompt P up ar payload :
  ImageFlow.imageFlowSchema_parse P up ar = Ok payload ->
  ImageFlow.userPrompt payload
  = match up with Some (FormText s) => Some s | _ => None end.
Proof.
  unfold ImageFlow.imageFlowSchema_parse.
  destruct up as [[u|]|]; try discriminate;
    destruct ar as [[a|]|]; try discriminate;
    try destruct (AspectRatio.is_option a); try discriminate;
    intros H; inversion H; reflexivity.
Qed.

Lemma instructions_given_spec P req payload :
  ImageFlow.imageFlowSchema_parse P (ImageFlow.req_userPrompt req)
    (ImageFlow.req_aspectRatio req) = Ok payload ->
  Spec.has_instructions payload <-> Spec.instructions_given req.
Proof.
  intros H. apply imageFlowSchema_parse_userPrompt in H.
  unfold Spec.has_instructions, Spec.instructions_given. rewrite H.
  destruct (ImageFlow.req_userPrompt req) as [[u|]|]; tauto.
Qed.

(** Stage 1 at a reply that is no refusal and long enough. *)
Lemma stages_after_step1 P cfg w payload baseImage referenceImages bu rus s content :
  openai_reconstruct w (ImageFlow.buffer baseImage) (ImageFlow.mimetype baseImage)
  = ChatOk (Some content) ->
  Spec.is_refusal content = false ->
  (3 <= JsString.length (JsString.trim content))%nat ->
  ImageFlow.stages P cfg w payload baseImage referenceImages bu rus s
  = ImageFlow.after_step1 P cfg w payload referenceImages bu rus (JsString.trim content)
      (mkSt (trace s ++ [EvOpenAIReconstruct]) (uuids s)).
Proof.
  intros Hw Hr Hlen.
  assert (Hne : content <> EmptyString) by (intros ->; simpl in Hlen; lia).
  unfold ImageFlow.stages, ImageFlow.step1, OpenAI.reconstructPromptFromImage,
    OpenAI.chatCompletions, OpenAI.makeRequest, bind, try_catch, emit, ret, await.
  rewrite Hw. simpl.
  destruct content as [|c content]; [congruence|]. simpl.
  rewrite isRefusal_reconstruct_spec, Hr. simpl.
  rewrite (too_short_ge _ Hlen). reflexivity.
Qed.

(** A run either stops before Stage 1, with nothing but uploads in the
    log, or continues with the stages. *)
Lemma post_reaches_stages P cfg w req :
  (exists keys, trace (snd (ImageFlow.post P cfg w req)) = map EvS3Put keys)
  \/ (exists pr s1 keys,
        ImageFlow.prepare P cfg w req init = (Ok pr, s1)
        /\ trace s1 = map EvS3Put keys
        /\ snd (ImageFlow.post P cfg w req)
           = snd (ImageFlow.stages P cfg w (ImageFlow.pr_payload pr)
                    (ImageFlow.pr_baseImage pr) (ImageFlow.req_referenceImages req)
                    (ImageFlow.pr_baseImageUpload pr) (ImageFlow.pr_referenceUploads pr)
                    s1)).
Proof.
  unfold ImageFlow.post, asyncHandler, ImageFlow.handler, bind, await.
  destruct (ImageFlow.prepare P cfg w req init) as [[pr|e] s1] eqn:Hp.
  2:{ left. apply prepare_cases in Hp. exact Hp. }
  pose proof (prepare_cases _ _ _ _ _ _ Hp) as Hk. cbv beta iota in Hk.
  destruct (OpenAI.createOpenAIService cfg None) as [apiKey|e].
  2:{ left. eexists. exact Hk. }
  right. eexists pr, s1, _. split; [reflexivity|]. split; [exact Hk|].
  destruct (ImageFlow.stages _ _ _ _ _ _ _ _ s1) as [[r|e] s2]; reflexivity.
Qed.

(** Stage 2 is called by no run without instructions. *)
Lemma stages_stage2 P cfg w payload baseImage referenceImages bu rus s :
  exists events,
    trace (snd (ImageFlow.stages P cfg w payload baseImage referenceImages bu rus s))
    = (trace s ++ EvOpenAIReconstruct :: events)%list
    /\ (Spec.stage2_ran events = true -> ImageFlow.hasUserInstructions payload = true).
Proof.
  unfold ImageFlow.stages, bind.
  destruct (step1_cases P w baseImage (Storage.url bu) (map Storage.url rus) s)
    as (r1 & H1 & _).
  rewrite H1. destruct r1 as [response|prompt1].
  { exists []. split; [reflexivity|discriminate]. }
  destruct (after_step1_events P cfg w payload referenceImages bu rus prompt1
              (mkSt (trace s ++ [EvOpenAIReconstruct]) (uuids s)))
    as (events & Htr & Hran).
  exists events. rewrite Htr. simpl. rewrite <- app_assoc. split; [reflexivity|].
  now rewrite Hran.
Qed.

End Orchestrator.

(** C4: for every outcome that Stage 1 returns, (a) if [generated] is
    false the orchestrator answers 502 with [prompt1] the outcome's
    prompt text, [prompt2] and the output image null and a non-empty
    error; (b) if [generated] is true and the trimmed prompt has fewer
    than 3 characters (code units, as [length] counts them) it answers
    the same 502 shape with the invalid-prompt message, [prompt1] being
    the trimmed prompt, or "Invalid prompt" when nothing is left of it;
    (c) otherwise [prompt1] is the trimmed prompt and the request goes
    on to Stage 2. *)
Theorem step1_response_shapes
    (P : Env.Platform) (cfg : Config.AppConfig) (w : Env.World)
    (payload : ImageFlow.Payload) (baseImage : ImageFlow.File)
    (referenceImages : list ImageFlow.File)
    (baseImageUpload : Storage.Upload) (referenceUploads : list Storage.Upload)
    (s s1 : Js.St) (o : OpenAI.PromptGenerationResponse) :
  OpenAI.reconstructPromptFromImage w (ImageFlow.buffer baseImage)
    (ImageFlow.mimetype baseImage) s = (Js.Ok o, s1) ->
  let run :=
    ImageFlow.stages P cfg w payload baseImage referenceImages baseImageUpload
      referenceUploads s in
  let refused prompt1 error :=
    ImageFlow.short_circuit (Storage.url baseImageUpload)
      (map Storage.url referenceUploads) prompt1 Js.JNull error in
  exists p,
    OpenAI.prompt o = Js.JStr p
    /\ (OpenAI.isPromptGenerated o = Js.JBool false ->
        exists error,
          error <> EmptyString
          /\ run = (Js.Ok (refused (Js.JStr p) error), s1)
          /\ Http.status (refused (Js.JStr p) error) = 502%Z
          /\ Http.field "prompt1" (refused (Js.JStr p) error) = Some (Js.JStr p)
          /\ Http.field "prompt2" (refused (Js.JStr p) error) = Some Js.JNull
          /\ Http.field "outputImage" (refused (Js.JStr p) error) = Some Js.JNull
          /\ Http.field "error" (refused (Js.JStr p) error) = Some (Js.JStr error))
    /\ (OpenAI.isPromptGenerated o = Js.JBool true ->
        (JsString.length (JsString.trim p) < 3)%nat ->
        run = (Js.Ok (refused
                        (Js.JStr (if JsString.is_empty (JsString.trim p)
                                  then "Invalid prompt" else JsString.trim p))
                        "OpenAI did not return a valid reconstructed prompt. Please try again with a different image."),
               s1))
    /\ (OpenAI.isPromptGenerated o = Js.JBool true ->
        (3 <= JsString.length (JsString.trim p))%nat ->
        run = ImageFlow.after_step1 P cfg w payload referenceImages baseImageUpload
                referenceUploads (JsString.trim p) s1).
Proof.
  intros H run refused.
  pose proof (reconstructPromptFromImage_ok _ _ _ _ _ _ H) as (content & Hne & Ho & Hs).
  exists content. subst o. split; [reflexivity|].
  unfold run, ImageFlow.stages, ImageFlow.step1, Js.bind, Js.try_catch. rewrite H.
  destruct (Spec.is_refusal content) eqn:Hr;
    cbn [OpenAI.isPromptGenerated OpenAI.prompt negb Json.truthy].
  - split; [|split]; [|discriminate|discriminate].
    intros _. exists ("OpenAI could not reconstruct the prompt: " ++ content).
    split; [discriminate|]. split; [|repeat split].
    unfold Json.or_else, Json.truthy.
    destruct content as [|c content]; [congruence|]. reflexivity.
  - split; [discriminate|]. unfold Js.await, ImageFlow.trim_method. split.
    + intros _ Hlt. rewrite (too_short_lt _ Hlt).
      destruct (JsString.trim content); reflexivity.
    + intros _ Hge. rewrite (too_short_ge _ Hge). reflexivity.
Qed.

(** C4, at three replies of the vision model: a refusal; a reply of two
    characters outside ASCII (six bytes); a reply that is a no-break
    space and nothing else. *)
Lemma step1_response_shapes_witness :
  let refusal := "I'm sorry, I can't assist with that." in
  let two := "日本" in
  let blank := String (ascii_of_N 194) (String (ascii_of_N 160) EmptyString) in
  let w reply := Sample.world_openai (Env.ChatOk (Some reply)) (Env.ChatFails Js.Primitive) in
  let s1 := Js.mkSt [Js.EvOpenAIReconstruct] 0 in
  let base := Storage.mkUpload "k" "https://cdn.example.com/k" in
  let run reply :=
    ImageFlow.stages Sample.platform Sample.cfg (w reply) (ImageFlow.mkPayload None None)
      (Sample.png 1000) [] base [] Js.init in
  let invalid prompt1 :=
    (Js.Ok (ImageFlow.short_circuit "https://cdn.example.com/k" [] (Js.JStr prompt1)
              Js.JNull
              "OpenAI did not return a valid reconstructed prompt. Please try again with a different image."),
     s1) in
  (exists error,
      run refusal = (Js.Ok (ImageFlow.short_circuit "https://cdn.example.com/k" []
                              (Js.JStr refusal) Js.JNull error), s1))
  /\ run two = invalid two
  /\ run blank = invalid "Invalid prompt".
Proof.
  intros refusal two blank w s1 base run invalid.
  split; [|split].
  - destruct (step1_response_shapes Sample.platform Sample.cfg (w refusal)
                (ImageFlow.mkPayload None None) (Sample.png 1000) [] base []
                Js.init s1 (OpenAI.mkPrompt (Js.JStr refusal) (Js.JBool false)) eq_refl)
      as (p & Hp & Hrefused & _).
    destruct (Hrefused eq_refl) as (error & _ & Hrun & _).
    exists error. inversion Hp; subst p. exact Hrun.
  - destruct (step1_response_shapes Sample.platform Sample.cfg (w two)
                (ImageFlow.mkPayload None None) (Sample.png 1000) [] base []
                Js.init s1 (OpenAI.mkPrompt (Js.JStr two) (Js.JBool true)) eq_refl)
      as (p & Hp & _ & Hshort & _).
    inversion Hp; subst p. exact (Hshort eq_refl (le_n 3)).
  - destruct (step1_response_shapes Sample.platform Sample.cfg (w blank)
                (ImageFlow.mkPayload None None) (Sample.png 1000) [] base []
                Js.init s1 (OpenAI.mkPrompt (Js.JStr blank) (Js.JBool true)) eq_refl)
      as (p & Hp & _ & Hshort & _).
    inversion Hp; subst p. exact (Hshort eq_refl (le_S _ _ (le_S _ _ (le_n 1)))).
Defined.

(** C2, counterexample: a request that reaches Stage 1 and whose image
    synthesis fails is answered with the error handler's bare
    [{ message }] object, status 500. *)
Lemma stage3_failure_counterexample :
  let w := Sample.world_vertex (Js.Throw (Js.Error "boom")) in
  ImageFlow.post Sample.platform Sample.cfg w (Sample.request None)
  = (Http.json 500 [("message", Js.JStr "Unexpected error occurred")],
     Js.mkSt [Js.EvS3Put "internaluse/inputs/uuid-0.png";
              Js.EvOpenAIReconstruct;
              Js.EvVertexGenerateContent "A red bicycle leaning on a brick wall"
                (Some "1:1")] 1).
Proof. vm_compute. reflexivity. Qed.

(** The same holds when the upload of the generated image fails. *)
Lemma output_upload_failure_message_only :
  ImageFlow.post Sample.platform Sample.cfg Sample.world_outputs_refused
    (Sample.request None)
  = (Http.json 500 [("message", Js.JStr "Unexpected error occurred")],
     Js.mkSt [Js.EvS3Put "internaluse/inputs/uuid-0.png";
              Js.EvOpenAIReconstruct;
              Js.EvVertexGenerateContent "A red bicycle leaning on a brick wall"
                (Some "1:1");
              Js.EvS3Put "internaluse/outputs/uuid-1.png"] 2).
Proof. vm_compute. reflexivity. Qed.

(** C2 (as amended): a request that reached Stage 1 and ends before
    image synthesis starts is answered 502 with the pipeline-shaped body:
    the URLs of the uploaded base and reference images, [prompt1],
    [prompt2], a null output image, an error string and
    [isPromptGenerated: false]; a request whose synthesis started either
    succeeds or is answered by the error handler with a bare message
    object. *)
Theorem short_circuit_response_shapes
    (P : Env.Platform) (cfg : Config.AppConfig) (w : Env.World)
    (req : ImageFlow.Request) :
  let response := fst (ImageFlow.post P cfg w req) in
  let calls := Js.trace (snd (ImageFlow.post P cfg w req)) in
  Spec.reached_stage1 calls = true ->
  (Spec.synthesis_started calls = false ->
   exists bu rus prompt1 prompt2 error later,
     calls = (map Js.EvS3Put (Storage.key bu :: map Storage.key rus) ++ later)%list
     /\ response = ImageFlow.short_circuit (Storage.url bu) (map Storage.url rus)
                     prompt1 prompt2 error
     /\ Http.status response = 502%Z
     /\ Http.field "error" response = Some (Js.JStr error)
     /\ Http.field "isPromptGenerated" response = Some (Js.JBool false)
     /\ Http.field "message" response = None)
  /\ (Spec.synthesis_started calls = true ->
      Spec.message_only response
      \/ exists bu rus prompt1 prompt2 out step2Executed,
           response = ImageFlow.success bu rus prompt1 prompt2 out step2Executed).
Proof.
  intros response calls Hreached.
  destruct (post_cases P cfg w req)
    as [(e & keys & _ & Htr)|(bu & rus & events & r & Htr & Hend & Hresp)].
  { exfalso. unfold calls, Spec.reached_stage1 in Hreached. rewrite Htr in Hreached.
    rewrite existsb_s3 in Hreached; [discriminate|reflexivity]. }
  fold calls in Htr. fold response in Hresp.
  assert (Hsyn : Spec.synthesis_started calls = Spec.synthesis_started events).
  { rewrite Htr. unfold Spec.synthesis_started.
    rewrite existsb_after_uploads; reflexivity. }
  rewrite Hsyn. rewrite Hresp.
  destruct Hend as [p1 p2 err Hno|e Hyes|p1 p2 ar out ex s0 s1 image Hyes Hg Hex Hskip].
  - split; [|congruence]. intros _.
    exists bu, rus, p1, p2, err, (Js.EvOpenAIReconstruct :: events).
    split; [exact Htr|]. repeat split.
  - split; [congruence|]. intros _. left. apply errorHandler_message_only.
  - split; [congruence|]. intros _. right. simpl. eauto 10.
Qed.

(** C2, at a Stage-2 refusal of the sample world. *)
Lemma short_circuit_response_shapes_witness :
  let w := Sample.world_openai
             (Env.ChatOk (Some "A red bicycle leaning on a brick wall"))
             (Env.ChatOk (Some "I cannot change this image.")) in
  let response :=
    fst (ImageFlow.post Sample.platform Sample.cfg w (Sample.request (Some "make it blue"))) in
  Http.status response = 502%Z
  /\ Http.field "prompt1" response
     = Some (Js.JStr "A red bicycle leaning on a brick wall")
  /\ Http.field "prompt2" response = Some (Js.JStr "I cannot change this image.")
  /\ Http.field "baseImage" response
     = Some (Js.JStr "https://cdn.example.com/internaluse/inputs/uuid-0.png")
  /\ exists error, Http.field "error" response = Some (Js.JStr error).
Proof.
  intros w response.
  destruct (short_circuit_response_shapes Sample.platform Sample.cfg w
              (Sample.request (Some "make it blue")) eq_refl) as [H _].
  destruct (H eq_refl) as (bu & rus & p1 & p2 & error & later & _ & _ & Hst & Herr & _).
  split; [exact Hst|].
  split; [reflexivity|]. split; [reflexivity|]. split; [reflexivity|].
  exists error. exact Herr.
Defined.

(** C5: for a request whose Stage 1 produces [prompt1] (the vision
    model's reply is no refusal and, trimmed, has a length of 3 or
    more), Stage 2 is called if and only if the form field [userPrompt]
    is a text that is not empty after trimming; no request calls Stage 2
    without such instructions.  When Stage 2 is skipped the request goes
    on to Stage 3 with [prompt2 = prompt1] and [step2Executed = false];
    hence every response that carries [step2Executed: false] and
    [isPromptGenerated: true] is a 200 response whose [prompt2] equals
    its [prompt1]. *)
Theorem stage2_runs_iff_instructions
    (P : Env.Platform) (cfg : Config.AppConfig) (w : Env.World) :
  (forall req baseImage content,
      let calls := Js.trace (snd (ImageFlow.post P cfg w req)) in
      Spec.reached_stage1 calls = true ->
      ImageFlow.req_baseImage req = Some baseImage ->
      Env.openai_reconstruct w (ImageFlow.buffer baseImage) (ImageFlow.mimetype baseImage)
      = Env.ChatOk (Some content) ->
      Spec.is_refusal content = false ->
      (3 <= JsString.length (JsString.trim content))%nat ->
      (Spec.stage2_ran calls = true <-> Spec.instructions_given req))
  /\ (forall req,
        Spec.stage2_ran (Js.trace (snd (ImageFlow.post P cfg w req))) = true ->
        Spec.instructions_given req)
  /\ (forall payload referenceImages bu rus prompt1 s,
        exists events,
          Js.trace (snd (ImageFlow.after_step1 P cfg w payload referenceImages bu rus
                           prompt1 s))
          = (Js.trace s ++ events)%list
          /\ (Spec.stage2_ran events = true <-> Spec.has_instructions payload)
          /\ (~ Spec.has_instructions payload ->
              ImageFlow.after_step1 P cfg w payload referenceImages bu rus prompt1 s
              = ImageFlow.step3 P cfg w payload bu rus prompt1 prompt1 false s))
  /\ (forall req,
        let response := fst (ImageFlow.post P cfg w req) in
        Http.field "step2Executed" response = Some (Js.JBool false) ->
        Http.field "isPromptGenerated" response = Some (Js.JBool true) ->
        Http.status response = 200%Z
        /\ exists prompt1,
             Http.field "prompt1" response = Some (Js.JStr prompt1)
             /\ Http.field "prompt2" response = Some (Js.JStr prompt1)).
Proof.
  split; [|split; [|split]].
  - intros req baseImage content calls Hreached Hbase Hw Hr Hlen.
    destruct (post_reaches_stages P cfg w req)
      as [(keys & Hk)|(pr & s1 & keys & Hp & Hk & Hsnd)].
    { exfalso. unfold calls, Spec.reached_stage1 in Hreached. rewrite Hk in Hreached.
      rewrite existsb_s3 in Hreached; [discriminate|reflexivity]. }
    destruct (prepare_Ok _ _ _ _ _ _ _ Hp) as [Hb Hparse].
    rewrite Hbase in Hb. inversion Hb as [Hb']. clear Hb. rewrite <- Hb' in Hsnd.
    unfold calls. rewrite Hsnd.
    rewrite (stages_after_step1 P cfg w _ baseImage _ _ _ s1 content Hw Hr Hlen).
    destruct (after_step1_events P cfg w (ImageFlow.pr_payload pr)
                (ImageFlow.req_referenceImages req) (ImageFlow.pr_baseImageUpload pr)
                (ImageFlow.pr_referenceUploads pr) (JsString.trim content)
                (Js.mkSt (Js.trace s1 ++ [Js.EvOpenAIReconstruct]) (Js.uuids s1)))
      as (events & Htr & Hran).
    rewrite Htr. simpl. rewrite Hk, <- app_assoc.
    unfold Spec.stage2_ran in *. rewrite existsb_after_uploads by reflexivity.
    simpl. rewrite Hran.
    rewrite hasUserInstructions_spec. now apply (instructions_given_spec P).
  - intros req Hran.
    destruct (post_reaches_stages P cfg w req)
      as [(keys & Hk)|(pr & s1 & keys & Hp & Hk & Hsnd)].
    { exfalso. unfold Spec.stage2_ran in Hran. rewrite Hk in Hran.
      rewrite existsb_s3 in Hran; [discriminate|reflexivity]. }
    destruct (prepare_Ok _ _ _ _ _ _ _ Hp) as [_ Hparse].
    apply (instructions_given_spec P req _ Hparse). apply hasUserInstructions_spec.
    rewrite Hsnd in Hran.
    destruct (stages_stage2 P cfg w (ImageFlow.pr_payload pr)
                (ImageFlow.pr_baseImage pr) (ImageFlow.req_referenceImages req)
                (ImageFlow.pr_baseImageUpload pr) (ImageFlow.pr_referenceUploads pr) s1)
      as (events & Htr & Himp).
    rewrite Htr, Hk in Hran. unfold Spec.stage2_ran in Hran.
    rewrite existsb_after_uploads in Hran by reflexivity.
    simpl in Hran. exact (Himp Hran).
  - intros payload referenceImages bu rus prompt1 s.
    destruct (after_step1_events P cfg w payload referenceImages bu rus prompt1 s)
      as (events & Htr & Hran).
    exists events. split; [exact Htr|]. split.
    + rewrite Hran. apply hasUserInstructions_spec.
    + intros Hno. apply after_step1_skip.
      destruct (ImageFlow.hasUserInstructions payload) eqn:E; [|reflexivity].
      apply hasUserInstructions_spec in E. contradiction.
  - intros req response Hex Hgen.
    destruct (post_cases P cfg w req)
      as [(e & keys & Hresp & _)|(bu & rus & events & r & _ & Hend & Hresp)];
      fold response in Hresp; rewrite Hresp in Hex, Hgen |- *.
    + destruct (errorHandler_message_only e) as (_ & _ & _ & _ & _ & _ & _ & _ & _ & H).
      congruence.
    + destruct Hend as [p1 p2 err Hno|e Hyes|p1 p2 ar out ex s0 s1 image Hyes Hg Hran Hskip];
        simpl in Hex, Hgen |- *.
      * discriminate.
      * destruct (errorHandler_message_only e) as (_ & _ & _ & _ & _ & _ & _ & _ & _ & H).
        congruence.
      * split; [reflexivity|]. exists p1. split; [reflexivity|].
        inversion Hex as [Hex']. rewrite (Hskip Hex'). reflexivity.
Qed.

(** C5, at the sample request: with instructions Stage 2 is called;
    with instructions that are a no-break space and a space it is not,
    and [prompt2] is [prompt1]. *)
Lemma stage2_runs_iff_instructions_witness :
  let blank := String (ascii_of_N 194) (String (ascii_of_N 160) " ") in
  let run instructions :=
    ImageFlow.post Sample.platform Sample.cfg Sample.world (Sample.request instructions) in
  Spec.stage2_ran (Js.trace (snd (run (Some "make it blue")))) = true
  /\ Spec.stage2_ran (Js.trace (snd (run (Some blank)))) = false
  /\ Http.field "step2Executed" (fst (run (Some blank))) = Some (Js.JBool false)
  /\ exists prompt1,
       Http.field "prompt1" (fst (run (Some blank))) = Some (Js.JStr prompt1)
       /\ Http.field "prompt2" (fst (run (Some blank))) = Some (Js.JStr prompt1).
Proof.
  intros blank run.
  destruct (stage2_runs_iff_instructions Sample.platform Sample.cfg Sample.world)
    as (Hiff & Honly & _ & Hsame).
  split; [|split; [|split]].
  - apply (Hiff (Sample.request (Some "make it blue")) (Sample.png 1000)
             "A red bicycle leaning on a brick wall" eq_refl eq_refl eq_refl eq_refl).
    + vm_compute. repeat constructor.
    + discriminate.
  - destruct (Spec.stage2_ran (Js.trace (snd (run (Some blank))))) eqn:E; [|reflexivity].
    exfalso. exact (Honly (Sample.request (Some blank)) E eq_refl).
  - reflexivity.
  - exact (proj2 (Hsame (Sample.request (Some blank)) eq_refl eq_refl)).
Defined.

(** C6: every response with [isPromptGenerated: false] has a null
    output image and no output image key; a response with a non-null
    output image is a 200 response with [isPromptGenerated: true] of a
    request whose image synthesis returned an image. *)
Theorem refused_responses_carry_no_output
    (P : Env.Platform) (cfg : Config.AppConfig) (w : Env.World)
    (req : ImageFlow.Request) :
  let response := fst (ImageFlow.post P cfg w req) in
  let calls := Js.trace (snd (ImageFlow.post P cfg w req)) in
  (Http.field "isPromptGenerated" response = Some (Js.JBool false) ->
   Http.field "outputImage" response = Some Js.JNull
   /\ Http.field "outputImageKey" response = None
   /\ Spec.null_field "outputImage" response
   /\ Spec.null_field "outputImageKey" response)
  /\ (~ Spec.null_field "outputImage" response ->
      Http.status response = 200%Z
      /\ Http.field "isPromptGenerated" response = Some (Js.JBool true)
      /\ Spec.synthesis_started calls = true
      /\ exists prompt2 ar s0 s1 image,
           Gemini.generateImage P cfg w prompt2 ar s0 = (Js.Ok image, s1)
           /\ Http.field "prompt2" response = Some (Js.JStr prompt2)).
Proof.
  intros response calls.
  destruct (post_cases P cfg w req)
    as [(e & keys & Hresp & _)|(bu & rus & events & r & Htr & Hend & Hresp)];
    fold response in Hresp; try fold calls in Htr; rewrite Hresp.
  - destruct (errorHandler_message_only e) as (_ & _ & _ & _ & _ & _ & Ho & _ & Hg & _).
    split; [congruence|]. intros Hnn. exfalso. apply Hnn. left. exact Ho.
  - destruct Hend as [p1 p2 err Hno|e Hyes|p1 p2 ar out ex s0 s1 image Hyes Hg Hran Hskip];
      simpl Spec.response_of.
    + split.
      * intros _. unfold Spec.null_field. simpl. auto.
      * intros Hnn. exfalso. apply Hnn. right. reflexivity.
    + destruct (errorHandler_message_only e) as (_ & _ & _ & _ & _ & _ & Ho & _ & Hgen & _).
      split; [congruence|]. intros Hnn. exfalso. apply Hnn. left. exact Ho.
    + split; [discriminate|]. intros _.
      split; [reflexivity|]. split; [reflexivity|]. split.
      * rewrite Htr. unfold Spec.synthesis_started.
        rewrite existsb_after_uploads; [|reflexivity]. exact Hyes.
      * exists p2, ar, s0, s1, image. split; [exact Hg|reflexivity].
Qed.

(** C6, at a Stage-1 refusal of the sample world. *)
Lemma refused_responses_carry_no_output_witness :
  let w := Sample.world_openai (Env.ChatOk (Some "I'm sorry, I can't assist with that."))
             (Env.ChatFails Js.Primitive) in
  let response :=
    fst (ImageFlow.post Sample.platform Sample.cfg w (Sample.request None)) in
  Http.field "isPromptGenerated" response = Some (Js.JBool false)
  /\ Http.field "outputImage" response = Some Js.JNull
  /\ Http.field "outputImageKey" response = None.
Proof.
  intros w response. split; [reflexivity|].
  destruct (refused_responses_carry_no_output Sample.platform Sample.cfg w
              (Sample.request None)) as [H _].
  destruct (H eq_refl) as (H1 & H2 & _). split; [exact H1|exact H2].
Defined.

(** ** The image proxy (routes/imageProxy.ts) *)

Section Proxy.
Import Js Env Config Http.

Lemma fetch_image_trace w finalUrl s :
  trace (snd (ImageProxy.fetch_image w finalUrl s))
  = (trace s ++ [EvProxyFetch finalUrl])%list.
Proof.
  unfold ImageProxy.fetch_image, try_catch, bind, emit, await, throw, ret. simpl.
  destruct (http_get w finalUrl) as [d|e]; simpl.
  - destruct (negb (http_ok (dl_status d))); [reflexivity|].
    destruct (dl_arrayBuffer d) as [bytes|e]; [reflexivity|].
    destruct e; reflexivity.
  - destruct e; reflexivity.
Qed.

(** A reply with a 2xx status and a readable body is served as it is. *)
Lemma fetch_image_served w finalUrl s d bytes :
  http_get w finalUrl = Ok d ->
  http_ok (dl_status d) = true ->
  dl_arrayBuffer d = Ok bytes ->
  exists headers,
    fst (ImageProxy.fetch_image w finalUrl s) = Ok (mkResponse 200 (ImageBody headers bytes)).
Proof.
  intros Hd Hok Hb.
  unfold ImageProxy.fetch_image, try_catch, bind, emit, await, throw, ret. simpl.
  rewrite Hd, Hok, Hb. simpl. eexists. reflexivity.
Qed.

Lemma get_resolved P cfg w q finalUrl :
  ImageProxy.resolve P cfg q = Ok finalUrl ->
  ImageProxy.get P cfg w q = asyncHandler (ImageProxy.fetch_image w finalUrl) init.
Proof.
  intros H. unfold ImageProxy.get, asyncHandler, ImageProxy.handler, bind, await.
  rewrite H. reflexivity.
Qed.

Lemma get_rejected P cfg w q e :
  ImageProxy.resolve P cfg q = Throw e ->
  ImageProxy.get P cfg w q = (errorHandler e, init).
Proof.
  intros H. unfold ImageProxy.get, asyncHandler, ImageProxy.handler, bind, await.
  rewrite H. reflexivity.
Qed.

End Proxy.

(** C7, counterexample: a request that supplies both [key] and a [url]
    outside the storage base is neither refused with 400 nor with 403;
    the key is resolved and fetched. *)
Lemma proxy_both_parameters_counterexample :
  ImageProxy.get Sample.platform Sample.cfg Sample.world
    (ImageProxy.mkQuery (Some "http://evil.example/x.png") (Some "a.png"))
  = (Http.mkResponse 200
       (Http.ImageBody
          [("Content-Type", "image/png"); ("Content-Length", "3");
           ("Cache-Control", "public, max-age=31536000, immutable");
           ("Access-Control-Allow-Origin", "*")]
          "PNG"),
     Js.mkSt [Js.EvProxyFetch "https://cdn.example.com/a.png"] 0).
Proof. vm_compute. reflexivity. Qed.

(** The [url] branch at a [url] outside the storage base: the call of
    [logger.warn] throws before the 403 is raised, and the error handler
    answers 500. *)
Lemma proxy_foreign_url_is_answered_500
    (P : Env.Platform) (cfg : Config.AppConfig) (w : Env.World) (q : ImageProxy.Query) :
  JsString.truthy_opt (ImageProxy.q_key q) = false ->
  JsString.truthy_opt (ImageProxy.q_url q) = true ->
  JsString.startsWith (JsString.nullish (ImageProxy.q_url q) "")
    (Config.publicBaseUrl (Config.storage cfg)) = false ->
  ImageProxy.resolve P cfg q = Js.Throw (Js.TypeError "logger.warn is not a function")
  /\ ImageProxy.get P cfg w q
     = (Http.json 500 [("message", Js.JStr "Unexpected error occurred")], Js.init).
Proof.
  intros Hk Hu Hpre.
  assert (Hr : ImageProxy.resolve P cfg q
               = Js.Throw (Js.TypeError "logger.warn is not a function")).
  { unfold ImageProxy.resolve. rewrite Hk, Hu, Hpre.
    destruct (Config.publicBaseUrl (Config.storage cfg));
      [rewrite startsWith_empty in Hpre; discriminate|reflexivity]. }
  split; [exact Hr|]. now rewrite (get_rejected _ _ w _ _ Hr).
Qed.

Lemma proxy_foreign_url_example :
  ImageProxy.get Sample.platform Sample.cfg Sample.world
    (ImageProxy.mkQuery (Some "http://evil.example/x.png") None)
  = (Http.json 500 [("message", Js.JStr "Unexpected error occurred")], Js.init).
Proof. vm_compute. reflexivity. Qed.

(** C7 (as amended): the proxy answers 400, without a fetch, when
    neither [key] nor [url] is given; when [key] is given it is resolved
    against the public base URL and [url] is ignored; when only [url] is
    given and it starts with the public base URL, [url] is what is
    fetched, and nothing else. *)
Theorem proxy_parameter_rules
    (P : Env.Platform) (cfg : Config.AppConfig) (w : Env.World) (q : ImageProxy.Query) :
  let base := Config.publicBaseUrl (Config.storage cfg) in
  let key := JsString.nullish (ImageProxy.q_key q) "" in
  let url := JsString.nullish (ImageProxy.q_url q) "" in
  (JsString.truthy_opt (ImageProxy.q_key q) = false ->
   JsString.truthy_opt (ImageProxy.q_url q) = false ->
   ImageProxy.get P cfg w q
   = (Http.json 400 [("message", Js.JStr "Missing required query parameter: url or key")],
      Js.init))
  /\ (JsString.truthy_opt (ImageProxy.q_key q) = true ->
      ImageProxy.resolve P cfg q = Env.URL_ctor P key base
      /\ (forall url', ImageProxy.resolve P cfg (ImageProxy.mkQuery url' (ImageProxy.q_key q))
                       = ImageProxy.resolve P cfg q)
      /\ forall target,
           Env.URL_ctor P key base = Js.Ok target ->
           forall url',
             Js.trace (snd (ImageProxy.get P cfg w
                              (ImageProxy.mkQuery url' (ImageProxy.q_key q))))
             = [Js.EvProxyFetch target])
  /\ (JsString.truthy_opt (ImageProxy.q_key q) = false ->
      JsString.truthy_opt (ImageProxy.q_url q) = true ->
      JsString.startsWith url base = true ->
      ImageProxy.get P cfg w q
      = Http.asyncHandler (ImageProxy.fetch_image w url) Js.init
      /\ Js.trace (snd (ImageProxy.get P cfg w q)) = [Js.EvProxyFetch url]).
Proof.
  intros base key url. split; [|split].
  - intros Hk Hu.
    apply (get_rejected P cfg w q
             (Js.HttpError 400 "Missing required query parameter: url or key")).
    unfold ImageProxy.resolve. now rewrite Hk, Hu.
  - intros Hk.
    assert (Hany : forall url',
              ImageProxy.resolve P cfg (ImageProxy.mkQuery url' (ImageProxy.q_key q))
              = Env.URL_ctor P key base).
    { intros url'. unfold ImageProxy.resolve. simpl. now rewrite Hk. }
    assert (Hq : ImageProxy.resolve P cfg q = Env.URL_ctor P key base).
    { unfold ImageProxy.resolve. now rewrite Hk. }
    split; [exact Hq|]. split; [intros url'; now rewrite Hany, Hq|].
    intros target Ht url'.
    assert (Hr : ImageProxy.resolve P cfg (ImageProxy.mkQuery url' (ImageProxy.q_key q))
                 = Js.Ok target) by (now rewrite Hany).
    rewrite (get_resolved _ _ w _ _ Hr). unfold Http.asyncHandler.
    pose proof (fetch_image_trace w target Js.init) as Htr.
    destruct (ImageProxy.fetch_image w target Js.init) as [[r|e] s']; exact Htr.
  - intros Hk Hu Hpre.
    assert (Hr : ImageProxy.resolve P cfg q = Js.Ok url).
    { unfold ImageProxy.resolve. rewrite Hk, Hu. fold url base. rewrite Hpre.
      now rewrite andb_false_r. }
    rewrite (get_resolved _ _ _ _ _ Hr). split; [reflexivity|].
    unfold Http.asyncHandler.
    pose proof (fetch_image_trace w url Js.init) as Htr.
    destruct (ImageProxy.fetch_image w url Js.init) as [[r|e] s']; exact Htr.
Qed.

(** C7, at a [url] inside the storage base of the sample configuration,
    and at a request that gives a key together with a [url] outside
    it. *)
Lemma proxy_parameter_rules_witness :
  Js.trace (snd (ImageProxy.get Sample.platform Sample.cfg Sample.world
                   (ImageProxy.mkQuery (Some "https://cdn.example.com/internaluse/a.png")
                      None)))
  = [Js.EvProxyFetch "https://cdn.example.com/internaluse/a.png"]
  /\ Js.trace (snd (ImageProxy.get Sample.platform Sample.cfg Sample.world
                      (ImageProxy.mkQuery (Some "http://evil.example/x.png")
                         (Some "a.png"))))
     = [Js.EvProxyFetch "https://cdn.example.com/a.png"].
Proof.
  split.
  - destruct (proxy_parameter_rules Sample.platform Sample.cfg Sample.world
                (ImageProxy.mkQuery (Some "https://cdn.example.com/internaluse/a.png") None))
      as (_ & _ & H).
    exact (proj2 (H eq_refl eq_refl eq_refl)).
  - destruct (proxy_parameter_rules Sample.platform Sample.cfg Sample.world
                (ImageProxy.mkQuery None (Some "a.png")))
      as (_ & H & _).
    destruct (H eq_refl) as (_ & _ & Hfetch).
    exact (Hfetch "https://cdn.example.com/a.png" eq_refl
             (Some "http://evil.example/x.png")).
Defined.

(** C10: when [key] is given, the fetch target is [new URL(key, base)]
    and is fetched whatever it is: no prefix test is applied to it, and
    a 2xx reply of the target is served with status 200. *)
Theorem proxy_key_is_not_prefix_checked
    (P : Env.Platform) (cfg : Config.AppConfig) (w : Env.World) (q : ImageProxy.Query) :
  JsString.truthy_opt (ImageProxy.q_key q) = true ->
  let base := Config.publicBaseUrl (Config.storage cfg) in
  let key := JsString.nullish (ImageProxy.q_key q) "" in
  ImageProxy.resolve P cfg q = Env.URL_ctor P key base
  /\ forall target,
       Env.URL_ctor P key base = Js.Ok target ->
       ImageProxy.get P cfg w q
       = Http.asyncHandler (ImageProxy.fetch_image w target) Js.init
       /\ Js.trace (snd (ImageProxy.get P cfg w q)) = [Js.EvProxyFetch target]
       /\ forall d bytes,
            Env.http_get w target = Js.Ok d ->
            Env.http_ok (Env.dl_status d) = true ->
            Env.dl_arrayBuffer d = Js.Ok bytes ->
            exists headers,
              fst (ImageProxy.get P cfg w q)
              = Http.mkResponse 200 (Http.ImageBody headers bytes).
Proof.
  intros Hk base key.
  assert (Hr : ImageProxy.resolve P cfg q = Env.URL_ctor P key base).
  { unfold ImageProxy.resolve. now rewrite Hk. }
  split; [exact Hr|]. intros target Ht. rewrite Ht in Hr.
  rewrite (get_resolved _ _ w _ _ Hr). split; [reflexivity|]. split.
  - unfold Http.asyncHandler.
    pose proof (fetch_image_trace w target Js.init) as Htr.
    destruct (ImageProxy.fetch_image w target Js.init) as [[r|e] s']; exact Htr.
  - intros d bytes Hd Hok Hb.
    destruct (fetch_image_served w target Js.init d bytes Hd Hok Hb) as [headers Hs].
    exists headers. unfold Http.asyncHandler.
    destruct (ImageProxy.fetch_image w target Js.init) as [[r|e] s'];
      simpl in Hs |- *; congruence.
Qed.

(** C10, at a key that is an absolute URL: the target lies outside the
    public base URL of the sample configuration and is served. *)
Lemma proxy_key_is_not_prefix_checked_witness :
  let q := ImageProxy.mkQuery None (Some "http://evil.example/x.png") in
  let base := Config.publicBaseUrl (Config.storage Sample.cfg) in
  ImageProxy.resolve Sample.platform Sample.cfg q = Js.Ok "http://evil.example/x.png"
  /\ JsString.startsWith "http://evil.example/x.png" base = false
  /\ Js.trace (snd (ImageProxy.get Sample.platform Sample.cfg Sample.world q))
     = [Js.EvProxyFetch "http://evil.example/x.png"]
  /\ exists headers,
       fst (ImageProxy.get Sample.platform Sample.cfg Sample.world q)
       = Http.mkResponse 200 (Http.ImageBody headers "PNG").
Proof.
  intros q base.
  destruct (proxy_key_is_not_prefix_checked Sample.platform Sample.cfg Sample.world q
              eq_refl) as [Hr H].
  destruct (H "http://evil.example/x.png" eq_refl) as (_ & Htr & Hserved).
  split; [exact Hr|]. split; [reflexivity|]. split; [exact Htr|].
  exact (Hserved Sample.image_reply "PNG" eq_refl eq_refl eq_refl).
Defined.

(** ** Validation (routes/imageFlow.ts) *)

Section Validation.
Import Js Env Config Http.

Lemma validateImage_ok file context :
  Spec.acceptable file -> ImageFlow.validateImage file context = Ok tt.
Proof.
  intros [Hm Hs]. unfold ImageFlow.validateImage. rewrite Hm. simpl.
  apply N.ltb_ge in Hs. now rewrite Hs.
Qed.


(** Whatever [validateImage] throws is a 400. *)
Lemma validateImage_throws file context e :
  ImageFlow.validateImage file context = Throw e ->
  exists message, e = HttpError 400 message.
Proof.
  unfold ImageFlow.validateImage.
  destruct (negb _); [intros H; inversion H; eauto|].
  destruct (_ <? _)%N; [intros H; inversion H; eauto|discriminate].
Qed.

Lemma validateReferences_ok referenceImages index :
  Forall Spec.acceptable referenceImages ->
  ImageFlow.validateReferences referenceImages index = Ok tt.
Proof.
  intros H. revert index. induction H as [|img r Himg _ IH]; intros index; simpl.
  - reflexivity.
  - rewrite (validateImage_ok _ _ Himg). apply IH.
Qed.

Lemma validateReferences_throws referenceImages index e :
  ImageFlow.validateReferences referenceImages index = Throw e ->
  exists message, e = HttpError 400 message.
Proof.
  revert index. induction referenceImages as [|img r IH]; intros index; simpl.
  - discriminate.
  - destruct (ImageFlow.validateImage img _) as [[]|e'] eqn:Hv.
    + apply IH.
    + intros H. inversion H; subst. eapply validateImage_throws. exact Hv.
Qed.







End Validation.



(** A supported reference above the per-file ceiling is reported with
    its own size, before the aggregate is looked at. *)
Lemma validation_reports_first_failure :
  ImageFlow.validate (Sample.png 1) [Sample.png 62914560]
  = Js.Throw (Js.HttpError 400
                "Reference image 1: Image size (60.00 MB) exceeds 50 MB limit.").
Proof. reflexivity. Qed.

(** ** Configuration and credentials (config.ts) *)

Section Credentials.
Import Js Env Config Http.

(** Loading the configuration reads OPENAI_API_KEY into the record and
    nowhere else. *)
Lemma loadConfig_openai_key P D (env : gmap string string) :
  loadConfig P D env
  = match loadConfig P D (delete "OPENAI_API_KEY" env) with
    | Ok cfg => Ok (Spec.with_openai_key (env !! "OPENAI_API_KEY") cfg)
    | Throw e => Throw e
    end.
Proof.
  unfold loadConfig, required, getenv_or, rbind.
  rewrite lookup_delete_eq.
  rewrite !lookup_delete_ne by discriminate.
  repeat match goal with
  | |- context [if ?b then _ else _] => destruct b
  | |- context [match resolveCredentialPath ?p ?f with _ => _ end] =>
      destruct (resolveCredentialPath p f)
  end; reflexivity.
Qed.

Lemma loadConfig_fal_key P D (env : gmap string string) :
  loadConfig P D env
  = match loadConfig P D (delete "FAL_API_KEY" env) with
    | Ok cfg => Ok (Spec.with_fal_key (env !! "FAL_API_KEY") cfg)
    | Throw e => Throw e
    end.
Proof.
  unfold loadConfig, required, getenv_or, rbind.
  rewrite lookup_delete_eq.
  rewrite !lookup_delete_ne by discriminate.
  repeat match goal with
  | |- context [if ?b then _ else _] => destruct b
  | |- context [match resolveCredentialPath ?p ?f with _ => _ end] =>
      destruct (resolveCredentialPath p f)
  end; reflexivity.
Qed.

(** Without a key the handler stops at [createOpenAIService()]. *)
Lemma post_without_openai_key P cfg w req pr s1 :
  JsString.truthy_opt (openai_apiKey (openai cfg)) = false ->
  ImageFlow.prepare P cfg w req init = (Ok pr, s1) ->
  ImageFlow.post P cfg w req
  = (json 500 [("message", JStr "Unexpected error occurred")], s1).
Proof.
  intros Hk Hp.
  unfold ImageFlow.post, asyncHandler, ImageFlow.handler. unfold bind at 1.
  rewrite Hp. unfold bind at 1. unfold await at 1.
  unfold OpenAI.createOpenAIService. rewrite Hk. reflexivity.
Qed.

End Credentials.

(** C9, counterexample: with the object store configured and no
    OPENAI_API_KEY in the environment, loading the configuration
    succeeds and the server listens. *)
Lemma startup_without_openai_key_counterexample :
  Sample.env !! "OPENAI_API_KEY" = None
  /\ Config.startup Sample.platform Sample.defaults Sample.env
     = Config.Listening Sample.cfg_no_keys.
Proof. vm_compute. split; reflexivity. Qed.

(** C9 (as amended): whether the process crashes at startup does not
    depend on OPENAI_API_KEY, nor on FAL_API_KEY; the configuration just
    records them.  A missing vision-model key is found per request: a
    request whose validation and input uploads succeed is answered 500
    by the error handler, with the uploads made and no model called.  A
    missing fallback key is found when the fallback is invoked. *)
Theorem vision_key_is_checked_per_request
    (P : Env.Platform) (D : Config.Defaults) (env : gmap string string) :
  (forall e,
      Config.startup P D env = Config.Crashed e
      <-> Config.startup P D (delete "OPENAI_API_KEY" env) = Config.Crashed e)
  /\ (forall e,
        Config.startup P D env = Config.Crashed e
        <-> Config.startup P D (delete "FAL_API_KEY" env) = Config.Crashed e)
  /\ (forall cfg,
        Config.startup P D env = Config.Listening cfg ->
        Config.openai_apiKey (Config.openai cfg) = env !! "OPENAI_API_KEY"
        /\ Config.fal_apiKey (Config.fal cfg) = env !! "FAL_API_KEY")
  /\ (forall cfg w req pr s1,
        JsString.truthy_opt (Config.openai_apiKey (Config.openai cfg)) = false ->
        ImageFlow.prepare P cfg w req Js.init = (Js.Ok pr, s1) ->
        ImageFlow.post P cfg w req
        = (Http.errorHandler
             (Js.Error "OpenAI API key is required. Set OPENAI_API_KEY environment variable."),
           s1)
        /\ Http.status (fst (ImageFlow.post P cfg w req)) = 500%Z
        /\ Spec.reached_stage1 (Js.trace s1) = false)
  /\ (forall cfg w prompt aspectRatio s,
        JsString.truthy_opt (Config.fal_apiKey (Config.fal cfg)) = false ->
        Fal.generateImage cfg w prompt aspectRatio s
        = (Js.Throw
             (Js.Error "FAL_API_KEY must be configured to use fal.ai as a fallback provider."),
           Js.mkSt (Js.trace s ++ [Js.EvFalGenerateImage prompt aspectRatio])%list
             (Js.uuids s))).
Proof.
  split; [|split; [|split; [|split]]].
  - intros e. unfold Config.startup. rewrite (loadConfig_openai_key P D env).
    destruct (Config.loadConfig P D (delete "OPENAI_API_KEY" env));
      split; intros H; congruence.
  - intros e. unfold Config.startup. rewrite (loadConfig_fal_key P D env).
    destruct (Config.loadConfig P D (delete "FAL_API_KEY" env));
      split; intros H; congruence.
  - intros cfg. unfold Config.startup.
    destruct (Config.loadConfig P D env) as [cfg'|e] eqn:Hl; [|discriminate].
    intros H. inversion H; subst cfg'. split.
    + rewrite loadConfig_openai_key in Hl.
      destruct (Config.loadConfig P D (delete "OPENAI_API_KEY" env)); [|discriminate].
      inversion Hl. reflexivity.
    + rewrite loadConfig_fal_key in Hl.
      destruct (Config.loadConfig P D (delete "FAL_API_KEY" env)); [|discriminate].
      inversion Hl. reflexivity.
  - intros cfg w req pr s1 Hk Hp.
    rewrite (post_without_openai_key P cfg w req pr s1 Hk Hp).
    split; [reflexivity|]. split; [reflexivity|].
    apply prepare_cases in Hp. rewrite Hp. unfold Spec.reached_stage1.
    apply (existsb_s3 Spec.is_reconstruct). reflexivity.
  - intros cfg w prompt aspectRatio s Hk.
    unfold Fal.generateImage, Js.bind, Js.emit, Js.throw. rewrite Hk. reflexivity.
Qed.

(** C9, at the sample environment: the server listens without a key, and
    the sample request is answered 500 after its upload. *)
Lemma vision_key_is_checked_per_request_witness :
  Config.startup Sample.platform Sample.defaults Sample.env
  = Config.Listening Sample.cfg_no_keys
  /\ ImageFlow.post Sample.platform Sample.cfg_no_keys Sample.world (Sample.request None)
     = (Http.json 500 [("message", Js.JStr "Unexpected error occurred")],
        Js.mkSt [Js.EvS3Put "internaluse/inputs/uuid-0.png"] 1).
Proof.
  destruct (vision_key_is_checked_per_request Sample.platform Sample.defaults Sample.env)
    as (_ & _ & _ & H & _).
  split; [vm_compute; reflexivity|].
  refine (proj1 (H Sample.cfg_no_keys Sample.world (Sample.request None) _ _ eq_refl _)).
  vm_compute. reflexivity.
Defined.

(** * Further properties of the code *)

(** ** String helpers *)

Lemma append_assoc (a b c : string) : (a ++ b) ++ c = a ++ (b ++ c).
Proof.
  induction a as [|x a IH]; [reflexivity|].
  change (String x ((a ++ b) ++ c) = String x (a ++ (b ++ c))). now rewrite IH.
Qed.

Lemma append_empty_r (a : string) : a ++ "" = a.
Proof.
  induction a as [|x a IH]; [reflexivity|].
  change (String x (a ++ "") = String x a). now rewrite IH.
Qed.

(** Searching a text for a one-character string. *)
Lemma includes_char c r (d : ascii) :
  JsString.includes (String c r) (String d EmptyString)
  = Ascii.eqb d c || JsString.includes r (String d EmptyString).
Proof.
  cbn [JsString.includes JsString.startsWith].
  now rewrite startsWith_empty, andb_true_r.
Qed.

Lemma code_eqb c n :
  (n < 256)%N -> (JsString.code c =? n)%N = Ascii.eqb (ascii_of_N n) c.
Proof.
  intros Hn. unfold JsString.code.
  destruct (Ascii.eqb (ascii_of_N n) c) eqn:E.
  - apply Ascii.eqb_eq in E. subst c. rewrite N_ascii_embedding by exact Hn.
    apply N.eqb_refl.
  - apply N.eqb_neq. intros H. apply Ascii.eqb_neq in E. apply E.
    rewrite <- H. apply ascii_N_embedding.
Qed.

(** ** Aspect ratios and start-up (constants/aspectRatio.ts, config.ts) *)

Section Startup.
Import Js Env Config.

Lemma is_option_truthy v : AspectRatio.is_option v = true -> JsString.truthy v = true.
Proof. destruct v; [discriminate|reflexivity]. Qed.

Lemma ensureValidAspectRatio_option value :
  AspectRatio.is_option (AspectRatio.ensureValidAspectRatio value) = true.
Proof.
  unfold AspectRatio.ensureValidAspectRatio. destruct value as [v|]; [|reflexivity].
  destruct (JsString.truthy v && AspectRatio.is_option v) eqn:E; [|reflexivity].
  apply andb_true_iff in E. tauto.
Qed.

Lemma required_Ok (env : gmap string string) name fallback v :
  required env name fallback = Ok v ->
  v <> EmptyString
  /\ (env !! name = Some v \/ env !! name = None /\ fallback = Some v).
Proof.
  unfold required. destruct (env !! name) as [x|]; [|destruct fallback as [x|]]; simpl;
    try discriminate; destruct x; simpl; try discriminate;
    intros H; inversion H; subst; split; auto; discriminate.
Qed.

Lemma required_Throw (env : gmap string string) name fallback e :
  required env name fallback = Throw e ->
  e = Error ("Missing required environment variable " ++ name)
  /\ (env !! name = Some EmptyString
      \/ env !! name = None /\ JsString.truthy_opt fallback = false).
Proof.
  unfold required. destruct (env !! name) as [x|]; [|destruct fallback as [x|]]; simpl;
    try destruct x; simpl; try discriminate;
    intros H; inversion H; subst; split; auto.
Qed.

Lemma resolveCredentialPath_Throw P filePath e :
  resolveCredentialPath P filePath = Throw e ->
  exists p, filePath = Some p /\ p <> EmptyString
    /\ fs_existsSync P (absolute_path P p) = false
    /\ e = Error ("Google credential file not found at " ++ absolute_path P p
                  ++ ". Update GOOGLE_APPLICATION_CREDENTIALS.").
Proof.
  unfold resolveCredentialPath. destruct filePath as [[|c p]|]; simpl; try discriminate.
  destruct (fs_existsSync P _) eqn:Hx; simpl; [discriminate|].
  intros H. inversion H. exists (String c p). repeat split; auto; discriminate.
Qed.

Lemma resolveCredentialPath_Ok P filePath r :
  resolveCredentialPath P filePath = Ok r ->
  JsString.truthy_opt filePath = true ->
  fs_existsSync P (absolute_path P (JsString.nullish filePath "")) = true.
Proof.
  unfold resolveCredentialPath. intros H Ht. rewrite Ht in H. simpl in H.
  destruct (fs_existsSync P _); [reflexivity|discriminate].
Qed.

(** The fields of a loaded configuration that are read from optional
    variables. *)
Lemma loadConfig_optional_fields P D (env : gmap string string) cfg :
  loadConfig P D env = Ok cfg ->
  fal_aspectRatio (fal cfg)
  = AspectRatio.ensureValidAspectRatio (env !! "FAL_GEMINI_ASPECT_RATIO")
  /\ systemPromptImageUnderstand (openai cfg)
     = getenv_or env "SYSTEM_PROMPT_IMAGE_UNDERSTAND"
         (DEFAULT_SYSTEM_PROMPT_IMAGE_UNDERSTAND D)
  /\ systemPromptPromptEditor (openai cfg)
     = getenv_or env "SYSTEM_PROMPT_PROMPT_EDITOR" (DEFAULT_SYSTEM_PROMPT_PROMPT_EDITOR D).
Proof.
  unfold loadConfig. intros H.
  repeat match type of H with
  | context [rbind ?r _] => destruct r; simpl rbind in H; [|discriminate]
  end.
  inversion H. repeat split.
Qed.

End Startup.

Ltac step_required H name :=
  match type of H with
  | context [Config.required ?env name ?fb] =>
      let v := fresh "v" in let E := fresh "E" in
      destruct (Config.required env name fb) as [v|?] eqn:E; simpl Config.rbind in H
  end.

Ltac missing_variable H E before :=
  inversion H; subst; apply required_Throw in E; destruct E as [-> E]; left;
  eexists before, _, _; split; [reflexivity|];
  split; [repeat constructor; simpl; eauto|]; split; [|reflexivity];
  simpl; destruct E as [E|[E E']]; [left; exact E|right; split; [exact E|]];
  first [reflexivity|discriminate E'].

(** X1: [ensureValidAspectRatio] returns one of the ten aspect-ratio
    options whatever it is given: the value itself when that is an
    option, and "1:1" otherwise (a missing, empty or unknown value); it
    maps its own results to themselves. *)
Theorem ensureValidAspectRatio_is_option (value : option string) :
  AspectRatio.is_option (AspectRatio.ensureValidAspectRatio value) = true
  /\ (forall v, value = Some v -> AspectRatio.is_option v = true ->
      AspectRatio.ensureValidAspectRatio value = v)
  /\ (AspectRatio.ensureValidAspectRatio value <> AspectRatio.DEFAULT_ASPECT_RATIO ->
      value = Some (AspectRatio.ensureValidAspectRatio value))
  /\ AspectRatio.ensureValidAspectRatio
       (Some (AspectRatio.ensureValidAspectRatio value))
     = AspectRatio.ensureValidAspectRatio value.
Proof.
  assert (H0 : forall v, AspectRatio.is_option v = true ->
                         AspectRatio.ensureValidAspectRatio (Some v) = v).
  { intros v Hv. unfold AspectRatio.ensureValidAspectRatio.
    now rewrite Hv, (is_option_truthy v Hv). }
  pose proof (ensureValidAspectRatio_option value) as H1.
  split; [exact H1|]. split; [|split].
  - intros v -> Hv. now apply H0.
  - unfold AspectRatio.ensureValidAspectRatio. destruct value as [v|]; [|congruence].
    destruct (JsString.truthy v && AspectRatio.is_option v); congruence.
  - now apply H0.
Qed.

(** X2: the configuration loads, and the server starts, exactly when the
    five S3 variables are set to non-empty values, neither
    GOOGLE_VERTEX_PROJECT_ID nor GOOGLE_VERTEX_LOCATION is set to the
    empty string (unset, they take their defaults), and the file named
    by a non-empty GOOGLE_APPLICATION_CREDENTIALS exists. *)
Theorem loadConfig_succeeds_iff
    (P : Env.Platform) (D : Config.Defaults) (env : gmap string string) :
  (exists cfg, Config.loadConfig P D env = Js.Ok cfg)
  <-> (Forall (fun name => JsString.truthy_opt (env !! name) = true)
         ["S3_ACCESS_KEY"; "S3_SECRET_KEY"; "S3_BUCKET_NAME"; "S3_ENDPOINT_URL";
          "S3_PUBLIC_LINK"]
       /\ env !! "GOOGLE_VERTEX_PROJECT_ID" <> Some EmptyString
       /\ env !! "GOOGLE_VERTEX_LOCATION" <> Some EmptyString
       /\ (JsString.truthy_opt (env !! "GOOGLE_APPLICATION_CREDENTIALS") = true ->
           Env.fs_existsSync P
             (Env.absolute_path P
                (JsString.nullish (env !! "GOOGLE_APPLICATION_CREDENTIALS") ""))
           = true)).
Proof.
  assert (Hs3 : forall name v,
            Config.required env name None = Js.Ok v ->
            JsString.truthy_opt (env !! name) = true).
  { intros name v H. apply required_Ok in H. destruct H as [Hv [H|[_ H]]]; [|discriminate].
    rewrite H. destruct v; [congruence|reflexivity]. }
  assert (Hs3' : forall name, JsString.truthy_opt (env !! name) = true ->
            Config.required env name None = Js.Ok (JsString.nullish (env !! name) "")).
  { intros name H. unfold Config.required. destruct (env !! name) as [x|]; [|discriminate].
    simpl in *. now rewrite H. }
  assert (Hg : forall name fb v,
            Config.required env name (Some fb) = Js.Ok v ->
            env !! name <> Some EmptyString).
  { intros name fb v H. apply required_Ok in H. destruct H as [Hv [H|[H _]]]; rewrite H.
    - congruence.
    - discriminate. }
  assert (Hg' : forall name fb, fb <> EmptyString -> env !! name <> Some EmptyString ->
            exists v, Config.required env name (Some fb) = Js.Ok v).
  { intros name fb Hfb H. unfold Config.required.
    destruct (env !! name) as [[|c x]|]; [congruence|simpl; eauto|].
    destruct fb; [congruence|simpl; eauto]. }
  split.
  - intros [cfg H]. unfold Config.loadConfig in H.
    step_required H "S3_ACCESS_KEY"; [|discriminate].
    step_required H "S3_SECRET_KEY"; [|discriminate].
    step_required H "S3_BUCKET_NAME"; [|discriminate].
    step_required H "S3_ENDPOINT_URL"; [|discriminate].
    step_required H "S3_PUBLIC_LINK"; [|discriminate].
    step_required H "GOOGLE_VERTEX_PROJECT_ID"; [|discriminate].
    step_required H "GOOGLE_VERTEX_LOCATION"; [|discriminate].
    destruct (Config.resolveCredentialPath P _) as [r|] eqn:Ec; [|discriminate].
    split; [repeat constructor; eauto|].
    split; [eauto|]. split; [eauto|].
    now apply (resolveCredentialPath_Ok P _ r).
  - intros (Hall & Hp & Hl & Hc).
    inversion_clear Hall as [|? ? H1 Hall1]. inversion_clear Hall1 as [|? ? H2 Hall2].
    inversion_clear Hall2 as [|? ? H3 Hall3]. inversion_clear Hall3 as [|? ? H4 Hall4].
    inversion_clear Hall4 as [|? ? H5 _].
    unfold Config.loadConfig.
    rewrite (Hs3' _ H1), (Hs3' _ H2), (Hs3' _ H3), (Hs3' _ H4), (Hs3' _ H5).
    simpl Config.rbind.
    destruct (Hg' "GOOGLE_VERTEX_PROJECT_ID" "nano-banana-472210") as [v6 ->];
      [discriminate|exact Hp|].
    destruct (Hg' "GOOGLE_VERTEX_LOCATION" "us-central1") as [v7 ->];
      [discriminate|exact Hl|].
    simpl Config.rbind. unfold Config.resolveCredentialPath.
    destruct (JsString.truthy_opt (env !! "GOOGLE_APPLICATION_CREDENTIALS")) eqn:Ht; simpl.
    + rewrite (Hc eq_refl). simpl. eauto.
    + eauto.
Qed.

(** X3: when loading the configuration fails, the error names the first
    variable, in the order in which config.ts reads them, that is set to
    the empty string or is unset without a default; every variable read
    before it has a value.  The only other failure is a credentials
    file that does not exist. *)
Theorem loadConfig_names_first_missing_variable
    (P : Env.Platform) (D : Config.Defaults) (env : gmap string string) (e : Js.Thrown) :
  Config.loadConfig P D env = Js.Throw e ->
  (exists before name after,
      [("S3_ACCESS_KEY", None); ("S3_SECRET_KEY", None); ("S3_BUCKET_NAME", None);
       ("S3_ENDPOINT_URL", None); ("S3_PUBLIC_LINK", None);
       ("GOOGLE_VERTEX_PROJECT_ID", Some "nano-banana-472210");
       ("GOOGLE_VERTEX_LOCATION", Some "us-central1")]
      = (before ++ name :: after)%list
      /\ Forall (fun v => exists value, Config.required env v.1 v.2 = Js.Ok value) before
      /\ (env !! name.1 = Some EmptyString \/ env !! name.1 = None /\ name.2 = None)
      /\ e = Js.Error ("Missing required environment variable " ++ name.1))
  \/ (exists p,
        env !! "GOOGLE_APPLICATION_CREDENTIALS" = Some p /\ p <> EmptyString
        /\ Env.fs_existsSync P (Env.absolute_path P p) = false
        /\ e = Js.Error ("Google credential file not found at " ++ Env.absolute_path P p
                         ++ ". Update GOOGLE_APPLICATION_CREDENTIALS.")).
Proof.
  intros H. unfold Config.loadConfig in H.
  step_required H "S3_ACCESS_KEY"; [|missing_variable H E (@nil (string * option string))].
  step_required H "S3_SECRET_KEY";
    [|missing_variable H E0 [("S3_ACCESS_KEY", @None string)]].
  step_required H "S3_BUCKET_NAME";
    [|missing_variable H E1 [("S3_ACCESS_KEY", @None string); ("S3_SECRET_KEY", None)]].
  step_required H "S3_ENDPOINT_URL";
    [|missing_variable H E2 [("S3_ACCESS_KEY", @None string); ("S3_SECRET_KEY", None);
                             ("S3_BUCKET_NAME", None)]].
  step_required H "S3_PUBLIC_LINK";
    [|missing_variable H E3 [("S3_ACCESS_KEY", @None string); ("S3_SECRET_KEY", None);
                             ("S3_BUCKET_NAME", None); ("S3_ENDPOINT_URL", None)]].
  step_required H "GOOGLE_VERTEX_PROJECT_ID";
    [|missing_variable H E4 [("S3_ACCESS_KEY", @None string); ("S3_SECRET_KEY", None);
                             ("S3_BUCKET_NAME", None); ("S3_ENDPOINT_URL", None);
                             ("S3_PUBLIC_LINK", None)]].
  step_required H "GOOGLE_VERTEX_LOCATION";
    [|missing_variable H E5 [("S3_ACCESS_KEY", @None string); ("S3_SECRET_KEY", None);
                             ("S3_BUCKET_NAME", None); ("S3_ENDPOINT_URL", None);
                             ("S3_PUBLIC_LINK", None);
                             ("GOOGLE_VERTEX_PROJECT_ID", Some "nano-banana-472210")]].
  destruct (Config.resolveCredentialPath P _) as [r|e'] eqn:Ec; [discriminate|].
  inversion H; subst. right. now apply resolveCredentialPath_Throw.
Qed.

(** X3, at the sample environment without S3_BUCKET_NAME: the error
    names S3_BUCKET_NAME, the third variable read. *)
Lemma loadConfig_names_first_missing_variable_witness :
  exists before name after,
    [("S3_ACCESS_KEY", None); ("S3_SECRET_KEY", None); ("S3_BUCKET_NAME", None);
     ("S3_ENDPOINT_URL", None); ("S3_PUBLIC_LINK", None);
     ("GOOGLE_VERTEX_PROJECT_ID", Some "nano-banana-472210");
     ("GOOGLE_VERTEX_LOCATION", Some "us-central1")]
    = (before ++ name :: after)%list
    /\ name.1 = "S3_BUCKET_NAME".
Proof.
  assert (H : Config.loadConfig Sample.platform Sample.defaults
                 (delete "S3_BUCKET_NAME" Sample.env)
               = Js.Throw (Js.Error "Missing required environment variable S3_BUCKET_NAME"))
    by (vm_compute; reflexivity).
  destruct (loadConfig_names_first_missing_variable _ _ _ _ H)
    as [(before & name & after & Hsplit & _ & _ & He)|(p & Hp & _)].
  - exists before, name, after. split; [exact Hsplit|].
    inversion He as [H1]. exact (eq_sym H1).
  - discriminate Hp.
Defined.

(** ** The image providers (geminiService.ts, falImageService.ts) *)

Section Providers.
Import Js Env Config.

Lemma imageFlowSchema_parse_aspectRatio P up ar payload :
  ImageFlow.imageFlowSchema_parse P up ar = Ok payload ->
  match ImageFlow.aspectRatio payload with
  | Some a => AspectRatio.is_option a = true
  | None => True
  end.
Proof.
  unfold ImageFlow.imageFlowSchema_parse.
  destruct up as [[u|]|]; try discriminate;
    destruct ar as [[a|]|]; try discriminate;
    try (destruct (AspectRatio.is_option a) eqn:Ha; [|discriminate]);
    intros H; inversion H; simpl; auto.
Qed.

Lemma find_first {A} (f : A -> bool) (before after : list A) x :
  forallb (fun y => negb (f y)) before = true -> f x = true ->
  List.find f (before ++ x :: after) = Some x.
Proof.
  intros Hb Hx. induction before as [|y before IH]; simpl.
  - now rewrite Hx.
  - simpl in Hb. apply andb_true_iff in Hb. destruct Hb as [Hy Hb].
    apply negb_true_iff in Hy. rewrite Hy. now apply IH.
Qed.

Lemma find_split {A} (f : A -> bool) l x :
  List.find f l = Some x ->
  exists before after,
    l = (before ++ x :: after)%list /\ f x = true
    /\ forallb (fun y => negb (f y)) before = true.
Proof.
  induction l as [|y l IH]; simpl; [discriminate|].
  destruct (f y) eqn:Hy.
  - intros H. inversion H; subst. exists [], l. auto.
  - intros H. destruct (IH H) as (before & after & -> & Hx & Hb).
    exists (y :: before), after. simpl. rewrite Hy. auto.
Qed.

End Providers.

(** X4: for a configuration loaded from the environment and a payload
    accepted by the schema, the aspect ratio sent to the primary
    provider is always one of the ten options: the payload's, or else
    the validated FAL_GEMINI_ASPECT_RATIO.  A request to the fallback
    endpoint carries the same prompt and the same aspect ratio. *)
Theorem synthesis_aspect_ratio_is_an_option
    (P : Env.Platform) (D : Config.Defaults) (env : gmap string string)
    (cfg : Config.AppConfig) (up ar : option Env.FormValue) (payload : ImageFlow.Payload)
    (w : Env.World) (prompt : string) (s : Js.St) :
  Config.loadConfig P D env = Js.Ok cfg ->
  ImageFlow.imageFlowSchema_parse P up ar = Js.Ok payload ->
  exists ratio later,
    AspectRatio.is_option ratio = true
    /\ ratio = JsString.nullish (ImageFlow.aspectRatio payload)
                 (AspectRatio.ensureValidAspectRatio (env !! "FAL_GEMINI_ASPECT_RATIO"))
    /\ Js.trace (snd (Gemini.generateImage P cfg w prompt (ImageFlow.aspectRatio payload) s))
       = (Js.trace s ++ Js.EvVertexGenerateContent prompt (Some ratio) :: later)%list
    /\ forall p a, In (Js.EvFalPost p a) later -> p = prompt /\ a = ratio.
Proof.
  intros Hc Hp.
  apply loadConfig_optional_fields in Hc. destruct Hc as (Hc & _).
  apply imageFlowSchema_parse_aspectRatio in Hp.
  set (ratio := JsString.nullish (ImageFlow.aspectRatio payload)
                  (Config.fal_aspectRatio (Config.fal cfg))).
  assert (Hr : AspectRatio.is_option ratio = true).
  { unfold ratio. destruct (ImageFlow.aspectRatio payload); simpl; [exact Hp|].
    rewrite Hc. apply ensureValidAspectRatio_option. }
  assert (Hb : Gemini.buildVertexGenerationConfig (Some ratio) = Some ratio).
  { unfold Gemini.buildVertexGenerationConfig. simpl.
    now rewrite (is_option_truthy _ Hr). }
  exists ratio. unfold Gemini.generateImage, Js.try_catch. fold ratio.
  pose proof (generateWithVertex_trace P w prompt (Some ratio) s) as Htr.
  rewrite Hb in Htr.
  destruct (Gemini.generateWithVertex P w prompt (Some ratio) s) as [[image|e] s1];
    simpl in Htr.
  { exists []. rewrite <- Hc. split; [exact Hr|]. split; [reflexivity|].
    split; [exact Htr|]. intros p a []. }
  destruct (Gemini.isQuotaExhaustedError e).
  2:{ exists []. rewrite <- Hc. split; [exact Hr|]. split; [reflexivity|].
      split; [exact Htr|]. intros p a []. }
  unfold Fal.generateImage, Js.bind, Js.emit, Js.await, Js.throw, Js.ret. simpl.
  rewrite Htr, <- !app_assoc. simpl.
  destruct (negb (JsString.truthy_opt (Config.fal_apiKey (Config.fal cfg)))).
  { eexists. rewrite <- Hc. split; [exact Hr|]. split; [reflexivity|].
    split; [reflexivity|]. intros p a [H|[]]. discriminate. }
  simpl. rewrite <- !app_assoc. simpl.
  assert (Hpost : forall rest,
            (forall p a, In (Js.EvFalPost p a) rest -> False) ->
            forall p a,
              In (Js.EvFalPost p a)
                 (Js.EvFalGenerateImage prompt (Some ratio)
                  :: Js.EvFalPost prompt ratio :: rest) ->
              p = prompt /\ a = ratio).
  { intros rest Hrest p a [H|[H|H]]; [discriminate|inversion H; auto|].
    destruct (Hrest p a H). }
  destruct (Env.fal_post w prompt ratio) as [[st b|[u|e']]|e'];
    try (eexists; rewrite <- Hc; split; [exact Hr|]; split; [reflexivity|];
         split; [reflexivity|]; apply Hpost; intros p a []).
  destruct (negb (JsString.truthy_opt u)).
  { eexists; rewrite <- Hc; split; [exact Hr|]; split; [reflexivity|];
      split; [reflexivity|]; apply Hpost; intros p a []. }
  simpl. rewrite <- !app_assoc. simpl.
  destruct (Env.http_get w _) as [d|e'];
    [destruct (negb (Env.http_ok (Env.dl_status d))); [|destruct (Env.dl_arrayBuffer d)]|];
    (eexists; rewrite <- Hc; split; [exact Hr|]; split; [reflexivity|];
     split; [reflexivity|]; apply Hpost; intros p0 a0 [H|[]]; discriminate).
Qed.

(** X4, at the sample environment and a request for 16:9. *)
Lemma synthesis_aspect_ratio_is_an_option_witness :
  exists later,
    Js.trace (snd (Gemini.generateImage Sample.platform Sample.cfg_no_keys Sample.world
                     "a cat" (Some "16:9") Js.init))
    = Js.EvVertexGenerateContent "a cat" (Some "16:9") :: later.
Proof.
  assert (Hc : Config.loadConfig Sample.platform Sample.defaults Sample.env
               = Js.Ok Sample.cfg_no_keys) by (vm_compute; reflexivity).
  destruct (synthesis_aspect_ratio_is_an_option Sample.platform Sample.defaults
              Sample.env Sample.cfg_no_keys None (Some (Env.FormText "16:9"))
              (ImageFlow.mkPayload None (Some "16:9")) Sample.world "a cat" Js.init
              Hc eq_refl)
    as (ratio & later & _ & Hr & Htr & _).
  exists later. rewrite Hr in Htr. exact Htr.
Defined.

(** X5: when the primary provider answers, its answer is final: the
    fallback is never tried, and exactly one call has been made.  If the
    first part of the first candidate that carries [inlineData] has
    data that is not empty, the image is that data, decoded; an image is
    returned in no other case, and in every other case the call fails
    with "Gemini did not return inline image data". *)
Theorem vertex_reply_is_final
    (P : Env.Platform) (cfg : Config.AppConfig) (w : Env.World)
    (prompt : string) (ar : option string) (s : Js.St) (response : Env.VertexResponse) :
  let generationConfig :=
    Gemini.buildVertexGenerationConfig
      (Some (JsString.nullish ar (Config.fal_aspectRatio (Config.fal cfg)))) in
  let run := Gemini.generateImage P cfg w prompt ar s in
  Env.vertex_generateContent w prompt generationConfig = Js.Ok response ->
  snd run
  = Js.mkSt (Js.trace s ++ [Js.EvVertexGenerateContent prompt generationConfig])
      (Js.uuids s)
  /\ (forall parts others before data after,
        Env.candidates response = Some (Some parts :: others) ->
        parts = (before ++ Env.InlineDataPart (Some data) :: after)%list ->
        forallb (fun part => negb (Gemini.has_inlineData part)) before = true ->
        data <> EmptyString ->
        fst run = Js.Ok (Env.base64_decode P data))
  /\ ((exists parts others before data after,
         Env.candidates response = Some (Some parts :: others)
         /\ parts = (before ++ Env.InlineDataPart (Some data) :: after)%list
         /\ forallb (fun part => negb (Gemini.has_inlineData part)) before = true
         /\ data <> EmptyString
         /\ fst run = Js.Ok (Env.base64_decode P data))
      \/ fst run = Js.Throw (Js.Error "Gemini did not return inline image data")).
Proof.
  intros generationConfig run Hv. unfold run, Gemini.generateImage, Js.try_catch,
    Gemini.generateWithVertex, Js.bind, Js.emit, Js.await, Js.throw, Js.ret. simpl.
  fold generationConfig. rewrite Hv.
  assert (Hq : Gemini.isQuotaExhaustedError
                 (Js.Error "Gemini did not return inline image data") = false)
    by reflexivity.
  split; [|split].
  - destruct (Env.candidates response) as [[|[parts|] others]|]; try (rewrite Hq; auto).
    destruct (find Gemini.has_inlineData parts) as [[t|[data|]]|];
      try (rewrite Hq; auto).
    destruct data as [|c data]; cbn [JsString.truthy JsString.is_empty negb];
      [rewrite Hq|]; reflexivity.
  - intros parts others before data after -> -> Hb Hd.
    rewrite (find_first Gemini.has_inlineData before after
               (Env.InlineDataPart (Some data)) Hb eq_refl).
    destruct data as [|c data]; [congruence|]. reflexivity.
  - destruct (Env.candidates response) as [[|[parts|] others]|]; try (rewrite Hq; auto).
    destruct (find Gemini.has_inlineData parts) as [[t|[data|]]|] eqn:Hf;
      try (rewrite Hq; auto).
    destruct data as [|c data]; cbn [JsString.truthy JsString.is_empty negb].
    { rewrite Hq. auto. }
    left.
    destruct (find_split _ _ _ Hf) as (before & after & Hparts & _ & Hb).
    exists parts, others, before, (String c data), after.
    repeat split; auto; discriminate.
Qed.

(** X5, at an answer that holds a caption and then an image, and at an
    answer that holds the caption only. *)
Lemma vertex_reply_is_final_witness :
  let captioned := Env.mkVertexResponse
                     (Some [Some [Env.TextPart "a caption";
                                  Env.InlineDataPart (Some "aW1n")]]) in
  let caption := Env.mkVertexResponse (Some [Some [Env.TextPart "a caption"]]) in
  let run response :=
    Gemini.generateImage Sample.platform Sample.cfg (Sample.world_vertex (Js.Ok response))
      "a cat" None Js.init in
  run captioned
  = (Js.Ok "aW1n", Js.mkSt [Js.EvVertexGenerateContent "a cat" (Some "1:1")] 0)
  /\ snd (run caption) = Js.mkSt [Js.EvVertexGenerateContent "a cat" (Some "1:1")] 0.
Proof.
  intros captioned caption run. split.
  - destruct (vertex_reply_is_final Sample.platform Sample.cfg
                (Sample.world_vertex (Js.Ok captioned)) "a cat" None Js.init captioned
                eq_refl) as (Hs & Himage & _).
    rewrite (surjective_pairing (run captioned)).
    unfold run. rewrite Hs.
    rewrite (Himage _ [] [Env.TextPart "a caption"] "aW1n" [] eq_refl eq_refl eq_refl);
      [reflexivity|discriminate].
  - exact (proj1 (vertex_reply_is_final Sample.platform Sample.cfg
                    (Sample.world_vertex (Js.Ok caption)) "a cat" None Js.init caption
                    eq_refl)).
Defined.

(** X6: when the primary provider fails with a quota error and no
    FAL_API_KEY is configured, [generateImage] fails with the
    configuration error of the fallback, not with the provider's error;
    no request is sent to the fallback endpoint, and the error handler
    answers 500 with its fixed message. *)
Theorem quota_error_without_fallback_key
    (P : Env.Platform) (cfg : Config.AppConfig) (w : Env.World)
    (prompt : string) (ar : option string) (s : Js.St) (e : Js.Thrown) :
  let resolved := Some (JsString.nullish ar (Config.fal_aspectRatio (Config.fal cfg))) in
  let generationConfig := Gemini.buildVertexGenerationConfig resolved in
  Env.vertex_generateContent w prompt generationConfig = Js.Throw e ->
  Gemini.isQuotaExhaustedError e = true ->
  JsString.truthy_opt (Config.fal_apiKey (Config.fal cfg)) = false ->
  Gemini.generateImage P cfg w prompt ar s
  = (Js.Throw
       (Js.Error "FAL_API_KEY must be configured to use fal.ai as a fallback provider."),
     Js.mkSt (Js.trace s ++ [Js.EvVertexGenerateContent prompt generationConfig;
                             Js.EvFalGenerateImage prompt resolved])
       (Js.uuids s))
  /\ Http.errorHandler
       (Js.Error "FAL_API_KEY must be configured to use fal.ai as a fallback provider.")
     = Http.json 500 [("message", Js.JStr "Unexpected error occurred")].
Proof.
  intros resolved generationConfig Hv Hq Hk. split; [|reflexivity].
  unfold Gemini.generateImage, Js.try_catch, Gemini.generateWithVertex, Js.bind, Js.emit,
    Js.await.
  simpl. fold resolved. fold generationConfig. rewrite Hv, Hq.
  unfold Fal.generateImage, Js.bind, Js.emit, Js.throw. simpl. rewrite Hk. simpl.
  rewrite <- app_assoc. reflexivity.
Qed.

(** X6, at a provider error with code 8 and the configuration without
    keys. *)
Lemma quota_error_without_fallback_key_witness :
  let e := Js.ErrorObj (Js.mkErrFields (Some (Js.FNum 8)) None None
                          (Some "Too many requests")) in
  Gemini.generateImage Sample.platform Sample.cfg_no_keys
    (Sample.world_vertex (Js.Throw e)) "a cat" None Js.init
  = (Js.Throw
       (Js.Error "FAL_API_KEY must be configured to use fal.ai as a fallback provider."),
     Js.mkSt [Js.EvVertexGenerateContent "a cat" (Some "1:1");
              Js.EvFalGenerateImage "a cat" (Some "1:1")] 0).
Proof.
  intros e.
  exact (proj1 (quota_error_without_fallback_key Sample.platform Sample.cfg_no_keys
                  (Sample.world_vertex (Js.Throw e)) "a cat" None Js.init e
                  eq_refl eq_refl eq_refl)).
Defined.

(** X7: an image returned by the fallback provider is the body that was
    downloaded, with a 2xx status, from the URL of the first image of
    the endpoint's reply; the key is configured, and the calls made are
    the request to the endpoint, with the caller's aspect ratio or else
    the configured one, followed by the download. *)
Theorem fal_image_is_the_download
    (cfg : Config.AppConfig) (w : Env.World) (prompt : string) (ar : option string)
    (s : Js.St) (bytes : string) (s' : Js.St) :
  Fal.generateImage cfg w prompt ar s = (Js.Ok bytes, s') ->
  let aspect_ratio := JsString.nullish ar (Config.fal_aspectRatio (Config.fal cfg)) in
  exists url d,
    JsString.truthy_opt (Config.fal_apiKey (Config.fal cfg)) = true
    /\ Env.fal_post w prompt aspect_ratio = Js.Ok (Env.FalOk (Js.Ok (Some url)))
    /\ url <> EmptyString
    /\ Env.http_get w url = Js.Ok d
    /\ Env.http_ok (Env.dl_status d) = true
    /\ Env.dl_arrayBuffer d = Js.Ok bytes
    /\ s' = Js.mkSt (Js.trace s ++ [Js.EvFalGenerateImage prompt ar;
                                    Js.EvFalPost prompt aspect_ratio;
                                    Js.EvFalDownload url])
              (Js.uuids s).
Proof.
  intros H aspect_ratio.
  unfold Fal.generateImage, Js.bind, Js.emit, Js.await, Js.throw, Js.ret in H.
  simpl in H. fold aspect_ratio in H.
  destruct (JsString.truthy_opt (Config.fal_apiKey (Config.fal cfg))) eqn:Hk;
    simpl in H; [|discriminate].
  destruct (Env.fal_post w prompt aspect_ratio) as [[st b|[[url|]|e']]|e'] eqn:Hpost;
    simpl in H; try discriminate.
  destruct url as [|c url]; simpl in H; [discriminate|].
  destruct (Env.http_get w (String c url)) as [d|e'] eqn:Hget; simpl in H; [|discriminate].
  destruct (Env.http_ok (Env.dl_status d)) eqn:Hok; simpl in H; [|discriminate].
  destruct (Env.dl_arrayBuffer d) as [b|e'] eqn:Hbody; simpl in H; [|discriminate].
  inversion H; subst. exists (String c url), d.
  rewrite <- !app_assoc. simpl. repeat split; auto; discriminate.
Qed.

(** X7, in the sample world. *)
Lemma fal_image_is_the_download_witness :
  exists url d,
    Env.fal_post Sample.world "a cat" "16:9" = Js.Ok (Env.FalOk (Js.Ok (Some url)))
    /\ Env.http_get Sample.world url = Js.Ok d
    /\ Env.dl_arrayBuffer d = Js.Ok "PNG".
Proof.
  destruct (fal_image_is_the_download Sample.cfg Sample.world "a cat" (Some "16:9")
              Js.init "PNG"
              (Js.mkSt [Js.EvFalGenerateImage "a cat" (Some "16:9");
                        Js.EvFalPost "a cat" "16:9";
                        Js.EvFalDownload "https://fal.example/out.png"] 0)
              eq_refl)
    as (url & d & _ & Hpost & _ & Hget & _ & Hbody & _).
  exists url, d. auto.
Defined.

(** ** Intake of a request (routes/imageFlow.ts, storageService.ts) *)

Section Intake.
Import Js Env Config Http.

Lemma validateImage_Ok_acceptable file context :
  ImageFlow.validateImage file context = Ok tt -> Spec.acceptable file.
Proof.
  unfold ImageFlow.validateImage, Spec.acceptable.
  destruct (ImageFlow.supported _); simpl; [|discriminate].
  destruct (_ <? _)%N eqn:Hs; [discriminate|].
  intros _. split; [reflexivity|]. now apply N.ltb_ge.
Qed.

Lemma validateReferences_first_offender referenceImages index e :
  ImageFlow.validateReferences referenceImages index = Throw e ->
  exists before img after,
    referenceImages = (before ++ img :: after)%list
    /\ Forall Spec.acceptable before
    /\ ImageFlow.validateImage img
         ("Reference image " ++ pretty (index + length before + 1)%nat) = Throw e.
Proof.
  revert index. induction referenceImages as [|img r IH]; intros index; simpl.
  - discriminate.
  - destruct (ImageFlow.validateImage img _) as [[]|e'] eqn:Hv.
    + intros H. destruct (IH _ H) as (before & img' & after & -> & Hb & He).
      exists (img :: before), img', after. split; [reflexivity|]. split.
      * constructor; [|exact Hb]. eapply validateImage_Ok_acceptable; eauto.
      * simpl. replace (index + S (length before) + 1)%nat
          with (S index + length before + 1)%nat by lia. exact He.
    + intros H. inversion H; subst. exists [], img, r.
      split; [reflexivity|]. split; [constructor|].
      simpl. rewrite Nat.add_0_r. exact Hv.
Qed.

Lemma validateReferences_Ok referenceImages index :
  ImageFlow.validateReferences referenceImages index = Ok tt ->
  Forall Spec.acceptable referenceImages.
Proof.
  revert index. induction referenceImages as [|img r IH]; intros index; simpl;
    [constructor|].
  destruct (ImageFlow.validateImage img _) as [[]|e'] eqn:Hv; [|discriminate].
  intros Hr. constructor; [|eauto]. eapply validateImage_Ok_acceptable; eauto.
Qed.

(** Whatever [validate] throws is answered 400. *)
Lemma validate_throws baseImage referenceImages e :
  ImageFlow.validate baseImage referenceImages = Throw e ->
  exists message, e = HttpError 400 message.
Proof.
  unfold ImageFlow.validate.
  destruct (ImageFlow.validateImage baseImage _) as [[]|e1] eqn:H1.
  2:{ intros H. inversion H; subst. eapply validateImage_throws; eauto. }
  destruct (ImageFlow.validateReferences _ _) as [[]|e2] eqn:H2.
  2:{ intros H. inversion H; subst. eapply validateReferences_throws; eauto. }
  unfold ImageFlow.validateTotalPayloadSize.
  destruct (_ <? _)%N; [|discriminate]. intros H. inversion H. eauto.
Qed.

(** Whatever the schema throws is answered 400. *)
Lemma imageFlowSchema_parse_throws P up ar e :
  ImageFlow.imageFlowSchema_parse P up ar = Throw e -> status (errorHandler e) = 400%Z.
Proof.
  unfold ImageFlow.imageFlowSchema_parse.
  destruct up as [[u|]|]; destruct ar as [[a|]|];
    try discriminate; try (intros H; inversion H; reflexivity);
    destruct (AspectRatio.is_option a); try discriminate;
    intros H; inversion H; reflexivity.
Qed.

Lemma includes_slash_cons c r :
  JsString.includes (String c r) "/"
  = (JsString.code c =? 47)%N || JsString.includes r "/".
Proof.
  rewrite includes_char, (code_eqb c 47) by lia. reflexivity.
Qed.

Lemma until_slash_no_slash s :
  JsString.includes s "/" = false -> Storage.until_slash s = s.
Proof.
  induction s as [|c r IH]; [reflexivity|].
  rewrite includes_slash_cons. intros H. apply orb_false_iff in H. destruct H as [Hc Hr].
  simpl. rewrite Hc, (IH Hr). reflexivity.
Qed.

Lemma split_second_no_slash s :
  JsString.includes s "/" = false -> Storage.split_second s = None.
Proof.
  induction s as [|c r IH]; [reflexivity|].
  rewrite includes_slash_cons. intros H. apply orb_false_iff in H. destruct H as [Hc Hr].
  simpl. rewrite Hc. exact (IH Hr).
Qed.

Lemma split_second_app t rest :
  JsString.includes t "/" = false ->
  Storage.split_second (t ++ "/" ++ rest) = Some (Storage.until_slash rest).
Proof.
  induction t as [|c r IH]; [reflexivity|].
  rewrite includes_slash_cons. intros H. apply orb_false_iff in H. destruct H as [Hc Hr].
  simpl. rewrite Hc. exact (IH Hr).
Qed.

End Intake.

(** The handler on the request it is given: it throws a 400 before
    anything is done, or starts with the upload of the base image. *)
Lemma handler_intake
    (P : Env.Platform) (cfg : Config.AppConfig) (w : Env.World) (req : ImageFlow.Request) :
  let run := ImageFlow.handler P cfg w req Js.init in
  let rejected :=
    match ImageFlow.req_baseImage req with
    | None => true
    | Some baseImage =>
        match ImageFlow.validate baseImage (ImageFlow.req_referenceImages req),
              ImageFlow.imageFlowSchema_parse P (ImageFlow.req_userPrompt req)
                (ImageFlow.req_aspectRatio req) with
        | Js.Ok _, Js.Ok _ => false
        | _, _ => true
        end
    end in
  (rejected = true ->
   snd run = Js.init
   /\ exists e, fst run = Js.Throw e /\ Http.status (Http.errorHandler e) = 400%Z)
  /\ (rejected = false ->
      exists baseImage rest,
        ImageFlow.req_baseImage req = Some baseImage
        /\ Js.trace (snd run)
           = Js.EvS3Put
               (Config.folder (Config.storage cfg) ++ "/inputs/" ++ Env.randomUUID P 0
                ++ "."
                ++ match Storage.split_second (ImageFlow.mimetype baseImage) with
                   | Some subtype => subtype
                   | None => "bin"
                   end)
             :: rest).
Proof.
  intros run rejected. unfold rejected. clear rejected.
  destruct run as [r st] eqn:H. unfold run in H. clear run. cbn [fst snd].
  unfold ImageFlow.handler, ImageFlow.prepare in H.
  destruct (ImageFlow.req_baseImage req) as [baseImage|].
  2:{ inversion H. split; [|discriminate]. intros _. split; [reflexivity|].
      eexists. split; reflexivity. }
  unfold Js.bind at 1 2 in H. unfold Js.await at 1 in H.
  destruct (ImageFlow.validate baseImage _) as [[]|e] eqn:Hv.
  2:{ inversion H; subst. split; [|discriminate]. intros _. split; [reflexivity|].
      destruct (validate_throws _ _ _ Hv) as [m ->]. eexists. split; reflexivity. }
  unfold Js.bind at 1 in H. unfold Js.await at 1 in H.
  destruct (ImageFlow.imageFlowSchema_parse P _ _) as [payload|e] eqn:Hz.
  2:{ inversion H; subst. split; [|discriminate]. intros _. split; [reflexivity|].
      exists e. split; [reflexivity|]. eapply imageFlowSchema_parse_throws; eauto. }
  split; [discriminate|]. intros _.
  set (key := Config.folder (Config.storage cfg) ++ "/inputs/" ++ Env.randomUUID P 0
              ++ "."
              ++ match Storage.split_second (ImageFlow.mimetype baseImage) with
                 | Some subtype => subtype
                 | None => "bin"
                 end).
  assert (Hs : snd (ImageFlow.upload_input P cfg w baseImage Js.init)
               = Js.mkSt ([] ++ [Js.EvS3Put key]) 1).
  { unfold ImageFlow.upload_input, Storage.uploadBuffer, Js.bind, Js.fresh_uuid, Js.emit,
      Js.await, Js.ret. simpl. fold key.
    destruct (Env.s3_send w _); [|reflexivity].
    destruct (Env.URL_ctor P _ _); reflexivity. }
  exists baseImage. cut (exists rest, Js.trace st = Js.EvS3Put key :: rest);
    [intros [rest Hrest]; eauto|].
  unfold Js.bind at 1 in H.
  destruct (ImageFlow.upload_input P cfg w baseImage Js.init) as [[bu|e] s0];
    simpl in Hs; subst s0.
  2:{ inversion H. simpl. eauto. }
  unfold Js.bind at 1 in H.
  destruct (promise_all_uploads P cfg w (ImageFlow.req_referenceImages req)
              (Js.mkSt ([] ++ [Js.EvS3Put key]) 1)) as (keys & Hk & _).
  destruct (Storage.promise_all _ _) as [[rus|e] s2]; simpl in Hk.
  2:{ inversion H; subst. rewrite Hk. eauto. }
  unfold Js.ret at 1 in H. unfold Js.bind at 1 in H. unfold Js.await at 1 in H.
  destruct (OpenAI.createOpenAIService cfg None) as [apiKey|e].
  2:{ inversion H; subst. rewrite Hk. eauto. }
  cbn [ImageFlow.pr_payload ImageFlow.pr_baseImage ImageFlow.pr_baseImageUpload
       ImageFlow.pr_referenceUploads] in H.
  destruct (stages_cases P cfg w payload baseImage (ImageFlow.req_referenceImages req)
              bu rus s2) as (events & Htr & _).
  rewrite H in Htr. simpl in Htr. rewrite Htr, Hk. simpl. eauto.
Qed.

(** ** The upload middleware (routes/imageFlow.ts) *)

Section Middleware.
Import Js Env Config Http.

Lemma upload_fields_rest n seen baseLeft referencesLeft p rest :
  (forall b r, exists e, ImageFlow.upload_fields n (S seen) b r rest = Throw e) ->
  exists e, ImageFlow.upload_fields n seen baseLeft referencesLeft (p :: rest) = Throw e.
Proof.
  intros Hrest. cbn [ImageFlow.upload_fields].
  destruct (seen =? 1 + n)%nat; [eauto|].
  destruct (String.eqb (ImageFlow.fieldname p) "baseImage").
  - destruct baseLeft as [|b]; [eauto|].
    destruct (ImageFlow.fileFilter _) as [[]|e]; [|apply Hrest|eauto].
    destruct (_ <? _)%N; [eauto|].
    destruct (Hrest b referencesLeft) as [e ->]. eauto.
  - destruct (String.eqb (ImageFlow.fieldname p) "referenceImages"); [|eauto].
    destruct referencesLeft as [|r]; [eauto|].
    destruct (ImageFlow.fileFilter _) as [[]|e]; [|apply Hrest|eauto].
    destruct (_ <? _)%N; [eauto|].
    destruct (Hrest baseLeft r) as [e ->]. eauto.
Qed.

(** A part of an unsupported type or above the size limit is refused,
    if nothing before it is. *)
Lemma upload_fields_refuses n parts :
  Exists (fun p => ImageFlow.supported (ImageFlow.mimetype (ImageFlow.part_file p)) = false
                   \/ (ImageFlow.MAX_PAYLOAD_SIZE
                       < ImageFlow.size (ImageFlow.part_file p))%N) parts ->
  forall seen b r, exists e, ImageFlow.upload_fields n seen b r parts = Throw e.
Proof.
  induction 1 as [p rest Hp|p rest _ IH]; intros seen b r.
  2:{ apply upload_fields_rest. intros b' r'. apply IH. }
  cbn [ImageFlow.upload_fields].
  destruct (seen =? 1 + n)%nat; [eauto|].
  assert (Hchecked : forall k store,
    exists e,
      match ImageFlow.fileFilter (ImageFlow.part_file p) with
      | Throw e => Throw e
      | Ok false => k
      | Ok true =>
          if (ImageFlow.MAX_PAYLOAD_SIZE <? ImageFlow.size (ImageFlow.part_file p))%N
          then Throw (ImageFlow.MulterError "LIMIT_FILE_SIZE" "File too large")
          else match k with
               | Ok files => Ok (store files)
               | Throw e => Throw e
               end
      end = @Throw ImageFlow.Files e).
  { intros k store. unfold ImageFlow.fileFilter. destruct Hp as [Hm|Hs].
    - rewrite Hm. eauto.
    - destruct (ImageFlow.supported _); [|eauto].
      apply N.ltb_lt in Hs. rewrite Hs. eauto. }
  destruct (String.eqb (ImageFlow.fieldname p) "baseImage").
  - destruct b as [|b]; [eauto|]. apply Hchecked.
  - destruct (String.eqb (ImageFlow.fieldname p) "referenceImages"); [|eauto].
    destruct r as [|r]; [eauto|]. apply Hchecked.
Qed.

(** More files than the limit are refused. *)
Lemma upload_fields_count n parts :
  forall seen b r,
    (seen <= 1 + n)%nat -> (1 + n < seen + length parts)%nat ->
    exists e, ImageFlow.upload_fields n seen b r parts = Throw e.
Proof.
  induction parts as [|p rest IH]; intros seen b r Hseen Hlen.
  - simpl in Hlen. lia.
  - destruct (seen =? 1 + n)%nat eqn:E.
    + cbn [ImageFlow.upload_fields]. rewrite E. eauto.
    + apply Nat.eqb_neq in E. apply upload_fields_rest. intros b' r'.
      apply IH; simpl in Hlen; lia.
Qed.

(** What the middleware throws is answered 500 by the error handler. *)
Lemma upload_fields_throws n parts :
  forall seen b r e,
    ImageFlow.upload_fields n seen b r parts = Throw e ->
    errorHandler e = json 500 [("message", JStr "Unexpected error occurred")].
Proof.
  induction parts as [|p rest IH]; intros seen b r e; [discriminate|].
  cbn [ImageFlow.upload_fields].
  assert (Hchecked : forall k store,
    (forall e', k = Throw e' ->
       errorHandler e' = json 500 [("message", JStr "Unexpected error occurred")]) ->
    match ImageFlow.fileFilter (ImageFlow.part_file p) with
    | Throw e => Throw e
    | Ok false => k
    | Ok true =>
        if (ImageFlow.MAX_PAYLOAD_SIZE <? ImageFlow.size (ImageFlow.part_file p))%N
        then Throw (ImageFlow.MulterError "LIMIT_FILE_SIZE" "File too large")
        else match k with
             | Ok files => Ok (store files)
             | Throw e => Throw e
             end
    end = @Throw ImageFlow.Files e ->
    errorHandler e = json 500 [("message", JStr "Unexpected error occurred")]).
  { intros k store Hk. unfold ImageFlow.fileFilter.
    destruct (ImageFlow.supported _).
    - destruct (_ <? _)%N; [intros H; inversion H; reflexivity|].
      destruct k as [files|e']; [discriminate|].
      intros H. inversion H; subst. now apply Hk.
    - intros H. inversion H. reflexivity. }
  destruct (seen =? 1 + n)%nat; [intros H; inversion H; reflexivity|].
  destruct (String.eqb (ImageFlow.fieldname p) "baseImage").
  - destruct b as [|b]; [intros H; inversion H; reflexivity|].
    apply Hchecked. intros e'. apply IH.
  - destruct (String.eqb (ImageFlow.fieldname p) "referenceImages");
      [|intros H; inversion H; reflexivity].
    destruct r as [|r]; [intros H; inversion H; reflexivity|].
    apply Hchecked. intros e'. apply IH.
Qed.

(** The files that the middleware stores pass [validateImage], and
    there are no more of them than the fields allow. *)
Lemma upload_fields_Ok n parts :
  forall seen b r files,
    ImageFlow.upload_fields n seen b r parts = Ok files ->
    Forall Spec.acceptable (ImageFlow.files_baseImage files)
    /\ Forall Spec.acceptable (ImageFlow.files_referenceImages files)
    /\ (length (ImageFlow.files_baseImage files) <= b)%nat
    /\ (length (ImageFlow.files_referenceImages files) <= r)%nat.
Proof.
  induction parts as [|p rest IH]; intros seen b r files.
  { intros H. inversion H. simpl. repeat split; auto; lia. }
  cbn [ImageFlow.upload_fields].
  destruct (seen =? 1 + n)%nat; [discriminate|].
  unfold ImageFlow.fileFilter.
  destruct (String.eqb (ImageFlow.fieldname p) "baseImage").
  - destruct b as [|b]; [discriminate|].
    destruct (ImageFlow.supported _) eqn:Hm; [|discriminate].
    destruct (_ <? _)%N eqn:Hs; [discriminate|]. apply N.ltb_ge in Hs.
    destruct (ImageFlow.upload_fields n (S seen) b r rest) as [files'|e] eqn:Hrest;
      [|discriminate].
    intros H. inversion H; subst. simpl.
    destruct (IH _ _ _ _ Hrest) as (Hb & Hr & Hlb & Hlr).
    repeat split; auto; try lia. constructor; [split; assumption|exact Hb].
  - destruct (String.eqb (ImageFlow.fieldname p) "referenceImages"); [|discriminate].
    destruct r as [|r]; [discriminate|].
    destruct (ImageFlow.supported _) eqn:Hm; [|discriminate].
    destruct (_ <? _)%N eqn:Hs; [discriminate|]. apply N.ltb_ge in Hs.
    destruct (ImageFlow.upload_fields n (S seen) b r rest) as [files'|e] eqn:Hrest;
      [|discriminate].
    intros H. inversion H; subst. simpl.
    destruct (IH _ _ _ _ Hrest) as (Hb & Hr & Hlb & Hlr).
    repeat split; auto; try lia. constructor; [split; assumption|exact Hr].
Qed.

End Middleware.

(** X8: over the route, a request with a file of an unsupported type or
    of more than 50 MB, or with more files than one base image and the
    configured number of reference images, is refused by the upload
    middleware: the answer is 500 with the fixed message of the error
    handler, never the 400 of [validateImage], and nothing has been
    done.  The files of a request that passes the middleware all pass
    [validateImage]; such a request is answered 400, again with nothing
    done (no UUID drawn, nothing stored, no model called), when it has
    no base image, when its files add up to more than 50 MB or when the
    schema rejects its fields; every other request starts with the
    upload of its base image. *)
Theorem rejected_requests_touch_nothing
    (P : Env.Platform) (cfg : Config.AppConfig) (w : Env.World)
    (maxReferenceImages : nat) (incoming : ImageFlow.Incoming) :
  let run := ImageFlow.route P cfg w maxReferenceImages incoming in
  let refused := Http.json 500 [("message", Js.JStr "Unexpected error occurred")] in
  (Exists (fun p =>
             ImageFlow.supported (ImageFlow.mimetype (ImageFlow.part_file p)) = false
             \/ (ImageFlow.MAX_PAYLOAD_SIZE < ImageFlow.size (ImageFlow.part_file p))%N)
     (ImageFlow.in_files incoming) ->
   run = (refused, Js.init))
  /\ ((1 + maxReferenceImages < length (ImageFlow.in_files incoming))%nat ->
      run = (refused, Js.init))
  /\ (forall e,
        ImageFlow.upload maxReferenceImages incoming = Js.Throw e ->
        run = (refused, Js.init))
  /\ (forall req,
        ImageFlow.upload maxReferenceImages incoming = Js.Ok req ->
        let rejected :=
          match ImageFlow.req_baseImage req with
          | None => true
          | Some baseImage =>
              match ImageFlow.validateTotalPayloadSize baseImage
                      (ImageFlow.req_referenceImages req),
                    ImageFlow.imageFlowSchema_parse P (ImageFlow.in_userPrompt incoming)
                      (ImageFlow.in_aspectRatio incoming) with
              | Js.Ok _, Js.Ok _ => false
              | _, _ => true
              end
          end in
        (forall baseImage,
            ImageFlow.req_baseImage req = Some baseImage ->
            ImageFlow.validateImage baseImage "Base image" = Js.Ok tt
            /\ ImageFlow.validateReferences (ImageFlow.req_referenceImages req) 0
               = Js.Ok tt)
        /\ (rejected = true ->
            snd run = Js.init /\ Http.status (fst run) = 400%Z)
        /\ (rejected = false ->
            exists baseImage rest,
              ImageFlow.req_baseImage req = Some baseImage
              /\ Js.trace (snd run)
                 = Js.EvS3Put
                     (Config.folder (Config.storage cfg) ++ "/inputs/"
                      ++ Env.randomUUID P 0 ++ "."
                      ++ match Storage.split_second (ImageFlow.mimetype baseImage) with
                         | Some subtype => subtype
                         | None => "bin"
                         end)
                   :: rest)).
Proof.
  intros run refused.
  assert (Hthrow : forall e,
            ImageFlow.upload maxReferenceImages incoming = Js.Throw e ->
            run = (refused, Js.init)).
  { intros e. unfold run, ImageFlow.route, ImageFlow.upload.
    destruct (ImageFlow.upload_fields _ _ _ _ _) as [files|e'] eqn:Hu; [discriminate|].
    intros _. now rewrite (upload_fields_throws _ _ _ _ _ _ Hu). }
  assert (Hupload : forall e',
            ImageFlow.upload_fields maxReferenceImages 0 1 maxReferenceImages
              (ImageFlow.in_files incoming) = Js.Throw e' ->
            run = (refused, Js.init)).
  { intros e' Hu. apply (Hthrow e'). unfold ImageFlow.upload. now rewrite Hu. }
  split; [|split; [|split; [exact Hthrow|]]].
  - intros Hbad.
    destruct (upload_fields_refuses maxReferenceImages _ Hbad 0%nat 1%nat maxReferenceImages)
      as [e He].
    exact (Hupload e He).
  - intros Hmany.
    destruct (upload_fields_count maxReferenceImages (ImageFlow.in_files incoming)
                0%nat 1%nat maxReferenceImages) as [e He]; [lia|lia|].
    exact (Hupload e He).
  - intros req Hreq rejected.
    assert (Hfiles :
      (forall baseImage, ImageFlow.req_baseImage req = Some baseImage ->
         Spec.acceptable baseImage)
      /\ Forall Spec.acceptable (ImageFlow.req_referenceImages req)
      /\ ImageFlow.req_userPrompt req = ImageFlow.in_userPrompt incoming
      /\ ImageFlow.req_aspectRatio req = ImageFlow.in_aspectRatio incoming).
    { unfold ImageFlow.upload in Hreq.
      destruct (ImageFlow.upload_fields _ _ _ _ _) as [files|e'] eqn:Hu; [|discriminate].
      inversion Hreq; subst. simpl.
      destruct (upload_fields_Ok _ _ _ _ _ _ Hu) as (Hb & Hr & _).
      split; [|split; [exact Hr|split; reflexivity]].
      intros baseImage Hhead. destruct (ImageFlow.files_baseImage files); [discriminate|].
      inversion Hhead; subst. now inversion Hb. }
    destruct Hfiles as (Hbase & Hrefs & Hup & Har).
    assert (Hvalid : forall baseImage,
              ImageFlow.req_baseImage req = Some baseImage ->
              ImageFlow.validateImage baseImage "Base image" = Js.Ok tt
              /\ ImageFlow.validateReferences (ImageFlow.req_referenceImages req) 0
                 = Js.Ok tt).
    { intros baseImage Hb. split.
      - apply validateImage_ok. now apply Hbase.
      - now apply validateReferences_ok. }
    split; [exact Hvalid|].
    assert (Hrun : run = ImageFlow.post P cfg w req).
    { unfold run, ImageFlow.route. now rewrite Hreq. }
    pose proof (handler_intake P cfg w req) as Hintake. cbv zeta in Hintake.
    rewrite Hup, Har in Hintake.
    assert (Hsame :
      match ImageFlow.req_baseImage req with
      | None => true
      | Some baseImage =>
          match ImageFlow.validate baseImage (ImageFlow.req_referenceImages req),
                ImageFlow.imageFlowSchema_parse P (ImageFlow.in_userPrompt incoming)
                  (ImageFlow.in_aspectRatio incoming) with
          | Js.Ok _, Js.Ok _ => false
          | _, _ => true
          end
      end = rejected).
    { unfold rejected. destruct (ImageFlow.req_baseImage req) as [baseImage|] eqn:Hb;
        [|reflexivity].
      destruct (Hvalid baseImage eq_refl) as [Hv1 Hv2].
      unfold ImageFlow.validate. now rewrite Hv1, Hv2. }
    rewrite Hsame in Hintake. destruct Hintake as [Hrej Hacc].
    rewrite Hrun. unfold ImageFlow.post, Http.asyncHandler.
    destruct (ImageFlow.handler P cfg w req Js.init) as [[r|e] st]; cbn [fst snd] in *.
    + split.
      * intros Hr. destruct (Hrej Hr) as (_ & e & He & _). discriminate.
      * exact Hacc.
    + split.
      * intros Hr. destruct (Hrej Hr) as (Hst & e' & He & Hstatus).
        inversion He; subst. auto.
      * exact Hacc.
Qed.

(** X8, at a request whose base image is a PDF, and at one whose base
    image has one byte more than 50 MB. *)
Lemma rejected_requests_touch_nothing_witness :
  let send file :=
    ImageFlow.route Sample.platform Sample.cfg Sample.world 2
      (ImageFlow.mkIncoming [ImageFlow.mkFilePart "baseImage" file] None None) in
  send (ImageFlow.mkFile "application/pdf" 1000 "bytes")
  = (Http.json 500 [("message", Js.JStr "Unexpected error occurred")], Js.init)
  /\ send (Sample.png 52428801)
     = (Http.json 500 [("message", Js.JStr "Unexpected error occurred")], Js.init).
Proof.
  intros send. split.
  - apply (proj1 (rejected_requests_touch_nothing Sample.platform Sample.cfg Sample.world 2
                    (ImageFlow.mkIncoming
                       [ImageFlow.mkFilePart "baseImage"
                          (ImageFlow.mkFile "application/pdf" 1000 "bytes")] None None))).
    apply Exists_cons_hd. left. reflexivity.
  - apply (proj1 (rejected_requests_touch_nothing Sample.platform Sample.cfg Sample.world 2
                    (ImageFlow.mkIncoming
                       [ImageFlow.mkFilePart "baseImage" (Sample.png 52428801)] None None))).
    apply Exists_cons_hd. right. reflexivity.
Defined.

(** X9: if the object store refuses the base image, the handler throws
    the store's error after that single call: the reference images are
    not uploaded and no model is called.  The key of the refused object
    is the folder, "inputs", the first UUID and the subtype of the
    image's MIME type. *)
Theorem base_upload_failure_stops_the_request
    (P : Env.Platform) (cfg : Config.AppConfig) (w : Env.World) (req : ImageFlow.Request)
    (baseImage : ImageFlow.File) (payload : ImageFlow.Payload) (e : Js.Thrown) :
  ImageFlow.req_baseImage req = Some baseImage ->
  ImageFlow.validate baseImage (ImageFlow.req_referenceImages req) = Js.Ok tt ->
  ImageFlow.imageFlowSchema_parse P (ImageFlow.req_userPrompt req)
    (ImageFlow.req_aspectRatio req) = Js.Ok payload ->
  let extension :=
    match Storage.split_second (ImageFlow.mimetype baseImage) with
    | Some subtype => subtype
    | None => "bin"
    end in
  let key := Config.folder (Config.storage cfg) ++ "/inputs/" ++ Env.randomUUID P 0
             ++ "." ++ extension in
  Env.s3_send w (Env.mkPutObject (Config.bucket (Config.storage cfg)) key
                   (ImageFlow.buffer baseImage) (ImageFlow.mimetype baseImage))
  = Js.Throw e ->
  ImageFlow.handler P cfg w req Js.init = (Js.Throw e, Js.mkSt [Js.EvS3Put key] 1).
Proof.
  intros Hb Hv Hz extension key Hs3.
  unfold ImageFlow.handler, ImageFlow.prepare. rewrite Hb.
  unfold Js.bind at 1 2. unfold Js.await at 1. rewrite Hv.
  unfold Js.bind at 1. unfold Js.await at 1. rewrite Hz.
  unfold Js.bind at 1.
  unfold ImageFlow.upload_input at 1, Storage.uploadBuffer, Js.bind, Js.fresh_uuid,
    Js.emit, Js.await.
  cbn [Storage.up_extension Storage.up_mimeType Storage.up_prefix Storage.up_buffer
       Js.uuids Js.trace Js.init].
  fold extension.
  change (Config.folder (Config.storage cfg) ++ "/" ++ "inputs" ++ "/"
          ++ Env.randomUUID P 0 ++ "." ++ extension) with key.
  rewrite Hs3. reflexivity.
Qed.

(** X9, at the sample request and a store that is down. *)
Lemma base_upload_failure_stops_the_request_witness :
  let w := Env.mkWorld (fun _ => Js.Throw (Js.Error "store unavailable"))
             (Env.openai_reconstruct Sample.world) (Env.openai_apply Sample.world)
             (Env.vertex_generateContent Sample.world) (Env.fal_post Sample.world)
             (Env.http_get Sample.world) in
  ImageFlow.handler Sample.platform Sample.cfg w (Sample.request None) Js.init
  = (Js.Throw (Js.Error "store unavailable"),
     Js.mkSt [Js.EvS3Put "internaluse/inputs/uuid-0.png"] 1).
Proof.
  intros w.
  exact (base_upload_failure_stops_the_request Sample.platform Sample.cfg w
           (Sample.request None) (Sample.png 1000) (ImageFlow.mkPayload None (Some "1:1"))
           (Js.Error "store unavailable") eq_refl eq_refl eq_refl eq_refl).
Defined.

(** X10: when the base image passes and validation still fails, the
    error is the one of the first reference image that fails on its
    own, and its message counts that image from 1; if every reference
    passes on its own, the error is the aggregate one. *)
Theorem reference_error_names_first_offender
    (baseImage : ImageFlow.File) (referenceImages : list ImageFlow.File) (e : Js.Thrown) :
  ImageFlow.validateImage baseImage "Base image" = Js.Ok tt ->
  ImageFlow.validate baseImage referenceImages = Js.Throw e ->
  (exists before img after,
      referenceImages = (before ++ img :: after)%list
      /\ Forall Spec.acceptable before
      /\ ~ Spec.acceptable img
      /\ ImageFlow.validateImage img
           ("Reference image " ++ pretty (length before + 1)%nat) = Js.Throw e)
  \/ (Forall Spec.acceptable referenceImages
      /\ e = Spec.payload_too_large
               (ImageFlow.size baseImage + ImageFlow.sum_sizes referenceImages)).
Proof.
  intros Hb H. unfold ImageFlow.validate in H. rewrite Hb in H.
  destruct (ImageFlow.validateReferences referenceImages 0) as [[]|e'] eqn:Hr.
  - right. split; [eapply validateReferences_Ok; eauto|].
    unfold ImageFlow.validateTotalPayloadSize in H.
    destruct (_ <? _)%N; [|discriminate]. inversion H. reflexivity.
  - left. inversion H; subst.
    destruct (validateReferences_first_offender _ _ _ Hr)
      as (before & img & after & Hsplit & Hbefore & He).
    exists before, img, after. repeat split; auto.
    intros Hacc. rewrite (validateImage_ok _ _ Hacc) in He. discriminate.
Qed.

(** X10, at a second reference of 60 MB. *)
Lemma reference_error_names_first_offender_witness :
  exists before img after,
    [Sample.png 10; Sample.png 62914560] = (before ++ img :: after)%list
    /\ ImageFlow.validateImage img ("Reference image " ++ pretty (length before + 1)%nat)
       = Js.Throw (Js.HttpError 400
                     "Reference image 2: Image size (60.00 MB) exceeds 50 MB limit.").
Proof.
  destruct (reference_error_names_first_offender (Sample.png 1)
              [Sample.png 10; Sample.png 62914560]
              (Js.HttpError 400
                 "Reference image 2: Image size (60.00 MB) exceeds 50 MB limit.")
              eq_refl eq_refl)
    as [(before & img & after & Hsplit & _ & _ & He)|[Hall _]].
  - exists before, img, after. auto.
  - exfalso. inversion Hall as [|? ? _ Hrest]. inversion Hrest as [|? ? [_ Hsize] _].
    exact (Hsize eq_refl).
Defined.

(** X11: the key under which [uploadBuffer] stores an object is the
    configured folder, the prefix, the next UUID and an extension: the
    extension passed in, or else the subtype of the MIME type, or else
    "bin" for a MIME type without a slash.  Exactly one store call is
    made and one UUID drawn; a returned upload carries that key and the
    URL resolved from it against the public base URL. *)
Theorem upload_key_scheme
    (P : Env.Platform) (cfg : Config.AppConfig) (w : Env.World)
    (options : Storage.UploadOptions) (s : Js.St) :
  exists extension,
    let key := Config.folder (Config.storage cfg) ++ "/" ++ Storage.up_prefix options
               ++ "/" ++ Env.randomUUID P (Js.uuids s) ++ "." ++ extension in
    snd (Storage.uploadBuffer P cfg w options s)
    = Js.mkSt (Js.trace s ++ [Js.EvS3Put key]) (S (Js.uuids s))
    /\ (forall u, fst (Storage.uploadBuffer P cfg w options s) = Js.Ok u ->
        Storage.key u = key
        /\ Env.s3_send w (Env.mkPutObject (Config.bucket (Config.storage cfg)) key
                            (Storage.up_buffer options) (Storage.up_mimeType options))
           = Js.Ok tt
        /\ Env.URL_ctor P key (Config.publicBaseUrl (Config.storage cfg))
           = Js.Ok (Storage.url u))
    /\ (forall given, Storage.up_extension options = Some given -> extension = given)
    /\ (Storage.up_extension options = None ->
        (JsString.includes (Storage.up_mimeType options) "/" = false -> extension = "bin")
        /\ (forall type subtype,
              Storage.up_mimeType options = type ++ "/" ++ subtype ->
              JsString.includes type "/" = false ->
              JsString.includes subtype "/" = false ->
              extension = subtype)).
Proof.
  unfold Storage.uploadBuffer, Js.bind, Js.fresh_uuid, Js.emit, Js.await, Js.ret. simpl.
  eexists. split; [|split; [|split]].
  - destruct (Env.s3_send w _) as [[]|]; [|reflexivity].
    destruct (Env.URL_ctor P _ _); reflexivity.
  - intros u. destruct (Env.s3_send w _) as [[]|]; [|discriminate].
    destruct (Env.URL_ctor P _ _) eqn:Hu; [|discriminate].
    simpl. intros H. inversion H. simpl. auto.
  - intros given ->. reflexivity.
  - intros ->. split.
    + intros Hn. now rewrite (split_second_no_slash _ Hn).
    + intros type subtype -> Ht Hs.
      now rewrite (split_second_app _ _ Ht), (until_slash_no_slash _ Hs).
Qed.

(** X12: the proxy makes exactly one fetch.  A reply of the store with
    a status outside 2xx is mirrored: the error handler answers with
    that status and "Failed to fetch image: " followed by the status
    text.  A 2xx reply is served with the store's content type, or
    image/jpeg when the header is missing or empty, and with the length
    of the body.  A fetch that fails is answered 500. *)
Theorem proxy_fetch_outcomes (w : Env.World) (finalUrl : string) (s : Js.St) :
  let run := ImageProxy.fetch_image w finalUrl s in
  snd run = Js.mkSt (Js.trace s ++ [Js.EvProxyFetch finalUrl]) (Js.uuids s)
  /\ (forall d,
        Env.http_get w finalUrl = Js.Ok d -> Env.http_ok (Env.dl_status d) = false ->
        fst run = Js.Throw (Js.HttpError (Env.dl_status d)
                              ("Failed to fetch image: " ++ Env.dl_statusText d))
        /\ Http.errorHandler (Js.HttpError (Env.dl_status d)
                                ("Failed to fetch image: " ++ Env.dl_statusText d))
           = Http.json (Env.dl_status d)
               [("message", Js.JStr ("Failed to fetch image: " ++ Env.dl_statusText d))])
  /\ (forall d bytes,
        Env.http_get w finalUrl = Js.Ok d -> Env.http_ok (Env.dl_status d) = true ->
        Env.dl_arrayBuffer d = Js.Ok bytes ->
        fst run
        = Js.Ok (Http.mkResponse 200
                   (Http.ImageBody
                      [("Content-Type",
                        match Env.dl_contentType d with
                        | Some (String c t) => String c t
                        | _ => "image/jpeg"
                        end);
                       ("Content-Length", pretty (String.length bytes));
                       ("Cache-Control", "public, max-age=31536000, immutable");
                       ("Access-Control-Allow-Origin", "*")]
                      bytes)))
  /\ (forall e,
        Env.http_get w finalUrl = Js.Throw e ->
        (forall st m, e <> Js.HttpError st m) ->
        fst run
        = Js.Throw (Js.HttpError 500
                      ("Failed to fetch image: "
                       ++ (if Js.instanceofError e then Js.error_message e
                           else "Unknown error")))).
Proof.
  intros run. unfold run, ImageProxy.fetch_image, Js.try_catch, Js.bind, Js.emit,
    Js.await, Js.throw, Js.ret.
  simpl. split; [|split; [|split]].
  - destruct (Env.http_get w finalUrl) as [d|e]; simpl.
    + destruct (negb (Env.http_ok (Env.dl_status d))); [reflexivity|].
      destruct (Env.dl_arrayBuffer d) as [bytes|e]; [reflexivity|].
      destruct e; reflexivity.
    + destruct e; reflexivity.
  - intros d -> Hok. rewrite Hok. simpl. split; reflexivity.
  - intros d bytes -> Hok ->. rewrite Hok. simpl.
    destruct (Env.dl_contentType d) as [[|c t]|]; reflexivity.
  - intros e -> Hne. destruct e as [| st m | | |]; try reflexivity.
    destruct (Hne st m eq_refl).
Qed.

(** ** Failures of the model calls, and the order of the calls *)

Section StageFailures.
Import Js Env Config Http.

(** What [chatCompletions] throws, by the kind of reply. *)
Lemma chatCompletions_throws ev reply s e s' :
  OpenAI.chatCompletions ev reply s = (Throw e, s') ->
  instanceofError e = true
  /\
  match reply with
  | ChatFails e0 =>
      error_message e
      = (if instanceofError e0 then error_message e0
         else "OpenAI API request failed")
  | ChatNotOk status apiMessage statusText =>
      error_message e
      = "OpenAI API error (" ++ JsString.of_Z status ++ "): "
        ++ JsString.or_else (JsString.nullish apiMessage "") statusText
  | ChatBody responseData =>
      match choices responseData with
      | None => error_message e = "Cannot read properties of undefined (reading '0')"
      | Some content =>
          if JsString.truthy_opt content
          then usage responseData = false
               /\ error_message e
                  = "Cannot read properties of undefined (reading 'total_tokens')"
          else error_message e = "OpenAI did not return any content"
      end
  end.
Proof.
  unfold OpenAI.chatCompletions, OpenAI.makeRequest, bind, try_catch, emit, throw, ret.
  destruct reply as [e0|st m t|[[[c|]|] u]]; simpl.
  - destruct (instanceofError e0) eqn:He; intros H; inversion H; subst; auto.
  - intros H. inversion H. auto.
  - destruct c; simpl.
    + intros H. inversion H. auto.
    + destruct u; simpl; [discriminate|]. intros H. inversion H. auto.
  - intros H. inversion H. auto.
  - intros H. inversion H. auto.
Qed.

Lemma too_short_false s : ImageFlow.too_short s = false -> (3 <= JsString.length s)%nat.
Proof.
  unfold ImageFlow.too_short. intros H. apply orb_false_iff in H. destruct H as [_ H].
  now apply Nat.ltb_ge in H.
Qed.

Lemma step1_prompt P w baseImage baseUrl refUrls s prompt1 s1 :
  ImageFlow.step1 P w baseImage baseUrl refUrls s = (Ok (inr prompt1), s1) ->
  (3 <= JsString.length prompt1)%nat.
Proof.
  unfold ImageFlow.step1, OpenAI.reconstructPromptFromImage, bind, try_catch, ret, await.
  destruct (OpenAI.chatCompletions _ _ s) as [[content|e] s0]; [|discriminate].
  cbn [OpenAI.isPromptGenerated OpenAI.prompt Json.truthy ImageFlow.trim_method].
  destruct (negb (negb _)); [discriminate|].
  destruct (ImageFlow.too_short _) eqn:Hshort; [discriminate|].
  intros H. inversion H; subst. now apply too_short_false.
Qed.

Lemma step2_prompt P w payload referenceImages baseUrl refUrls prompt1 s prompt2 ex s2 :
  ImageFlow.step2 P w payload referenceImages baseUrl refUrls prompt1 s
  = (Ok (inr (prompt2, ex)), s2) ->
  prompt2 = prompt1 \/ (3 <= JsString.length prompt2)%nat.
Proof.
  unfold ImageFlow.step2.
  destruct (ImageFlow.hasUserInstructions payload); cbv beta iota delta [negb].
  2:{ unfold ret. intros H. inversion H. auto. }
  unfold OpenAI.applyUserInstructions, OpenAI.chatCompletionsJSON, bind, try_catch, ret,
    await.
  destruct (OpenAI.chatCompletions _ _ s) as [[content|e] s0]; [|discriminate].
  generalize (OpenAI.chatCompletionsJSON_parse P content). intros o.
  destruct (Json.truthy P (OpenAI.isPromptGenerated o)); [|discriminate].
  destruct (ImageFlow.trim_method _ (OpenAI.prompt o)) as [t|e]; [|discriminate].
  destruct (ImageFlow.too_short t) eqn:Hshort; [discriminate|].
  intros H. inversion H; subst. right. now apply too_short_false.
Qed.

Lemma stages_call_order P cfg w payload baseImage referenceImages bu rus s :
  exists stage2 stage3,
    trace (snd (ImageFlow.stages P cfg w payload baseImage referenceImages bu rus s))
    = (trace s ++ EvOpenAIReconstruct :: stage2 ++ stage3)%list
    /\ (stage2 = []
        \/ exists prompt1,
             stage2 = [EvOpenAIApplyInstructions prompt1
                         (ImageFlow.trimmed_instructions payload)])
    /\ (stage3 = []
        \/ exists prompt2 generationConfig later,
             stage3 = EvVertexGenerateContent prompt2 generationConfig :: later
             /\ forallb (fun ev => Spec.is_fal ev || Spec.is_s3 ev) later = true).
Proof.
  unfold ImageFlow.stages, bind.
  destruct (step1_cases P w baseImage (Storage.url bu) (map Storage.url rus) s)
    as (r1 & H1 & _).
  rewrite H1. destruct r1 as [response|prompt1].
  { exists [], []. simpl. auto. }
  unfold ImageFlow.after_step1, bind.
  set (s1 := mkSt (trace s ++ [EvOpenAIReconstruct]) (uuids s)).
  destruct (step2_cases P w payload referenceImages (Storage.url bu)
              (map Storage.url rus) prompt1 s1) as (r2 & H2 & _).
  rewrite H2.
  set (ev2 := if ImageFlow.hasUserInstructions payload
              then [EvOpenAIApplyInstructions prompt1
                      (ImageFlow.trimmed_instructions payload)]
              else []) in *.
  assert (Hev2 : ev2 = []
                 \/ exists p, ev2 = [EvOpenAIApplyInstructions p
                                       (ImageFlow.trimmed_instructions payload)]).
  { unfold ev2. destruct (ImageFlow.hasUserInstructions payload); eauto. }
  destruct r2 as [response|[prompt2 ex]].
  { exists ev2, []. unfold ret. simpl. rewrite <- app_assoc, app_nil_r. auto. }
  destruct (step3_cases P cfg w payload bu rus prompt1 prompt2 ex
              (mkSt (trace s1 ++ ev2) (uuids s1))) as (later & Htr & Hall & _).
  eexists ev2, _. rewrite Htr. simpl. rewrite <- !app_assoc. simpl.
  split; [reflexivity|]. split; [exact Hev2|]. right. eauto.
Qed.

End StageFailures.

(** X13: if the model call of Stage 1 fails, the request ends with 502,
    [prompt1], [prompt2] and the output image null, and the error
    "OpenAI prompt reconstruction failed: " followed by the message of
    the failure: for a reply outside 2xx, the status and the API's
    message (or the status text when there is none); for a 2xx reply
    without [choices], or with content and without [usage], the message
    of the TypeError of the unguarded read; for an empty completion,
    "OpenAI did not return any content".  Nothing is called after the
    failed call. *)
Theorem stage1_call_failure_response
    (P : Env.Platform) (cfg : Config.AppConfig) (w : Env.World)
    (payload : ImageFlow.Payload) (baseImage : ImageFlow.File)
    (referenceImages : list ImageFlow.File)
    (bu : Storage.Upload) (rus : list Storage.Upload) (s : Js.St)
    (e : Js.Thrown) (s1 : Js.St) :
  OpenAI.reconstructPromptFromImage w (ImageFlow.buffer baseImage)
    (ImageFlow.mimetype baseImage) s = (Js.Throw e, s1) ->
  ImageFlow.stages P cfg w payload baseImage referenceImages bu rus s
  = (Js.Ok (ImageFlow.short_circuit (Storage.url bu) (map Storage.url rus)
              Js.JNull Js.JNull
              ("OpenAI prompt reconstruction failed: " ++ Js.error_message e)),
     Js.mkSt (Js.trace s ++ [Js.EvOpenAIReconstruct]) (Js.uuids s))
  /\ match Env.openai_reconstruct w (ImageFlow.buffer baseImage)
             (ImageFlow.mimetype baseImage) with
     | Env.ChatFails e0 =>
         Js.error_message e
         = (if Js.instanceofError e0 then Js.error_message e0
            else "OpenAI API request failed")
     | Env.ChatNotOk status apiMessage statusText =>
         Js.error_message e
         = "OpenAI API error (" ++ JsString.of_Z status ++ "): "
           ++ JsString.or_else (JsString.nullish apiMessage "") statusText
     | Env.ChatBody responseData =>
         match Env.choices responseData with
         | None => Js.error_message e = "Cannot read properties of undefined (reading '0')"
         | Some content =>
             if JsString.truthy_opt content
             then Env.usage responseData = false
                  /\ Js.error_message e
                     = "Cannot read properties of undefined (reading 'total_tokens')"
             else Js.error_message e = "OpenAI did not return any content"
         end
     end.
Proof.
  intros H0.
  assert (H : OpenAI.chatCompletions Js.EvOpenAIReconstruct
                (Env.openai_reconstruct w (ImageFlow.buffer baseImage)
                   (ImageFlow.mimetype baseImage)) s = (Js.Throw e, s1)).
  { unfold OpenAI.reconstructPromptFromImage, Js.bind, Js.ret in H0.
    destruct (OpenAI.chatCompletions _ _ s) as [[c|e'] s0]; [discriminate|].
    inversion H0. reflexivity. }
  pose proof (chatCompletions_state Js.EvOpenAIReconstruct
                (Env.openai_reconstruct w (ImageFlow.buffer baseImage)
                   (ImageFlow.mimetype baseImage)) s) as Hs.
  rewrite H in Hs. simpl in Hs. subst s1.
  destruct (chatCompletions_throws _ _ _ _ _ H) as [Hi Hm].
  split; [|exact Hm].
  unfold ImageFlow.stages, ImageFlow.step1, OpenAI.reconstructPromptFromImage,
    Js.bind, Js.try_catch, Js.ret.
  rewrite H, Hi. reflexivity.
Qed.

(** X13, at a rate-limited reply and at a 2xx reply that has content
    and no [usage]. *)
Lemma stage1_call_failure_response_witness :
  let limited := Sample.world_openai
                   (Env.ChatNotOk 429 (Some "Rate limit reached") "Too Many Requests")
                   (Env.ChatOk None) in
  let untyped := Sample.world_openai
                   (Env.ChatBody (Env.mkCompletion (Some (Some "A red bicycle")) false))
                   (Env.ChatOk None) in
  let run w :=
    fst (ImageFlow.stages Sample.platform Sample.cfg w
           (ImageFlow.mkPayload (Some "make it blue") None) (Sample.png 1000) []
           (Storage.mkUpload "k" "https://cdn.example.com/k") [] Js.init) in
  run limited
  = Js.Ok (ImageFlow.short_circuit "https://cdn.example.com/k" [] Js.JNull Js.JNull
             "OpenAI prompt reconstruction failed: OpenAI API error (429): Rate limit reached")
  /\ run untyped
     = Js.Ok (ImageFlow.short_circuit "https://cdn.example.com/k" [] Js.JNull Js.JNull
                "OpenAI prompt reconstruction failed: Cannot read properties of undefined (reading 'total_tokens')").
Proof.
  intros limited untyped run. split.
  - exact (f_equal fst
             (proj1 (stage1_call_failure_response Sample.platform Sample.cfg limited
                       (ImageFlow.mkPayload (Some "make it blue") None) (Sample.png 1000) []
                       (Storage.mkUpload "k" "https://cdn.example.com/k") [] Js.init
                       (Js.Error "OpenAI API error (429): Rate limit reached")
                       (Js.mkSt [Js.EvOpenAIReconstruct] 0) eq_refl))).
  - exact (f_equal fst
             (proj1 (stage1_call_failure_response Sample.platform Sample.cfg untyped
                       (ImageFlow.mkPayload (Some "make it blue") None) (Sample.png 1000) []
                       (Storage.mkUpload "k" "https://cdn.example.com/k") [] Js.init
                       (Js.TypeError
                          "Cannot read properties of undefined (reading 'total_tokens')")
                       (Js.mkSt [Js.EvOpenAIReconstruct] 0) eq_refl))).
Defined.

(** X14: if the model call of Stage 2 fails, the request ends with 502,
    [prompt1] kept, [prompt2] and the output image null, and the error
    "OpenAI prompt editing failed: " followed by the message of the
    failure, which is by the kind of reply as in Stage 1 (the TypeError
    of an unguarded read included); image synthesis is not started. *)
Theorem stage2_call_failure_response
    (P : Env.Platform) (cfg : Config.AppConfig) (w : Env.World)
    (payload : ImageFlow.Payload) (referenceImages : list ImageFlow.File)
    (bu : Storage.Upload) (rus : list Storage.Upload) (prompt1 : string) (s : Js.St)
    (e : Js.Thrown) (s1 : Js.St) :
  ImageFlow.hasUserInstructions payload = true ->
  let referenceImageBuffers :=
    match referenceImages with
    | [] => None
    | _ => Some (map (fun img => (ImageFlow.buffer img, ImageFlow.mimetype img))
                   referenceImages)
    end in
  OpenAI.applyUserInstructions P w prompt1 (ImageFlow.trimmed_instructions payload)
    referenceImageBuffers s = (Js.Throw e, s1) ->
  ImageFlow.after_step1 P cfg w payload referenceImages bu rus prompt1 s
  = (Js.Ok (ImageFlow.short_circuit (Storage.url bu) (map Storage.url rus)
              (Js.JStr prompt1) Js.JNull
              ("OpenAI prompt editing failed: " ++ Js.error_message e)),
     Js.mkSt (Js.trace s ++ [Js.EvOpenAIApplyInstructions prompt1
                               (ImageFlow.trimmed_instructions payload)])
       (Js.uuids s))
  /\ match Env.openai_apply w prompt1 (ImageFlow.trimmed_instructions payload)
             referenceImageBuffers with
     | Env.ChatFails e0 =>
         Js.error_message e
         = (if Js.instanceofError e0 then Js.error_message e0
            else "OpenAI API request failed")
     | Env.ChatNotOk status apiMessage statusText =>
         Js.error_message e
         = "OpenAI API error (" ++ JsString.of_Z status ++ "): "
           ++ JsString.or_else (JsString.nullish apiMessage "") statusText
     | Env.ChatBody responseData =>
         match Env.choices responseData with
         | None => Js.error_message e = "Cannot read properties of undefined (reading '0')"
         | Some content =>
             if JsString.truthy_opt content
             then Env.usage responseData = false
                  /\ Js.error_message e
                     = "Cannot read properties of undefined (reading 'total_tokens')"
             else Js.error_message e = "OpenAI did not return any content"
         end
     end.
Proof.
  intros Hhas referenceImageBuffers H0.
  set (ev := Js.EvOpenAIApplyInstructions prompt1 (ImageFlow.trimmed_instructions payload)).
  set (reply := Env.openai_apply w prompt1 (ImageFlow.trimmed_instructions payload)
                  referenceImageBuffers).
  assert (H : OpenAI.chatCompletions ev reply s = (Js.Throw e, s1)).
  { unfold OpenAI.applyUserInstructions, OpenAI.chatCompletionsJSON, Js.bind, Js.ret in H0.
    fold ev reply in H0.
    destruct (OpenAI.chatCompletions ev reply s) as [[c|e'] s0]; [discriminate|].
    inversion H0. reflexivity. }
  pose proof (chatCompletions_state ev reply s) as Hs.
  rewrite H in Hs. simpl in Hs. subst s1.
  destruct (chatCompletions_throws _ _ _ _ _ H) as [Hi Hm].
  split; [|exact Hm].
  unfold ImageFlow.after_step1, ImageFlow.step2. rewrite Hhas.
  cbv beta iota delta [negb].
  unfold OpenAI.applyUserInstructions, OpenAI.chatCompletionsJSON, Js.bind, Js.try_catch,
    Js.ret.
  fold referenceImageBuffers. fold ev reply. rewrite H, Hi. reflexivity.
Qed.

(** X14, at an empty completion and at a 2xx reply without [choices]. *)
Lemma stage2_call_failure_response_witness :
  let empty := Sample.world_openai (Env.ChatOk (Some "A red bicycle")) (Env.ChatOk None) in
  let untyped := Sample.world_openai (Env.ChatOk (Some "A red bicycle"))
                   (Env.ChatBody (Env.mkCompletion None true)) in
  let run w :=
    fst (ImageFlow.after_step1 Sample.platform Sample.cfg w
           (ImageFlow.mkPayload (Some " make it blue ") None) []
           (Storage.mkUpload "k" "https://cdn.example.com/k") [] "A red bicycle" Js.init) in
  run empty
  = Js.Ok (ImageFlow.short_circuit "https://cdn.example.com/k" [] (Js.JStr "A red bicycle")
             Js.JNull "OpenAI prompt editing failed: OpenAI did not return any content")
  /\ run untyped
     = Js.Ok (ImageFlow.short_circuit "https://cdn.example.com/k" []
                (Js.JStr "A red bicycle") Js.JNull
                "OpenAI prompt editing failed: Cannot read properties of undefined (reading '0')").
Proof.
  intros empty untyped run. split.
  - exact (f_equal fst
             (proj1 (stage2_call_failure_response Sample.platform Sample.cfg empty
                       (ImageFlow.mkPayload (Some " make it blue ") None) []
                       (Storage.mkUpload "k" "https://cdn.example.com/k") [] "A red bicycle"
                       Js.init (Js.Error "OpenAI did not return any content")
                       (Js.mkSt [Js.EvOpenAIApplyInstructions "A red bicycle"
                                   "make it blue"] 0)
                       eq_refl eq_refl))).
  - exact (f_equal fst
             (proj1 (stage2_call_failure_response Sample.platform Sample.cfg untyped
                       (ImageFlow.mkPayload (Some " make it blue ") None) []
                       (Storage.mkUpload "k" "https://cdn.example.com/k") [] "A red bicycle"
                       Js.init
                       (Js.TypeError "Cannot read properties of undefined (reading '0')")
                       (Js.mkSt [Js.EvOpenAIApplyInstructions "A red bicycle"
                                   "make it blue"] 0)
                       eq_refl eq_refl))).
Defined.

(** X15: whatever the models answer, a prompt that reaches image
    synthesis has a [length] of at least three (UTF-16 code units, the
    measure of the code's own test): it is the trimmed prompt of
    Stage 2 or, when Stage 2 is skipped, the trimmed prompt of Stage 1,
    and both stages stop the request on a shorter one. *)
Theorem synthesis_prompt_is_never_short
    (P : Env.Platform) (cfg : Config.AppConfig) (w : Env.World)
    (payload : ImageFlow.Payload) (baseImage : ImageFlow.File)
    (referenceImages : list ImageFlow.File)
    (bu : Storage.Upload) (rus : list Storage.Upload) (s : Js.St) :
  exists events,
    Js.trace (snd (ImageFlow.stages P cfg w payload baseImage referenceImages bu rus s))
    = (Js.trace s ++ events)%list
    /\ forall prompt generationConfig,
         In (Js.EvVertexGenerateContent prompt generationConfig) events ->
         (3 <= JsString.length prompt)%nat.
Proof.
  unfold ImageFlow.stages, Js.bind.
  destruct (step1_cases P w baseImage (Storage.url bu) (map Storage.url rus) s)
    as (r1 & H1 & _).
  pose proof (step1_prompt P w baseImage (Storage.url bu) (map Storage.url rus) s) as Hp1.
  rewrite H1 in Hp1 |- *. destruct r1 as [response|prompt1].
  { exists [Js.EvOpenAIReconstruct]. split; [reflexivity|].
    intros p g [H|[]]. discriminate. }
  specialize (Hp1 prompt1 _ eq_refl).
  unfold ImageFlow.after_step1, Js.bind.
  set (s1 := Js.mkSt (Js.trace s ++ [Js.EvOpenAIReconstruct]) (Js.uuids s)).
  destruct (step2_cases P w payload referenceImages (Storage.url bu)
              (map Storage.url rus) prompt1 s1) as (r2 & H2 & _).
  pose proof (step2_prompt P w payload referenceImages (Storage.url bu)
                (map Storage.url rus) prompt1 s1) as Hp2.
  rewrite H2 in Hp2 |- *.
  set (ev2 := if ImageFlow.hasUserInstructions payload
              then [Js.EvOpenAIApplyInstructions prompt1
                      (ImageFlow.trimmed_instructions payload)]
              else []) in *.
  assert (Hev2 : forall p g, ~ In (Js.EvVertexGenerateContent p g) ev2).
  { intros p g. unfold ev2. destruct (ImageFlow.hasUserInstructions payload).
    - intros [H|[]]. discriminate.
    - intros []. }
  destruct r2 as [response|[prompt2 ex]].
  { exists (Js.EvOpenAIReconstruct :: ev2). unfold Js.ret. simpl.
    rewrite <- app_assoc. split; [reflexivity|].
    intros p g [H|H]; [discriminate|]. destruct (Hev2 p g H). }
  assert (Hlen : (3 <= JsString.length prompt2)%nat).
  { destruct (Hp2 prompt2 ex _ eq_refl) as [->|H]; assumption. }
  destruct (step3_cases P cfg w payload bu rus prompt1 prompt2 ex
              (Js.mkSt (Js.trace s1 ++ ev2) (Js.uuids s1))) as (later & Htr & Hall & _).
  eexists. rewrite Htr. simpl. rewrite <- !app_assoc. simpl.
  split; [reflexivity|].
  intros p g [H|H]; [discriminate|].
  apply in_app_or in H. destruct H as [H|[H|H]].
  - destruct (Hev2 p g H).
  - inversion H; subst. exact Hlen.
  - rewrite forallb_forall in Hall. specialize (Hall _ H). discriminate.
Qed.

(** X16: the calls of a request are made in a fixed order: first the
    uploads of the inputs; then, if at all, the Stage 1 call; then at
    most one Stage 2 call; then, if at all, the call of the primary
    image provider, after which only calls of the fallback provider and
    uploads follow. *)
Theorem handler_call_order
    (P : Env.Platform) (cfg : Config.AppConfig) (w : Env.World) (req : ImageFlow.Request) :
  exists keys calls,
    Js.trace (snd (ImageFlow.handler P cfg w req Js.init))
    = (map Js.EvS3Put keys ++ calls)%list
    /\ (calls = []
        \/ exists stage2 stage3,
             calls = (Js.EvOpenAIReconstruct :: stage2 ++ stage3)%list
             /\ (stage2 = []
                 \/ exists prompt1 instructions,
                      stage2 = [Js.EvOpenAIApplyInstructions prompt1 instructions])
             /\ (stage3 = []
                 \/ exists prompt2 generationConfig later,
                      stage3 = Js.EvVertexGenerateContent prompt2 generationConfig :: later
                      /\ forallb (fun ev => Spec.is_fal ev || Spec.is_s3 ev) later = true)).
Proof.
  unfold ImageFlow.handler. unfold Js.bind at 1.
  destruct (ImageFlow.prepare P cfg w req Js.init) as [[pr|e] s1] eqn:Hp;
    apply prepare_cases in Hp.
  2:{ destruct Hp as [keys Hk]. exists keys, []. simpl. rewrite app_nil_r. auto. }
  unfold Js.bind at 1. unfold Js.await at 1.
  destruct (OpenAI.createOpenAIService cfg None) as [apiKey|e].
  2:{ eexists _, []. simpl. rewrite app_nil_r. split; [exact Hp|]. auto. }
  destruct (stages_call_order P cfg w (ImageFlow.pr_payload pr) (ImageFlow.pr_baseImage pr)
              (ImageFlow.req_referenceImages req) (ImageFlow.pr_baseImageUpload pr)
              (ImageFlow.pr_referenceUploads pr) s1)
    as (stage2 & stage3 & Htr & H2 & H3).
  eexists _, _. rewrite Htr, Hp. split; [reflexivity|]. right.
  exists stage2, stage3. split; [reflexivity|]. split; [|exact H3].
  destruct H2 as [->|[p ->]]; eauto.
Qed.

Section Replies.
Import Js Env Config Http.

Lemma from_first_brace_app pre rest :
  JsString.includes pre "{" = false ->
  Json.from_first_brace (pre ++ "{" ++ rest) = Some rest.
Proof.
  induction pre as [|c r IH]; [reflexivity|].
  rewrite includes_char. intros H. apply orb_false_iff in H. destruct H as [Hc Hr].
  change (Json.from_first_brace (String c (r ++ "{" ++ rest)) = Some rest).
  cbn [Json.from_first_brace].
  rewrite (code_eqb c 123) by lia. change (ascii_of_N 123) with "{"%char.
  rewrite Hc. exact (IH Hr).
Qed.

Lemma upto_last_brace_none post :
  JsString.includes post "}" = false -> Json.upto_last_brace post = None.
Proof.
  induction post as [|c r IH]; [reflexivity|].
  rewrite includes_char. intros H. apply orb_false_iff in H. destruct H as [Hc Hr].
  cbn [Json.upto_last_brace].
  rewrite (IH Hr), (code_eqb c 125) by lia. change (ascii_of_N 125) with "}"%char.
  now rewrite Hc.
Qed.

Lemma upto_last_brace_app mid post :
  JsString.includes post "}" = false ->
  Json.upto_last_brace (mid ++ "}" ++ post) = Some (mid ++ "}").
Proof.
  intros Hp. induction mid as [|c r IH].
  - change (Json.upto_last_brace (String "}" post) = Some "}").
    cbn [Json.upto_last_brace]. now rewrite (upto_last_brace_none _ Hp).
  - change (Json.upto_last_brace (String c (r ++ "}" ++ post))
            = Some (String c (r ++ "}"))).
    cbn [Json.upto_last_brace]. now rewrite IH.
Qed.

Lemma match_json_block_app pre mid post :
  JsString.includes pre "{" = false ->
  JsString.includes post "}" = false ->
  Json.match_json_block (pre ++ ("{" ++ mid ++ "}") ++ post) = Some ("{" ++ mid ++ "}").
Proof.
  intros Hpre Hpost. unfold Json.match_json_block.
  replace (pre ++ ("{" ++ mid ++ "}") ++ post) with (pre ++ "{" ++ (mid ++ "}" ++ post)).
  2:{ f_equal. change (String "{" (mid ++ "}" ++ post) = String "{" ((mid ++ "}") ++ post)).
      now rewrite append_assoc. }
  rewrite (from_first_brace_app _ _ Hpre), (upto_last_brace_app _ _ Hpost). reflexivity.
Qed.

Lemma lex_literal acc tokens p rest :
  Reply.literal p = true ->
  Json.lex (Json.LString acc) tokens (p ++ rest)
  = Json.lex (Json.LString (acc ++ p)) tokens rest.
Proof.
  revert acc. induction p as [|c p IH]; intros acc Hp; simpl.
  - now rewrite append_empty_r.
  - simpl in Hp. apply andb_true_iff in Hp. destruct Hp as [Hc Hp].
    unfold Reply.literal_char in Hc.
    apply andb_true_iff in Hc. destruct Hc as [Hc H92].
    apply andb_true_iff in Hc. destruct Hc as [H32 H34].
    apply negb_true_iff in H34, H92. rewrite H34, H92.
    apply N.leb_le in H32.
    assert (Hlt : (JsString.code c <? 32)%N = false) by (apply N.ltb_ge; exact H32).
    rewrite Hlt, (IH _ Hp). unfold Json.snoc. now rewrite append_assoc.
Qed.

Lemma parse_in_format p g :
  Reply.literal p = true ->
  Json.parse (Reply.in_format p g)
  = Some (JObj [("prompt", JStr p); ("isPromptGenerated", JBool g)]).
Proof.
  intros Hp. unfold Json.parse, Reply.in_format.
  assert (Hlex :
    Json.lex Json.LIdle []
      ("{" ++ Chat.nl ++ "  " ++ Chat.dq ++ "prompt" ++ Chat.dq ++ ": " ++ Chat.dq
       ++ p ++ Chat.dq ++ "," ++ Chat.nl ++ "  " ++ Chat.dq ++ "isPromptGenerated"
       ++ Chat.dq ++ ": " ++ (if g then "true" else "false") ++ Chat.nl ++ "}")
    = Some [Json.TRBrace; Json.TWord (if g then "true" else "false"); Json.TColon;
            Json.TString "isPromptGenerated"; Json.TComma; Json.TString p; Json.TColon;
            Json.TString "prompt"; Json.TLBrace]).
  { change (Json.lex Json.LIdle [] _)
      with (Json.lex (Json.LString "") [Json.TColon; Json.TString "prompt"; Json.TLBrace]
              (p ++ Chat.dq ++ "," ++ Chat.nl ++ "  " ++ Chat.dq ++ "isPromptGenerated"
               ++ Chat.dq ++ ": " ++ (if g then "true" else "false") ++ Chat.nl ++ "}")).
    rewrite (lex_literal _ _ _ _ Hp). destruct g; reflexivity. }
  rewrite Hlex. destruct g; reflexivity.
Qed.

(** X17: a model reply that holds, between any text without an opening
    brace and any text without a closing brace, the JSON object that
    the directive of [chatCompletionsJSON] asks for is accepted
    whenever the prompt needs no escaping in a JSON string: the result
    is the trimmed prompt with the flag of the reply. *)
Theorem formatted_reply_is_accepted P pre p post g :
  Reply.literal p = true ->
  JsString.includes pre "{" = false ->
  JsString.includes post "}" = false ->
  OpenAI.chatCompletionsJSON_parse P (pre ++ Reply.in_format p g ++ post)
  = OpenAI.mkPrompt (JStr (JsString.trim p)) (JBool g).
Proof.
  intros Hp Hpre Hpost. unfold OpenAI.chatCompletionsJSON_parse.
  pose proof (parse_in_format p g Hp) as Hparse.
  set (mid := Chat.nl ++ "  " ++ Chat.dq ++ "prompt" ++ Chat.dq ++ ": " ++ Chat.dq
              ++ p ++ Chat.dq ++ "," ++ Chat.nl ++ "  " ++ Chat.dq
              ++ "isPromptGenerated" ++ Chat.dq ++ ": "
              ++ (if g then "true" else "false") ++ Chat.nl).
  assert (Hfmt : Reply.in_format p g = "{" ++ mid ++ "}").
  { unfold Reply.in_format, mid. simpl. unfold Chat.nl, Chat.dq. simpl.
    rewrite !append_assoc. reflexivity. }
  rewrite Hfmt in Hparse |- *.
  rewrite (match_json_block_app pre mid post Hpre Hpost), Hparse.
  reflexivity.
Qed.

End Replies.

Lemma formatted_reply_is_accepted_witness :
  OpenAI.chatCompletionsJSON_parse Sample.platform
    ("Sure! " ++ Reply.in_format "  a blue {bicycle} " true ++ " Done.")
  = OpenAI.mkPrompt (Js.JStr "a blue {bicycle}") (Js.JBool true).
Proof.
  exact (formatted_reply_is_accepted Sample.platform "Sure! " "  a blue {bicycle} "
           " Done." true eq_refl eq_refl eq_refl).
Defined.

Section ChatRequests.
Import Js Env Config Chat.

Lemma insert_last {A} (l : list A) (x y : A) :
  <[ (length (l ++ [x])%list - 1)%nat := y ]> (l ++ [x])%list = (l ++ [y])%list.
Proof.
  rewrite length_app. simpl length.
  replace (length l + 1 - 1)%nat with (length l + 0)%nat by lia.
  rewrite insert_app_r. reflexivity.
Qed.

Lemma instructed_parts_text before t u :
  instructed_parts (before ++ [mkPart text_type t u])%list
  = (before ++ [mkPart text_type (Some (JsString.nullish t "" ++ jsonInstruction)%string) u])%list.
Proof.
  unfold instructed_parts. rewrite last_snoc, insert_last.
  destruct t as [[|c t]|]; reflexivity.
Qed.

Lemma instructed_parts_other parts :
  (forall t u, last parts <> Some (mkPart text_type t u)) ->
  instructed_parts parts = (parts ++ [mkPart text_type (Some jsonInstruction) None])%list.
Proof.
  intros H. unfold instructed_parts.
  destruct (last parts) as [[[] t u]|]; try reflexivity.
  destruct (H t u eq_refl).
Qed.

(** X18: [chatCompletionsJSON] changes at most the last message of a
    conversation and never its role.  A last message that is not from
    the user is sent as it is.  In a last user message the JSON
    directive is appended to a text content or to a final text part,
    and becomes a new final text part when the parts end with an image
    or are empty. *)
Theorem json_directive_placement (earlier : list ChatMessage) (m : ChatMessage) :
  exists m',
    modifiedMessages (earlier ++ [m])%list = (earlier ++ [m'])%list
    /\ role m' = role m
    /\ (role m <> user -> m' = m)
    /\ (role m = user ->
        (forall s, content m = Text s -> content m' = Text (s ++ jsonInstruction))
        /\ (forall before t u,
              content m = Parts (before ++ [mkPart text_type t u])%list ->
              content m'
              = Parts (before
                       ++ [mkPart text_type
                             (Some (JsString.nullish t "" ++ jsonInstruction)%string) u])%list)
        /\ (forall parts,
              content m = Parts parts ->
              (forall t u, last parts <> Some (mkPart text_type t u)) ->
              content m'
              = Parts (parts ++ [mkPart text_type (Some jsonInstruction) None])%list)).
Proof.
  unfold modifiedMessages. rewrite last_snoc.
  destruct m as [[] c].
  - exists (mkMessage system c). repeat split; auto; discriminate.
  - rewrite insert_last. eexists. split; [reflexivity|]. split; [reflexivity|].
    split; [intros H; exfalso; apply H; reflexivity|]. intros _. simpl. split; [|split].
    + intros s ->. reflexivity.
    + intros before t u ->. now rewrite instructed_parts_text.
    + intros parts -> Hl. now rewrite instructed_parts_other.
  - exists (mkMessage assistant c). repeat split; auto; discriminate.
Qed.

Lemma reference_parts_length toBase64 refs index :
  length (reference_parts toBase64 refs index) = (2 * length refs)%nat.
Proof.
  revert index. induction refs as [|[b m] r IH]; intros index; simpl; [reflexivity|].
  rewrite IH. lia.
Qed.

Lemma reference_parts_snoc toBase64 refs b m index :
  reference_parts toBase64 (refs ++ [(b, m)])%list index
  = (reference_parts toBase64 refs index
     ++ [mkPart image_url_type None (Some (dataUri toBase64 b m));
         mkPart text_type
           (Some ("Reference image #" ++ pretty (index + length refs + 1)%nat)%string)
           None])%list.
Proof.
  revert index. induction refs as [|[b' m'] r IH]; intros index; simpl.
  - now rewrite Nat.add_0_r.
  - rewrite IH.
    replace (S index + length r + 1)%nat with (index + S (length r) + 1)%nat by lia.
    reflexivity.
Qed.

Lemma reference_parts_lookup toBase64 refs index i b m :
  refs !! i = Some (b, m) ->
  reference_parts toBase64 refs index !! (2 * i)%nat
  = Some (mkPart image_url_type None (Some (dataUri toBase64 b m))).
Proof.
  revert index i. induction refs as [|[b' m'] r IH]; intros index i; [discriminate|].
  destruct i as [|i]; simpl.
  - intros H. inversion H. reflexivity.
  - intros H. replace (i + S (i + 0))%nat with (S (2 * i))%nat by lia. simpl.
    now apply IH.
Qed.

(** X19: the Stage 2 request goes to the chat model in JSON mode with
    the editor system prompt and one user message of 1 + 2n parts for n
    reference images: the task text, then each image followed by its
    label.  Image i is part 2i + 1, and the JSON directive ends up
    inside the label of the last reference image, or inside the task
    text when there is none. *)
Theorem applyUserInstructions_request_shape
    toBase64 cfg basePrompt userInstructions referenceImageBuffers :
  let request :=
    applyUserInstructions_request toBase64 cfg basePrompt userInstructions
      referenceImageBuffers in
  let refs := default [] referenceImageBuffers in
  model request = "gpt-4o"
  /\ temperature request = "0.7"
  /\ response_format request = Some "json_object"
  /\ exists parts,
       messages request
       = [mkMessage system (Text (systemPromptPromptEditor (openai cfg)));
          mkMessage user (Parts parts)]
       /\ length parts = (1 + 2 * length refs)%nat
       /\ (refs = [] ->
           parts = [mkPart text_type
                      (Some (task_text basePrompt userInstructions ++ jsonInstruction))
                      None])
       /\ (forall front b m,
             refs = (front ++ [(b, m)])%list ->
             parts
             = (mkPart text_type (Some (task_text basePrompt userInstructions)) None
                :: reference_parts toBase64 front 0
                ++ [mkPart image_url_type None (Some (dataUri toBase64 b m));
                    mkPart text_type
                      (Some ("Reference image #" ++ pretty (length front + 1)%nat
                             ++ jsonInstruction)%string)
                      None])%list)
       /\ (forall i b m,
             refs !! i = Some (b, m) ->
             parts !! (2 * i + 1)%nat
             = Some (mkPart image_url_type None (Some (dataUri toBase64 b m)))).
Proof.
  intros request refs.
  split; [reflexivity|]. split; [reflexivity|]. split; [reflexivity|].
  set (task := mkPart text_type (Some (task_text basePrompt userInstructions)) None).
  assert (Hcontent :
    messages request
    = [mkMessage system (Text (systemPromptPromptEditor (openai cfg)));
       mkMessage user (Parts (instructed_parts (task :: reference_parts toBase64 refs 0)))]).
  { unfold request, applyUserInstructions_request, chatCompletionsJSON_request,
      chatCompletions_request, modifiedMessages, refs.
    destruct referenceImageBuffers; reflexivity. }
  exists (instructed_parts (task :: reference_parts toBase64 refs 0)).
  split; [exact Hcontent|].
  clearbody request. clear Hcontent.
  induction refs as [|[b m] front _] using rev_ind.
  - split; [reflexivity|]. split; [reflexivity|]. split.
    + intros front b m H. destruct front; discriminate.
    + intros i b m H. discriminate.
  - rewrite reference_parts_snoc. simpl Nat.add.
    assert (Hparts :
      instructed_parts
        (task :: reference_parts toBase64 front 0
         ++ [mkPart image_url_type None (Some (dataUri toBase64 b m));
             mkPart text_type
               (Some ("Reference image #" ++ pretty (length front + 1)%nat)%string) None])%list
      = (task :: reference_parts toBase64 front 0
         ++ [mkPart image_url_type None (Some (dataUri toBase64 b m));
             mkPart text_type
               (Some ("Reference image #" ++ pretty (length front + 1)%nat
                      ++ jsonInstruction)%string) None])%list).
    { match goal with |- instructed_parts (task :: ?l ++ [?x; ?y])%list = _ =>
        replace (task :: l ++ [x; y])%list with (((task :: l) ++ [x]) ++ [y])%list
          by (rewrite <- app_assoc; reflexivity)
      end.
      rewrite instructed_parts_text. simpl JsString.nullish.
      rewrite <- app_assoc. reflexivity. }
    rewrite Hparts. split; [|split; [|split]].
    + simpl. rewrite !length_app, reference_parts_length. simpl. lia.
    + intros H. destruct front; discriminate.
    + intros front' b' m' H. apply app_inj_tail in H. destruct H as [-> H].
      inversion H. reflexivity.
    + intros i b' m' H.
      match goal with |- _ !! ?n = _ => replace n with (S (2 * i)) by lia end.
      match goal with |- (?x :: ?l) !! S ?n = _ => change (l !! n = Some
        (mkPart image_url_type None (Some (dataUri toBase64 b' m')))) end.
      apply lookup_app_Some in H. destruct H as [H|[Hle H]].
      * rewrite lookup_app_l.
        -- now apply reference_parts_lookup.
        -- rewrite reference_parts_length. apply lookup_lt_Some in H. lia.
      * destruct (i - length front)%nat as [|k] eqn:Hk; [|destruct k; discriminate].
        inversion H; subst b' m'.
        rewrite lookup_app_r by (rewrite reference_parts_length; lia).
        rewrite reference_parts_length.
        replace (2 * i - 2 * length front)%nat with 0%nat by lia. reflexivity.
Qed.

(** X20: the Stage 1 request of a loaded configuration carries a system
    message exactly when the image-understanding system prompt is not
    empty: a variable set to the empty string overrides the default and
    is then left out of the request, whereas the Stage 2 request sends
    its system message even when the editor prompt is empty. *)
Theorem empty_system_prompt_is_not_sent
    toBase64 P D (env : gmap string string) cfg imageBuffer mimeType :
  loadConfig P D env = Ok cfg ->
  let request := reconstructPromptFromImage_request toBase64 cfg imageBuffer mimeType in
  let userMessage :=
    mkMessage user
      (Parts [mkPart text_type
                (Some "Analyze this image and return a detailed prompt that could recreate it.")
                None;
              mkPart image_url_type None
                (Some ("data:" ++ mimeType ++ ";base64," ++ toBase64 imageBuffer))]) in
  model request = "gpt-4o"
  /\ temperature request = "0.7"
  /\ response_format request = None
  /\ (env !! "SYSTEM_PROMPT_IMAGE_UNDERSTAND" = Some EmptyString ->
      messages request = [userMessage])
  /\ (forall p, env !! "SYSTEM_PROMPT_IMAGE_UNDERSTAND" = Some p -> p <> EmptyString ->
      messages request = [mkMessage system (Text p); userMessage])
  /\ (env !! "SYSTEM_PROMPT_IMAGE_UNDERSTAND" = None ->
      DEFAULT_SYSTEM_PROMPT_IMAGE_UNDERSTAND D <> EmptyString ->
      messages request
      = [mkMessage system (Text (DEFAULT_SYSTEM_PROMPT_IMAGE_UNDERSTAND D)); userMessage])
  /\ (env !! "SYSTEM_PROMPT_PROMPT_EDITOR" = Some EmptyString ->
      forall basePrompt userInstructions referenceImageBuffers,
        head (messages (applyUserInstructions_request toBase64 cfg basePrompt
                          userInstructions referenceImageBuffers))
        = Some (mkMessage system (Text EmptyString))).
Proof.
  intros Hc request userMessage.
  destruct (loadConfig_optional_fields P D env cfg Hc) as (_ & H1 & H2).
  split; [reflexivity|]. split; [reflexivity|]. split; [reflexivity|].
  unfold request, reconstructPromptFromImage_request, analyzeImage_request,
    chatCompletions_request. cbn [messages]. rewrite H1. unfold getenv_or.
  split; [|split; [|split]].
  - intros ->. reflexivity.
  - intros p -> Hp. destruct p; [congruence|reflexivity].
  - intros -> Hd. simpl. destruct (DEFAULT_SYSTEM_PROMPT_IMAGE_UNDERSTAND D);
      [congruence|reflexivity].
  - intros He basePrompt userInstructions referenceImageBuffers.
    unfold applyUserInstructions_request, chatCompletionsJSON_request,
      chatCompletions_request, modifiedMessages. cbn. rewrite H2. unfold getenv_or.
    now rewrite He.
Qed.

End ChatRequests.

Lemma empty_system_prompt_is_not_sent_witness :
  exists cfg,
    Config.loadConfig Sample.platform Sample.defaults
      (<["SYSTEM_PROMPT_IMAGE_UNDERSTAND" := EmptyString]> Sample.env) = Js.Ok cfg
    /\ length (Chat.messages
                 (Chat.reconstructPromptFromImage_request (fun b => b) cfg "PNG" "image/png"))
       = 1%nat.
Proof.
  assert (H : exists cfg,
            Config.loadConfig Sample.platform Sample.defaults
              (<["SYSTEM_PROMPT_IMAGE_UNDERSTAND" := EmptyString]> Sample.env) = Js.Ok cfg)
    by (vm_compute; eexists; reflexivity).
  destruct H as [cfg H]. exists cfg. split; [exact H|].
  destruct (empty_system_prompt_is_not_sent (fun b => b) _ _ _ cfg "PNG" "image/png" H)
    as (_ & _ & _ & He & _).
  rewrite He; [reflexivity|]. vm_compute. reflexivity.
Defined.

Section FrontendRoutes.
Import Js Frontend.

Lemma hex_upper_code n :
  (n < 16)%N ->
  JsString.code (hex_upper n) = (if (n <? 10)%N then 48 + n else 55 + n)%N.
Proof.
  intros Hn. unfold JsString.code, hex_upper. apply N_ascii_embedding.
  destruct (n <? 10)%N eqn:E; [apply N.ltb_lt in E|]; lia.
Qed.

Lemma code_bounded c : (JsString.code c < 256)%N.
Proof. apply N_ascii_bounded. Qed.

Lemma hex_upper_unreserved n : (n < 16)%N -> unreserved (hex_upper n) = true.
Proof.
  intros Hn. unfold unreserved, is_alnum, JsString.is_upper, JsString.is_lower,
    Json.is_digit.
  rewrite (hex_upper_code n Hn).
  destruct (n <? 10)%N eqn:E.
  - apply N.ltb_lt in E.
    replace (48 <=? 48 + n)%N with true by (symmetry; apply N.leb_le; lia).
    replace (48 + n <=? 57)%N with true by (symmetry; apply N.leb_le; lia).
    simpl. now rewrite !orb_true_r.
  - apply N.ltb_ge in E.
    replace (65 <=? 55 + n)%N with true by (symmetry; apply N.leb_le; lia).
    replace (55 + n <=? 90)%N with true by (symmetry; apply N.leb_le; lia).
    reflexivity.
Qed.

Lemma hex_upper_inj a b :
  (a < 16)%N -> (b < 16)%N -> hex_upper a = hex_upper b -> a = b.
Proof.
  intros Ha Hb H. apply (f_equal JsString.code) in H.
  rewrite !hex_upper_code in H by assumption.
  destruct (a <? 10)%N eqn:Ea; destruct (b <? 10)%N eqn:Eb;
    try apply N.ltb_lt in Ea; try apply N.ltb_lt in Eb;
    try apply N.ltb_ge in Ea; try apply N.ltb_ge in Eb; lia.
Qed.

Lemma percent_inj c d : percent c = percent d -> c = d.
Proof.
  unfold percent. intros H. injection H as H1 H2.
  pose proof (code_bounded c) as Hc. pose proof (code_bounded d) as Hd.
  apply hex_upper_inj in H1; [|apply N.Div0.div_lt_upper_bound; lia..].
  apply hex_upper_inj in H2; [|apply N.mod_lt; lia..].
  assert (Hcode : JsString.code c = JsString.code d).
  { rewrite (N.div_mod (JsString.code c) 16), (N.div_mod (JsString.code d) 16) by lia.
    now rewrite H1, H2. }
  unfold JsString.code in Hcode.
  rewrite <- (ascii_N_embedding c), <- (ascii_N_embedding d). now rewrite Hcode.
Qed.

Lemma encode_cons_kept c r :
  unreserved c = true -> encodeURIComponent (String c r) = String c (encodeURIComponent r).
Proof. intros H. cbn [encodeURIComponent]. now rewrite H. Qed.

Lemma encode_cons_escaped c r :
  unreserved c = false ->
  encodeURIComponent (String c r)
  = String "%" (String (hex_upper (JsString.code c / 16))
                  (String (hex_upper (JsString.code c mod 16)) (encodeURIComponent r))).
Proof. intros H. cbn [encodeURIComponent]. now rewrite H. Qed.

Lemma encodeURIComponent_inj s t :
  encodeURIComponent s = encodeURIComponent t -> s = t.
Proof.
  revert t. induction s as [|c r IH]; intros [|d r'].
  - reflexivity.
  - destruct (unreserved d) eqn:Hd;
      [rewrite (encode_cons_kept d r' Hd)|rewrite (encode_cons_escaped d r' Hd)];
      discriminate.
  - destruct (unreserved c) eqn:Hc;
      [rewrite (encode_cons_kept c r Hc)|rewrite (encode_cons_escaped c r Hc)];
      discriminate.
  - destruct (unreserved c) eqn:Hc; destruct (unreserved d) eqn:Hd;
      repeat match goal with
      | H : unreserved ?x = true |- context [encodeURIComponent (String ?x ?y)] =>
          rewrite (encode_cons_kept x y H)
      | H : unreserved ?x = false |- context [encodeURIComponent (String ?x ?y)] =>
          rewrite (encode_cons_escaped x y H)
      end; intros H.
    + injection H as -> H. now rewrite (IH _ H).
    + injection H as -> _. discriminate Hc.
    + injection H as <- _. discriminate Hd.
    + injection H as H1 H2 H3.
      assert (Hcd : percent c = percent d) by (unfold percent; now rewrite H1, H2).
      apply percent_inj in Hcd. subst d. now rewrite (IH _ H3).
Qed.

Lemma encodeURIComponent_excludes s (d : ascii) :
  unreserved d = false -> d <> "%"%char ->
  JsString.includes (encodeURIComponent s) (String d EmptyString) = false.
Proof.
  intros Hd Hp. induction s as [|c r IH]; [reflexivity|].
  assert (Hne : forall x, unreserved x = true -> Ascii.eqb d x = false).
  { intros x Hx. apply Ascii.eqb_neq. intros ->. congruence. }
  destruct (unreserved c) eqn:Hc.
  - rewrite (encode_cons_kept c r Hc), includes_char, IH, (Hne c Hc). reflexivity.
  - rewrite (encode_cons_escaped c r Hc), !includes_char, IH.
    pose proof (code_bounded c) as Hb.
    rewrite (Hne (hex_upper (JsString.code c / 16))), (Hne (hex_upper (JsString.code c mod 16))).
    + replace (Ascii.eqb d "%") with false; [reflexivity|].
      symmetry. now apply Ascii.eqb_neq.
    + apply hex_upper_unreserved. apply N.mod_lt. lia.
    + apply hex_upper_unreserved. apply N.Div0.div_lt_upper_bound. lia.
Qed.

(** X21: the image-proxy route of the frontend answers 400 without
    calling the backend when neither parameter has a value; otherwise
    it makes one backend call with a single parameter, the key
    whenever a key is given (the url is then ignored).  The value is
    percent-encoded: different values give different targets, and the
    encoded value holds no character that could end or split the
    parameter. *)
Theorem image_proxy_route_forwards_one_parameter
    refusal (env : gmap string string) fetch imageUrl imageKey :
  let run := GET refusal env fetch imageUrl imageKey in
  let target name value :=
    backendUrl env ++ "/api/image-proxy?" ++ name ++ "=" ++ encodeURIComponent value in
  (JsString.truthy_opt imageUrl = false -> JsString.truthy_opt imageKey = false ->
   run = (mkNextResponse (error_body "Missing required query parameter: url or key") 400
            [("content-type", "application/json")], []))
  /\ (forall key, imageKey = Some key -> key <> EmptyString ->
      snd run = [target "key" key]
      /\ forall otherUrl, GET refusal env fetch otherUrl imageKey = run)
  /\ (forall url, imageUrl = Some url -> url <> EmptyString ->
      JsString.truthy_opt imageKey = false ->
      snd run = [target "url" url])
  /\ (forall name value value',
        target name value = target name value' -> value = value')
  /\ (forall value,
        JsString.includes (encodeURIComponent value) "&" = false
        /\ JsString.includes (encodeURIComponent value) "=" = false
        /\ JsString.includes (encodeURIComponent value) "#" = false
        /\ JsString.includes (encodeURIComponent value) "?" = false
        /\ JsString.includes (encodeURIComponent value) "/" = false
        /\ JsString.includes (encodeURIComponent value) " " = false).
Proof.
  intros run target. split; [|split; [|split; [|split]]].
  - intros Hu Hk. unfold run, GET. now rewrite Hu, Hk.
  - intros key -> Hkey. unfold run, GET.
    assert (Ht : JsString.truthy_opt (Some key) = true) by (destruct key; [congruence|reflexivity]).
    rewrite Ht, andb_false_r. split; [reflexivity|].
    intros otherUrl. now rewrite andb_false_r.
  - intros url -> Hurl Hk. unfold run, GET. rewrite Hk.
    assert (Ht : JsString.truthy_opt (Some url) = true) by (destruct url; [congruence|reflexivity]).
    rewrite Ht. reflexivity.
  - intros name value value' H. unfold target in H.
    apply String.app_inj in H. apply String.app_inj in H.
    apply String.app_inj in H. apply String.app_inj in H.
    now apply encodeURIComponent_inj.
  - intros value. repeat split; apply encodeURIComponent_excludes;
      solve [reflexivity | discriminate].
Qed.

(** X22: when the image-proxy route of the frontend calls the backend,
    a failure answer is passed on with its status and text as JSON, a
    success answer becomes a 200 with the image bytes, the backend's
    content type (image/jpeg when it has none), a one-year immutable
    cache header and an open CORS header, and every failure of the
    call, of reading the answer or of building the response becomes a
    500 with a JSON error. *)
Theorem image_proxy_route_outcomes
    refusal (env : gmap string string) fetch imageUrl imageKey target :
  snd (GET refusal env fetch imageUrl imageKey) = [target] ->
  let response := fst (GET refusal env fetch imageUrl imageKey) in
  let failure error :=
    mkNextResponse
      (error_body
         match error with
         | CaughtError _ _ message => "Network error: " ++ message
         | CaughtOther => "Unknown error occurred while fetching image"
         end)
      500 [("content-type", "application/json")] in
  (forall answer errorText,
      fetch target = Resolved answer -> Env.http_ok (br_status answer) = false ->
      br_text answer = Resolved errorText ->
      response
      = if valid_init (br_status answer)
        then mkNextResponse errorText (br_status answer)
               [("content-type", "application/json")]
        else failure (refusal (br_status answer)))
  /\ (forall answer imageBuffer,
        fetch target = Resolved answer -> Env.http_ok (br_status answer) = true ->
        br_arrayBuffer answer = Resolved imageBuffer ->
        response
        = mkNextResponse imageBuffer 200
            [("content-type",
              match br_contentType answer with
              | Some (String c t) => String c t
              | _ => "image/jpeg"
              end);
             ("cache-control", "public, max-age=31536000, immutable");
             ("access-control-allow-origin", "*")])
  /\ (forall error, fetch target = Rejected error -> response = failure error)
  /\ (forall answer error,
        fetch target = Resolved answer ->
        (if Env.http_ok (br_status answer) then br_arrayBuffer answer else br_text answer)
        = Rejected error ->
        response = failure error).
Proof.
  unfold GET.
  destruct (negb (JsString.truthy_opt imageUrl) && negb (JsString.truthy_opt imageKey));
    [discriminate|].
  cbn [fst snd]. intros H. inversion H as [Ht]. rewrite Ht. clear H Ht.
  split; [|split; [|split]].
  - intros answer errorText -> Hok ->. rewrite Hok. unfold new_NextResponse.
    destruct (valid_init (br_status answer)); reflexivity.
  - intros answer imageBuffer -> Hok ->. rewrite Hok. simpl.
    destruct (br_contentType answer) as [[|c t]|]; reflexivity.
  - intros error ->. reflexivity.
  - intros answer error ->. destruct (Env.http_ok (br_status answer)); simpl;
      intros ->; reflexivity.
Qed.

(** X23: the image-flow route of the frontend passes the backend's
    answer through, whatever its status: same status, same text, the
    backend's content type or application/json.  A failed call is
    answered 500 with a message chosen by the kind of failure (timeout,
    connection, other), as is a status the response constructor
    refuses; only a failure to read the incoming form is not caught. *)
Theorem image_flow_route_passes_the_answer_through refusal fetch :
  let failure error :=
    mkNextResponse
      (error_body
         match error with
         | CaughtError name has_code message =>
             if String.eqb name "AbortError"
             then "Request timeout - the image generation is taking too long. Please try again."
             else if has_code || JsString.includes message "ECONNRESET"
                     || JsString.includes message "fetch failed"
             then "Connection to backend failed. Please ensure the backend server is running on port 4000 and try again."
             else "Network error: " ++ message
         | CaughtOther => "Unknown error occurred while processing the request"
         end)
      500 [("content-type", "application/json")] in
  (forall answer payload,
      fetch = Resolved answer -> br_text answer = Resolved payload ->
      POST refusal (Resolved tt) fetch
      = Resolved
          (if valid_init (br_status answer)
           then mkNextResponse payload (br_status answer)
                  [("content-type",
                    match br_contentType answer with
                    | Some contentType => contentType
                    | None => "application/json"
                    end)]
           else failure (refusal (br_status answer))))
  /\ (forall error,
        fetch = Rejected error
        \/ (exists answer, fetch = Resolved answer /\ br_text answer = Rejected error) ->
        POST refusal (Resolved tt) fetch = Resolved (failure error))
  /\ (forall error, POST refusal (Rejected error) fetch = Rejected error)
  /\ (forall status, valid_init status = true <->
        (200 <= status <= 599)%Z /\ status <> 204%Z /\ status <> 205%Z /\ status <> 304%Z).
Proof.
  intros failure.
  assert (Hcaught : forall error,
    mkNextResponse
      (error_body
         (if match error with
             | CaughtError name _ _ => String.eqb name "AbortError"
             | CaughtOther => false
             end
          then "Request timeout - the image generation is taking too long. Please try again."
          else if match error with
                  | CaughtError _ has_code message =>
                      has_code || JsString.includes message "ECONNRESET"
                      || JsString.includes message "fetch failed"
                  | CaughtOther => false
                  end
          then "Connection to backend failed. Please ensure the backend server is running on port 4000 and try again."
          else match error with
               | CaughtError _ _ message => "Network error: " ++ message
               | CaughtOther => "Unknown error occurred while processing the request"
               end))
      500 json_headers
    = failure error).
  { intros [name has_code message|]; [|reflexivity]. unfold failure.
    destruct (String.eqb name "AbortError"); [reflexivity|].
    destruct (has_code || _ || _); reflexivity. }
  split; [|split; [|split]].
  - intros answer payload -> Hp. unfold POST, new_NextResponse. rewrite Hp.
    destruct (valid_init (br_status answer)).
    + destruct (br_contentType answer); reflexivity.
    + now rewrite Hcaught.
  - intros error [->|(answer & -> & Ht)]; unfold POST; [|rewrite Ht];
      now rewrite Hcaught.
  - intros error. reflexivity.
  - intros status. unfold valid_init, null_body_status.
    rewrite andb_true_iff, andb_true_iff, negb_true_iff, !orb_false_iff,
      !Z.leb_le, !Z.eqb_neq. lia.
Qed.

(** X24: [runFlow] always ends with the loading flag off.  It holds a
    result exactly when the backend answered with a success status and
    a readable JSON body; the success callback is called at most once,
    and only with that result.  A failure answer sets the error to the
    answer's text, or to a fixed message when the text is empty, and a
    run that ends without an error has a result. *)
Theorem runFlow_outcomes fetch onSuccess :
  let run := runFlow fetch onSuccess in
  isLoading (fst run) = false
  /\ (forall data,
        result (fst run) = Some data <->
        exists answer, fetch = Resolved answer
          /\ Env.http_ok (fl_status answer) = true /\ fl_json answer = Resolved data)
  /\ (forall data, In data (snd run) ->
        snd run = [data] /\ result (fst run) = Some data /\ onSuccess <> None)
  /\ (forall answer message,
        fetch = Resolved answer -> Env.http_ok (fl_status answer) = false ->
        fl_text answer = Resolved message ->
        run = (mkFlowState false (Some "Orchestrating prompt pipeline")
                 (Some match message with
                       | EmptyString => "Image flow failed"
                       | _ => message
                       end)
                 None, []))
  /\ (error (fst run) = None -> exists data, result (fst run) = Some data).
Proof.
  intros run. unfold run, runFlow.
  destruct fetch as [answer|err]; cbn [fst snd isLoading result error];
    [destruct (Env.http_ok (fl_status answer)) eqn:Hok; cbn [negb];
     [destruct (fl_json answer) as [data|err] eqn:Hj;
      [destruct onSuccess as [callback|]; [destruct (callback data)|]|]
     |destruct (fl_text answer) as [message|err] eqn:Ht]|];
    cbn [fst snd isLoading result error];
    repeat match goal with
    | |- _ /\ _ => split
    | |- _ <-> _ => split
    | |- forall _, _ => intro
    | H : exists _, _ |- _ => destruct H
    | H : _ /\ _ |- _ => destruct H
    | H : In _ [] |- _ => destruct H
    | H : In _ [_] |- _ => destruct H as [<-|[]]
    | H : Resolved _ = Resolved _ |- _ => inversion H; subst; clear H
    | H : Some _ = Some _ |- _ => inversion H; subst; clear H
    end;
    try discriminate; try congruence; eauto.
  rewrite Ht in H1. inversion H1; subst. destruct message0; reflexivity.
Qed.

(** X25: [getTimeAgo] labels an entry by the whole minutes, hours or
    days that have passed: under a minute (or a timestamp in the
    future) it is Just now; the minutes shown are between 1 and 59, the
    hours between 1 and 23, the days between 1 and 6, each rounded
    down; from seven days on the date is shown. *)
Theorem getTimeAgo_ranges toLocaleDateString (now timestamp : Z) :
  let elapsed := (now - timestamp)%Z in
  let label := getTimeAgo toLocaleDateString now timestamp in
  ((elapsed < 60000)%Z -> label = "Just now")
  /\ ((60000 <= elapsed < 3600000)%Z ->
      exists minutes, (1 <= minutes <= 59)%Z
        /\ (60000 * minutes <= elapsed < 60000 * (minutes + 1))%Z
        /\ label = pretty minutes ++ "m ago")
  /\ ((3600000 <= elapsed < 86400000)%Z ->
      exists hours, (1 <= hours <= 23)%Z
        /\ (3600000 * hours <= elapsed < 3600000 * (hours + 1))%Z
        /\ label = pretty hours ++ "h ago")
  /\ ((86400000 <= elapsed < 604800000)%Z ->
      exists days, (1 <= days <= 6)%Z
        /\ (86400000 * days <= elapsed < 86400000 * (days + 1))%Z
        /\ label = pretty days ++ "d ago")
  /\ ((604800000 <= elapsed)%Z -> label = toLocaleDateString timestamp).
Proof.
  intros elapsed label. unfold label, getTimeAgo. fold elapsed.
  set (seconds := (elapsed / 1000)%Z).
  assert (Hs : (1000 * seconds <= elapsed < 1000 * seconds + 1000)%Z).
  { unfold seconds. pose proof (Z.div_mod elapsed 1000 ltac:(lia)).
    pose proof (Z.mod_pos_bound elapsed 1000 ltac:(lia)). lia. }
  assert (Hdiv : forall d, (0 < d)%Z ->
            (d * (seconds / d) <= seconds < d * (seconds / d) + d)%Z).
  { intros d Hd. pose proof (Z.div_mod seconds d ltac:(lia)).
    pose proof (Z.mod_pos_bound seconds d ltac:(lia)). lia. }
  repeat split.
  - intros H. replace (seconds <? 60)%Z with true; [reflexivity|].
    symmetry. apply Z.ltb_lt. lia.
  - intros H. exists (seconds / 60)%Z. pose proof (Hdiv 60%Z ltac:(lia)).
    replace (seconds <? 60)%Z with false by (symmetry; apply Z.ltb_ge; lia).
    replace (seconds <? 3600)%Z with true by (symmetry; apply Z.ltb_lt; lia).
    repeat split; lia.
  - intros H. exists (seconds / 3600)%Z. pose proof (Hdiv 3600%Z ltac:(lia)).
    replace (seconds <? 60)%Z with false by (symmetry; apply Z.ltb_ge; lia).
    replace (seconds <? 3600)%Z with false by (symmetry; apply Z.ltb_ge; lia).
    replace (seconds <? 86400)%Z with true by (symmetry; apply Z.ltb_lt; lia).
    repeat split; lia.
  - intros H. exists (seconds / 86400)%Z. pose proof (Hdiv 86400%Z ltac:(lia)).
    replace (seconds <? 60)%Z with false by (symmetry; apply Z.ltb_ge; lia).
    replace (seconds <? 3600)%Z with false by (symmetry; apply Z.ltb_ge; lia).
    replace (seconds <? 86400)%Z with false by (symmetry; apply Z.ltb_ge; lia).
    replace (seconds <? 604800)%Z with true by (symmetry; apply Z.ltb_lt; lia).
    repeat split; lia.
  - intros H.
    replace (seconds <? 60)%Z with false by (symmetry; apply Z.ltb_ge; lia).
    replace (seconds <? 3600)%Z with false by (symmetry; apply Z.ltb_ge; lia).
    replace (seconds <? 86400)%Z with false by (symmetry; apply Z.ltb_ge; lia).
    replace (seconds <? 604800)%Z with false by (symmetry; apply Z.ltb_ge; lia).
    reflexivity.
Qed.

End FrontendRoutes.

Lemma image_proxy_route_outcomes_witness :
  fst (Frontend.GET (fun _ => Frontend.CaughtOther) ∅
         (fun _ => Frontend.Resolved
                     (Frontend.mkBackendResponse 404 None (Frontend.Resolved "not found")
                        (Frontend.Rejected Frontend.CaughtOther)))
         None (Some "a b.png"))
  = Frontend.mkNextResponse "not found" 404 [("content-type", "application/json")].
Proof.
  exact (proj1 (image_proxy_route_outcomes (fun _ => Frontend.CaughtOther) ∅ _ None
                  (Some "a b.png") "http://localhost:4000/api/image-proxy?key=a%20b.png"
                  eq_refl)
           (Frontend.mkBackendResponse 404 None (Frontend.Resolved "not found")
              (Frontend.Rejected Frontend.CaughtOther))
           "not found" eq_refl eq_refl eq_refl).
Defined.
